(** * Sales-transaction and stock-ledger engine of the pharmacy back end

    A shallow embedding of the stock handlers (createStockTransaction) and of
    the sales handlers (createSalesTransaction, cancelSalesTransaction) of
    server/src/handlers, together with the tables of server/src/db/schema.ts
    they read and write and the zod input schemas of server/src/schema.ts the
    tRPC router of server/src/index.ts applies before it calls them.

    Conventions of the embedding:
    - a table is the list of its rows in insertion order; a [serial] column
      is fed by a counter of the store;
    - an [integer] column and an integer JS number are a [Z];
    - a JS [number] that carries money is an IEEE-754 binary64 value, Rocq's
      primitive [float];
    - a [numeric(10,2)] column holds an exact decimal with two fractional
      digits, kept as its number of hundredths (a [Z]);
    - a handler is a function from the store to the store it leaves behind
      and either the value it returns or the error it throws.  Statements of
      the entity store themselves never fail here: range overflow of a
      column and lost connections are outside the model;
    - [new Date()] and [defaultNow()] read the clock value passed to the
      handler;
    - the [try]/[catch] around each handler logs and throws again, and is
      left out. *)

From Stdlib Require Import ZArith String Bool Lia Floats DecimalString List.
From Stdlib Require Import Permutation Sorted.
Import ListNotations.
Local Open Scope Z_scope.

(** ** Enumerations of db/schema.ts *)

Inductive StockTransactionType := IN | OUT.
Inductive PaymentMethod := CASH | DEBIT | CREDIT | TRANSFER.
Inductive TransactionStatus := PENDING | COMPLETED | CANCELLED.

Definition TransactionStatus_eqb (a b : TransactionStatus) : bool :=
  match a, b with
  | PENDING, PENDING | COMPLETED, COMPLETED | CANCELLED, CANCELLED => true
  | _, _ => false
  end.

Definition timestamp := Z.

(** The value of a [numeric(10,2)] column, in hundredths. *)
Definition numeric := Z.

(** ** JS numbers and their passage through a numeric column *)

Definition number := float.

(** The JS number of an integer (exact below 2^53). *)
Definition number_of_Z (z : Z) : number :=
  match z with
  | Z0 => PrimFloat.zero
  | Zpos _ => PrimFloat.of_uint63 (Uint63.of_Z z)
  | Zneg p => PrimFloat.opp (PrimFloat.of_uint63 (Uint63.of_Z (Zpos p)))
  end.

(** [parseFloat] of the decimal text of a numeric(10,2) value: the binary64
    number nearest to c/100, which is what the correctly rounded quotient of
    the two exactly representable integers is. *)
Definition parseFloat (c : numeric) : number :=
  PrimFloat.div (number_of_Z c) (number_of_Z 100).

(** [x.toString()] written into a numeric(10,2) column: the shortest decimal
    text that reads back as [x], rounded by the column to two fractional
    digits, ties away from zero.  With [c] the hundredths below |x| the
    result is [c + 1] when the exact value of |x| reaches the midpoint
    (2c+1)/200, or when that midpoint is itself the shortest text of |x|
    (it reads back as |x|), and [c] otherwise.  The column has no place
    for the infinities and holds a not-a-number as such; here they are
    given 0, and the statements on amounts are on the finite ones. *)
Definition toNumeric (x : number) : numeric :=
  match Prim2SF x with
  | S754_finite s m e =>
      let n := 100 * Zpos m * (if 0 <=? e then 2 ^ e else 1) in
      let d := if 0 <=? e then 1 else 2 ^ (- e) in
      let c := n / d in
      let up :=
        ((2 * c + 1) * d <=? 2 * n)
        || PrimFloat.eqb
             (PrimFloat.div (number_of_Z (2 * c + 1)) (number_of_Z 200))
             (PrimFloat.abs x) in
      let r := if up then c + 1 else c in
      if s then - r else r
  | _ => 0
  end.

(** Integers inside template literals. *)
Definition string_of_Z (z : Z) : string := NilZero.string_of_int (Z.to_int z).

(** ** Rows of the tables (db/schema.ts) *)

Module Medicine.
Record t := mk {
  id : Z;
  name : string;
  unit : string;
  price : numeric;
  minimum_stock : Z;
  current_stock : Z;
  updated_at : timestamp
}.
(** [.set({ current_stock, updated_at })] on one row. *)
Definition set_stock (v : Z) (now : timestamp) (m : t) : t :=
  mk (id m) (name m) (unit m) (price m) (minimum_stock m) v now.
End Medicine.

Module StockTransaction.
Record t := mk {
  id : Z;
  medicine_id : Z;
  type : StockTransactionType;
  quantity : Z;
  notes : option string;
  transaction_date : timestamp;
  created_at : timestamp
}.
End StockTransaction.

Module SalesTransaction.
Record t := mk {
  id : Z;
  patient_id : option Z;
  total_amount : numeric;
  payment_method : PaymentMethod;
  payment_received : numeric;
  change_amount : numeric;
  status : TransactionStatus;
  notes : option string;
  transaction_date : timestamp;
  created_at : timestamp
}.
(** [.set({ status })] on one row. *)
Definition set_status (s : TransactionStatus) (r : t) : t :=
  mk (id r) (patient_id r) (total_amount r) (payment_method r)
     (payment_received r) (change_amount r) s (notes r)
     (transaction_date r) (created_at r).
End SalesTransaction.

Module SalesTransactionItem.
Record t := mk {
  id : Z;
  transaction_id : Z;
  medicine_id : Z;
  quantity : Z;
  unit_price : numeric;
  total_price : numeric;
  created_at : timestamp
}.
End SalesTransactionItem.

(** ** Inputs and results of the handlers (schema.ts) *)

Record CreateStockTransactionInput := {
  cst_medicine_id : Z;
  cst_type : StockTransactionType;
  cst_quantity : Z;
  cst_notes : option string
}.

Record CartLine := {
  medicine_id : Z;
  quantity : Z
}.

Record CreateSalesTransactionInput := {
  patient_id : option Z;
  payment_method : PaymentMethod;
  payment_received : number;
  notes : option string;
  items : list CartLine
}.

(** The sale as the handlers return it: the row, its three amounts read
    back with [parseFloat]. *)
Record SalesTransactionView := {
  row : SalesTransaction.t;
  view_total_amount : number;
  view_payment_received : number;
  view_change_amount : number
}.

(** ** The entity store *)

Record Store := {
  medicinesTable : list Medicine.t;
  stockTransactionsTable : list StockTransaction.t;
  salesTransactionsTable : list SalesTransaction.t;
  salesTransactionItemsTable : list SalesTransactionItem.t;
  stockTransactions_serial : Z;
  salesTransactions_serial : Z;
  salesTransactionItems_serial : Z
}.

(** ** Errors *)

Inductive Thrown :=
| MedicineNotFound (id : Z)
| InsufficientStock (medicine : option string) (available requested : Z)
| PaymentLessThanTotal
| ZodError (message : string).

(** The message of the thrown [Error]. *)
Definition message (e : Thrown) : string :=
  match e with
  | MedicineNotFound i =>
      "Medicine with ID " ++ string_of_Z i ++ " not found"
  | InsufficientStock None a r =>
      "Insufficient stock. Available: " ++ string_of_Z a
        ++ ", Required: " ++ string_of_Z r
  | InsufficientStock (Some n) a r =>
      "Insufficient stock for " ++ n ++ ". Available: " ++ string_of_Z a
        ++ ", Requested: " ++ string_of_Z r
  | PaymentLessThanTotal => "Payment received is less than total amount"
  | ZodError m => m
  end%string.

Inductive Result (A : Type) :=
| Ok (a : A)
| Err (e : Thrown).
Arguments Ok {A} a.
Arguments Err {A} e.

(** ** Handlers: store passing with exceptions *)

Definition Handler (A : Type) := Store -> Store * Result A.

Definition ret {A} (a : A) : Handler A := fun db => (db, Ok a).
Definition throw {A} (e : Thrown) : Handler A := fun db => (db, Err e).
Definition bind {A B} (m : Handler A) (k : A -> Handler B) : Handler B :=
  fun db =>
    match m db with
    | (db', Ok a) => k a db'
    | (db', Err e) => (db', Err e)
    end.

Notation "x <- m ;; k" := (bind m (fun x => k))
  (at level 61, m at next level, right associativity).
Notation "m ;;; k" := (bind m (fun _ => k))
  (at level 61, right associativity).

(** [for (const x of xs) { body }] *)
Fixpoint for_of {A} (xs : list A) (body : A -> Handler unit) : Handler unit :=
  match xs with
  | [] => ret tt
  | x :: rest => body x ;;; for_of rest body
  end.

(** [for (const x of xs) { ...; out.push(v) }], giving [out]. *)
Fixpoint for_of_push {A B} (xs : list A) (body : A -> Handler B)
  : Handler (list B) :=
  match xs with
  | [] => ret []
  | x :: rest =>
      v <- body x ;;
      vs <- for_of_push rest body ;;
      ret (v :: vs)
  end.

(** ** Statements against the store *)

Definition with_medicines (ms : list Medicine.t) (db : Store) : Store :=
  {| medicinesTable := ms;
     stockTransactionsTable := stockTransactionsTable db;
     salesTransactionsTable := salesTransactionsTable db;
     salesTransactionItemsTable := salesTransactionItemsTable db;
     stockTransactions_serial := stockTransactions_serial db;
     salesTransactions_serial := salesTransactions_serial db;
     salesTransactionItems_serial := salesTransactionItems_serial db |}.

(** [db.select().from(medicinesTable).where(eq(medicinesTable.id, id))] *)
Definition medicines_where_id (i : Z) (ms : list Medicine.t) : list Medicine.t :=
  filter (fun m => Medicine.id m =? i) ms.

Definition select_medicines (i : Z) : Handler (list Medicine.t) :=
  fun db => (db, Ok (medicines_where_id i (medicinesTable db))).

(** [db.update(medicinesTable).set({current_stock, updated_at}).where(eq(id))] *)
Definition set_stock_where_id (i v : Z) (now : timestamp)
    (ms : list Medicine.t) : list Medicine.t :=
  map (fun m => if Medicine.id m =? i then Medicine.set_stock v now m else m) ms.

Definition update_medicine_stock (i v : Z) (now : timestamp) : Handler unit :=
  fun db => (with_medicines (set_stock_where_id i v now (medicinesTable db)) db, Ok tt).

(** [db.insert(stockTransactionsTable).values({...}).returning()] *)
Definition insert_stockTransaction (mid : Z) (ty : StockTransactionType)
    (q : Z) (n : option string) (now : timestamp)
  : Handler StockTransaction.t :=
  fun db =>
    let r := StockTransaction.mk (stockTransactions_serial db) mid ty q n now now in
    ({| medicinesTable := medicinesTable db;
        stockTransactionsTable := stockTransactionsTable db ++ [r];
        salesTransactionsTable := salesTransactionsTable db;
        salesTransactionItemsTable := salesTransactionItemsTable db;
        stockTransactions_serial := stockTransactions_serial db + 1;
        salesTransactions_serial := salesTransactions_serial db;
        salesTransactionItems_serial := salesTransactionItems_serial db |},
     Ok r).

(** [db.insert(salesTransactionsTable).values({...}).returning()], when
    the database takes the row: the patient, if one is named, is in the
    patients table, and the amounts have fewer than nine digits before the
    point. *)
Definition insert_salesTransaction (p : option Z) (total : numeric)
    (pm : PaymentMethod) (received change : numeric) (st : TransactionStatus)
    (n : option string) (now : timestamp)
  : Handler SalesTransaction.t :=
  fun db =>
    let r := SalesTransaction.mk (salesTransactions_serial db) p total pm
               received change st n now now in
    ({| medicinesTable := medicinesTable db;
        stockTransactionsTable := stockTransactionsTable db;
        salesTransactionsTable := salesTransactionsTable db ++ [r];
        salesTransactionItemsTable := salesTransactionItemsTable db;
        stockTransactions_serial := stockTransactions_serial db;
        salesTransactions_serial := salesTransactions_serial db + 1;
        salesTransactionItems_serial := salesTransactionItems_serial db |},
     Ok r).

(** [db.insert(salesTransactionItemsTable).values({...})] *)
Definition insert_salesTransactionItem (tid mid q : Z) (unit_price total_price : numeric)
    (now : timestamp) : Handler unit :=
  fun db =>
    let r := SalesTransactionItem.mk (salesTransactionItems_serial db) tid mid q
               unit_price total_price now in
    ({| medicinesTable := medicinesTable db;
        stockTransactionsTable := stockTransactionsTable db;
        salesTransactionsTable := salesTransactionsTable db;
        salesTransactionItemsTable := salesTransactionItemsTable db ++ [r];
        stockTransactions_serial := stockTransactions_serial db;
        salesTransactions_serial := salesTransactions_serial db;
        salesTransactionItems_serial := salesTransactionItems_serial db + 1 |},
     Ok tt).

(** [db.select().from(salesTransactionsTable).where(eq(id))] *)
Definition sales_where_id (i : Z) (l : list SalesTransaction.t)
  : list SalesTransaction.t :=
  filter (fun r => SalesTransaction.id r =? i) l.

Definition select_salesTransactions (i : Z) : Handler (list SalesTransaction.t) :=
  fun db => (db, Ok (sales_where_id i (salesTransactionsTable db))).

(** [db.select().from(salesTransactionItemsTable).where(eq(transaction_id, id))] *)
Definition items_where_transaction_id (i : Z) (l : list SalesTransactionItem.t)
  : list SalesTransactionItem.t :=
  filter (fun r => SalesTransactionItem.transaction_id r =? i) l.

Definition select_salesTransactionItems (i : Z)
  : Handler (list SalesTransactionItem.t) :=
  fun db => (db, Ok (items_where_transaction_id i (salesTransactionItemsTable db))).

(** [db.update(salesTransactionsTable).set({ status }).where(eq(id))] *)
Definition set_status_where_id (i : Z) (s : TransactionStatus)
    (l : list SalesTransaction.t) : list SalesTransaction.t :=
  map (fun r => if SalesTransaction.id r =? i
                then SalesTransaction.set_status s r else r) l.

Definition update_salesTransaction_status (i : Z) (s : TransactionStatus)
  : Handler unit :=
  fun db =>
    ({| medicinesTable := medicinesTable db;
        stockTransactionsTable := stockTransactionsTable db;
        salesTransactionsTable := set_status_where_id i s (salesTransactionsTable db);
        salesTransactionItemsTable := salesTransactionItemsTable db;
        stockTransactions_serial := stockTransactions_serial db;
        salesTransactions_serial := salesTransactions_serial db;
        salesTransactionItems_serial := salesTransactionItems_serial db |},
     Ok tt).

(** ** [createStockTransaction] (handlers/stock_handlers.ts, lines 53-108)

    The handler over all integers.  The columns hold 32-bit integers;
    [createStockTransaction_int4] below is the handler with what the
    database refuses. *)

Definition createStockTransaction (now : timestamp)
    (input : CreateStockTransactionInput) : Handler StockTransaction.t :=
  (* 1. Validate that medicine exists and get current stock *)
  medicine <- select_medicines (cst_medicine_id input) ;;
  match medicine with
  | [] => throw (MedicineNotFound (cst_medicine_id input))
  | currentMedicine :: _ =>
      (* 2. For OUT transactions, check if sufficient stock is available *)
      if match cst_type input with OUT => true | IN => false end
         && (Medicine.current_stock currentMedicine <? cst_quantity input)
      then throw (InsufficientStock None
                    (Medicine.current_stock currentMedicine) (cst_quantity input))
      else
        (* 3. Insert stock transaction record *)
        createdTransaction <-
          insert_stockTransaction (cst_medicine_id input) (cst_type input)
            (cst_quantity input) (cst_notes input) now ;;
        (* 4. Update current_stock in medicines table *)
        let stockChange :=
          match cst_type input with
          | IN => cst_quantity input
          | OUT => - cst_quantity input
          end in
        let newStock := Medicine.current_stock currentMedicine + stockChange in
        update_medicine_stock (cst_medicine_id input) newStock now ;;;
        (* 5. Return the created transaction *)
        ret createdTransaction
  end.

(** ** [createSalesTransaction] and [cancelSalesTransaction]

    The sales handlers, which the sources carry behind the stock handlers
    (handlers/stock_handlers.ts, lines 186-292 and 465-531). *)

(** [{ ...medicineRecord, requestedQuantity }] *)
Record MedicineData := {
  medicineRecord : Medicine.t;
  requestedQuantity : Z
}.

(** One turn of the validation loop. *)
Definition validate_line (item : CartLine) : Handler MedicineData :=
  medicine <- select_medicines (medicine_id item) ;;
  match medicine with
  | [] => throw (MedicineNotFound (medicine_id item))
  | rec :: _ =>
      if Medicine.current_stock rec <? quantity item
      then throw (InsufficientStock (Some (Medicine.name rec))
                    (Medicine.current_stock rec) (quantity item))
      else ret {| medicineRecord := rec; requestedQuantity := quantity item |}
  end.

(** [parseFloat(med.price) * med.requestedQuantity] *)
Definition totalPrice (med : MedicineData) : number :=
  PrimFloat.mul (parseFloat (Medicine.price (medicineRecord med)))
                (number_of_Z (requestedQuantity med)).

(** [totalAmount], as the [map] callback accumulates it from 0. *)
Definition totalAmount (medicineData : list MedicineData) : number :=
  fold_left (fun acc med => PrimFloat.add acc (totalPrice med))
            medicineData PrimFloat.zero.

Definition createSalesTransaction (now : timestamp)
    (input : CreateSalesTransactionInput) : Handler SalesTransactionView :=
  (* Validate medicines and check stock *)
  medicineData <- for_of_push (items input) validate_line ;;
  (* Calculate total amount *)
  let total := totalAmount medicineData in
  (* Calculate change *)
  let changeAmount := PrimFloat.sub (payment_received input) total in
  if PrimFloat.ltb changeAmount PrimFloat.zero
  then throw PaymentLessThanTotal
  else
    (* Create sales transaction *)
    transaction <-
      insert_salesTransaction (patient_id input) (toNumeric total)
        (payment_method input) (toNumeric (payment_received input))
        (toNumeric changeAmount) COMPLETED (notes input) now ;;
    (* Create transaction items *)
    for_of medicineData (fun med =>
      insert_salesTransactionItem (SalesTransaction.id transaction)
        (Medicine.id (medicineRecord med)) (requestedQuantity med)
        (toNumeric (parseFloat (Medicine.price (medicineRecord med))))
        (toNumeric (totalPrice med)) now) ;;;
    (* Update medicine stock and create stock transactions *)
    for_of medicineData (fun med =>
      update_medicine_stock (Medicine.id (medicineRecord med))
        (Medicine.current_stock (medicineRecord med) - requestedQuantity med) now ;;;
      _ <- insert_stockTransaction (Medicine.id (medicineRecord med)) OUT
             (requestedQuantity med)
             (Some ("Sales transaction #"
                      ++ string_of_Z (SalesTransaction.id transaction))%string)
             now ;;
      ret tt) ;;;
    (* Return transaction with converted numeric fields *)
    ret {| row := transaction;
           view_total_amount := parseFloat (SalesTransaction.total_amount transaction);
           view_payment_received :=
             parseFloat (SalesTransaction.payment_received transaction);
           view_change_amount := parseFloat (SalesTransaction.change_amount transaction) |}.

(** One turn of the restoring loop of [cancelSalesTransaction]. *)
Definition restore_line (now : timestamp) (id : Z) (item : SalesTransactionItem.t)
  : Handler unit :=
  (* Get current medicine data *)
  medicineResults <- select_medicines (SalesTransactionItem.medicine_id item) ;;
  match medicineResults with
  | medicine :: _ =>
      (* Restore stock *)
      update_medicine_stock (SalesTransactionItem.medicine_id item)
        (Medicine.current_stock medicine + SalesTransactionItem.quantity item) now ;;;
      (* Create stock IN transaction *)
      _ <- insert_stockTransaction (SalesTransactionItem.medicine_id item) IN
             (SalesTransactionItem.quantity item)
             (Some ("Cancelled sales transaction #" ++ string_of_Z id)%string)
             now ;;
      ret tt
  | [] => ret tt
  end.

Definition cancelSalesTransaction (now : timestamp) (id : Z) : Handler bool :=
  (* Check if transaction exists and is not already cancelled *)
  transactionResults <- select_salesTransactions id ;;
  match transactionResults with
  | [] => ret false
  | transaction :: _ =>
      if TransactionStatus_eqb (SalesTransaction.status transaction) CANCELLED
      then ret false (* Already cancelled *)
      else
        (* Get transaction items *)
        itemResults <- select_salesTransactionItems id ;;
        (* Update transaction status *)
        update_salesTransaction_status id CANCELLED ;;;
        (* Restore medicine stock and create stock IN transactions *)
        for_of itemResults (restore_line now id) ;;;
        ret true
  end.

(** ** The router (index.ts): zod schema, then handler

    The schemas are those of schema.ts, which the sources carry behind the
    patient handlers (handlers/patient_handlers.ts, lines 299-304 and
    375-384).  Of a rejected input the first issue is kept. *)

(** [createStockTransactionInputSchema]: [quantity] is
    [z.number().int().positive('Jumlah harus lebih dari 0')]. *)
Definition createStockTransactionInputSchema
    (input : CreateStockTransactionInput) : Result CreateStockTransactionInput :=
  if 0 <? cst_quantity input then Ok input
  else Err (ZodError "Jumlah harus lebih dari 0").


(** [stock.createTransaction] *)
Definition stock_createTransaction (now : timestamp)
    (raw : CreateStockTransactionInput) : Handler StockTransaction.t :=
  match createStockTransactionInputSchema raw with
  | Ok input => createStockTransaction now input
  | Err e => throw e
  end.


(** [sales.cancelTransaction] *)
Definition sales_cancelTransaction (now : timestamp) (id : Z) : Handler bool :=
  cancelSalesTransaction now id.

(** * Notions the statements are written with *)

(** The stock a [select] by id reads for a medicine. *)
Definition stock_in (i : Z) (ms : list Medicine.t) : option Z :=
  match medicines_where_id i ms with
  | m :: _ => Some (Medicine.current_stock m)
  | [] => None
  end.

Definition stock_of (i : Z) (db : Store) : option Z :=
  stock_in i (medicinesTable db).

Definition has_medicine (i : Z) (ms : list Medicine.t) : bool :=
  existsb (fun m => Medicine.id m =? i) ms.

(** The status a [select] by id reads for a sale. *)
Definition status_of (i : Z) (db : Store) : option TransactionStatus :=
  match sales_where_id i (salesTransactionsTable db) with
  | r :: _ => Some (SalesTransaction.status r)
  | [] => None
  end.

(** A ledger entry without its identity, note and time stamps. *)
Definition entry (r : StockTransaction.t) : Z * StockTransactionType * Z :=
  (StockTransaction.medicine_id r, StockTransaction.type r,
   StockTransaction.quantity r).

(** IN counts positive, OUT negative. *)
Definition signed (r : StockTransaction.t) : Z :=
  match StockTransaction.type r with
  | IN => StockTransaction.quantity r
  | OUT => - StockTransaction.quantity r
  end.

(** Signed sum of the ledger entries recorded against a medicine. *)
Fixpoint ledger_sum (i : Z) (l : list StockTransaction.t) : Z :=
  match l with
  | [] => 0
  | r :: rest =>
      (if StockTransaction.medicine_id r =? i then signed r else 0)
      + ledger_sum i rest
  end.

(** Quantity of the last cart line that names medicine [i]. *)
Fixpoint last_quantity (i : Z) (cart : list CartLine) : option Z :=
  match cart with
  | [] => None
  | l :: rest =>
      match last_quantity i rest with
      | Some q => Some q
      | None => if medicine_id l =? i then Some (quantity l) else None
      end
  end.

(** Combined quantity the cart asks of medicine [i]. *)
Fixpoint cart_quantity (i : Z) (cart : list CartLine) : Z :=
  match cart with
  | [] => 0
  | l :: rest =>
      (if medicine_id l =? i then quantity l else 0) + cart_quantity i rest
  end.

(** Combined quantity of the item rows that name medicine [i]. *)
Fixpoint items_quantity (i : Z) (l : list SalesTransactionItem.t) : Z :=
  match l with
  | [] => 0
  | it :: rest =>
      (if SalesTransactionItem.medicine_id it =? i
       then SalesTransactionItem.quantity it else 0)
      + items_quantity i rest
  end.

(** What the validation loop computes from the medicines table. *)
Fixpoint validate (ms : list Medicine.t) (cart : list CartLine)
  : Result (list MedicineData) :=
  match cart with
  | [] => Ok []
  | item :: rest =>
      match medicines_where_id (medicine_id item) ms with
      | [] => Err (MedicineNotFound (medicine_id item))
      | rec :: _ =>
          if Medicine.current_stock rec <? quantity item
          then Err (InsufficientStock (Some (Medicine.name rec))
                      (Medicine.current_stock rec) (quantity item))
          else match validate ms rest with
               | Ok vs => Ok ({| medicineRecord := rec;
                                 requestedQuantity := quantity item |} :: vs)
               | Err e => Err e
               end
      end
  end.

(** A validated line: the first row of its medicine, read before any
    write, with enough stock for this line alone. *)
Definition snapshot_of (ms : list Medicine.t) (l : CartLine) (med : MedicineData)
  : Prop :=
  (exists rest, medicines_where_id (medicine_id l) ms = medicineRecord med :: rest)
  /\ requestedQuantity med = quantity l
  /\ quantity l <= Medicine.current_stock (medicineRecord med).

(** The rows the two writing loops of [createSalesTransaction] add. *)
Fixpoint item_rows (tid : Z) (now : timestamp) (serial : Z)
    (md : list MedicineData) : list SalesTransactionItem.t :=
  match md with
  | [] => []
  | med :: rest =>
      SalesTransactionItem.mk serial tid (Medicine.id (medicineRecord med))
        (requestedQuantity med)
        (toNumeric (parseFloat (Medicine.price (medicineRecord med))))
        (toNumeric (totalPrice med)) now
      :: item_rows tid now (serial + 1) rest
  end.

Fixpoint out_rows (tid : Z) (now : timestamp) (serial : Z)
    (md : list MedicineData) : list StockTransaction.t :=
  match md with
  | [] => []
  | med :: rest =>
      StockTransaction.mk serial (Medicine.id (medicineRecord med)) OUT
        (requestedQuantity med)
        (Some ("Sales transaction #" ++ string_of_Z tid)%string) now now
      :: out_rows tid now (serial + 1) rest
  end.

(** The medicines table after the debiting loop. *)
Fixpoint debit (now : timestamp) (md : list MedicineData)
    (ms : list Medicine.t) : list Medicine.t :=
  match md with
  | [] => ms
  | med :: rest =>
      debit now rest
        (set_stock_where_id (Medicine.id (medicineRecord med))
           (Medicine.current_stock (medicineRecord med) - requestedQuantity med)
           now ms)
  end.

(** The store a sale leaves behind once validation and payment passed. *)
Definition sold (now : timestamp) (input : CreateSalesTransactionInput)
    (md : list MedicineData) (db : Store) : Store :=
  let total := totalAmount md in
  let tid := salesTransactions_serial db in
  {| medicinesTable := debit now md (medicinesTable db);
     stockTransactionsTable :=
       stockTransactionsTable db
         ++ out_rows tid now (stockTransactions_serial db) md;
     salesTransactionsTable :=
       salesTransactionsTable db
         ++ [SalesTransaction.mk tid (patient_id input) (toNumeric total)
               (payment_method input) (toNumeric (payment_received input))
               (toNumeric (PrimFloat.sub (payment_received input) total))
               COMPLETED (notes input) now now];
     salesTransactionItemsTable :=
       salesTransactionItemsTable db
         ++ item_rows tid now (salesTransactionItems_serial db) md;
     stockTransactions_serial :=
       stockTransactions_serial db + Z.of_nat (List.length md);
     salesTransactions_serial := salesTransactions_serial db + 1;
     salesTransactionItems_serial :=
       salesTransactionItems_serial db + Z.of_nat (List.length md) |}.

(** ** Sequences of operations *)

Inductive Op :=
| CreateStock (now : timestamp) (input : CreateStockTransactionInput)
| CreateSale (now : timestamp) (input : CreateSalesTransactionInput)
| CancelSale (now : timestamp) (id : Z).

(** The store an operation leaves behind, whether it returns or throws. *)
Definition perform (op : Op) (db : Store) : Store :=
  match op with
  | CreateStock now input => fst (createStockTransaction now input db)
  | CreateSale now input => fst (createSalesTransaction now input db)
  | CancelSale now id => fst (cancelSalesTransaction now id db)
  end.

Definition run (ops : list Op) (db : Store) : Store :=
  fold_left (fun d op => perform op d) ops db.

Definition is_ok {A} (r : Result A) : bool :=
  match r with Ok _ => true | Err _ => false end.


(** What somebody else does to the store between two operations of the
    engine: the medicine handlers (medicine_handlers.ts is not among the
    sources) may rewrite the medicines table in any way. *)
Inductive Event :=
| Engine (op : Op)
| MedicinesRewritten (f : list Medicine.t -> list Medicine.t).

Definition happen (ev : Event) (db : Store) : Store :=
  match ev with
  | Engine op => perform op db
  | MedicinesRewritten f => with_medicines (f (medicinesTable db)) db
  end.

Definition history (evs : list Event) (db : Store) : Store :=
  fold_left (fun d ev => happen ev d) evs db.

(** Every stored stock is non-negative, every sold quantity positive. *)
Definition stock_nonneg (db : Store) : Prop :=
  Forall (fun m => 0 <= Medicine.current_stock m) (medicinesTable db).

Definition items_positive (db : Store) : Prop :=
  Forall (fun it => 0 < SalesTransactionItem.quantity it)
         (salesTransactionItemsTable db).

(** A sale row keeps its identity and, once CANCELLED, its status. *)
Definition sticky (r r' : SalesTransaction.t) : Prop :=
  SalesTransaction.id r' = SalesTransaction.id r
  /\ (SalesTransaction.status r = CANCELLED
      -> SalesTransaction.status r' = CANCELLED).

(** The sales table grows at its end and rewrites rows only stickily. *)
Definition sales_evolve (l l' : list SalesTransaction.t) : Prop :=
  exists l1 more, l' = l1 ++ more /\ Forall2 sticky l l1.

(** The store once the status of sale [id] has been rewritten. *)
Definition marked_cancelled (id : Z) (db : Store) : Store :=
  {| medicinesTable := medicinesTable db;
     stockTransactionsTable := stockTransactionsTable db;
     salesTransactionsTable :=
       set_status_where_id id CANCELLED (salesTransactionsTable db);
     salesTransactionItemsTable := salesTransactionItemsTable db;
     stockTransactions_serial := stockTransactions_serial db;
     salesTransactions_serial := salesTransactions_serial db;
     salesTransactionItems_serial := salesTransactionItems_serial db |}.

(** ** A shelf to run the handlers on

    Paracetamol and amoxicillin are the medicines of the handlers' tests
    (5000.00 and 3000.00 a piece, 100 and 50 in stock); the syrup costs 1.10
    and there are 10 bottles of it. *)

Definition paracetamol : Medicine.t :=
  Medicine.mk 1 "Paracetamol" "tablet" 500000 10 100 0.
Definition amoxicillin : Medicine.t :=
  Medicine.mk 2 "Amoxicillin" "capsule" 300000 5 50 0.
Definition syrup : Medicine.t :=
  Medicine.mk 3 "Syrup" "botol" 110 0 10 0.

Definition shelf : Store :=
  {| medicinesTable := [paracetamol; amoxicillin; syrup];
     stockTransactionsTable := [];
     salesTransactionsTable := [];
     salesTransactionItemsTable := [];
     stockTransactions_serial := 1;
     salesTransactions_serial := 1;
     salesTransactionItems_serial := 1 |}.

(** A cash sale to a walk-in customer who hands over [received]
    hundredths. *)
Definition cash_sale (received : Z) (cart : list CartLine)
  : CreateSalesTransactionInput :=
  {| patient_id := None;
     payment_method := CASH;
     payment_received := parseFloat received;
     notes := None;
     items := cart |}.

(** Counter and ledger agree on medicine [i], created with stock [s0]. *)
Definition ledger_agrees (i s0 : Z) (db : Store) : Prop :=
  forall s, stock_of i db = Some s ->
            s = s0 + ledger_sum i (stockTransactionsTable db).

(** No two lines of the cart name the same medicine. *)
Definition distinct_medicines (cart : list CartLine) : Prop :=
  NoDup (map medicine_id cart).

Definition lines_distinct (op : Op) : Prop :=
  match op with
  | CreateSale _ input => distinct_medicines (items input)
  | _ => True
  end.

(** The next value of the sales serial names no sale and no item yet, as
    it does when every id came from the sequence. *)
Definition sale_id_fresh (db : Store) : Prop :=
  sales_where_id (salesTransactions_serial db) (salesTransactionsTable db) = []
  /\ items_where_transaction_id (salesTransactions_serial db)
       (salesTransactionItemsTable db) = [].

(** The values a [numeric(10,2)] column holds: fewer than ten digits, in
    hundredths. *)
Definition in_column (c : numeric) : Prop := -10000000000 < c < 10000000000.

(** An item row as the sale writes it from the medicine row its cart line
    read at validation: the price and the total as JS numbers, written back
    to their columns. *)
Definition priced_at_validation (ms : list Medicine.t) (tid : Z) (l : CartLine)
    (it : SalesTransactionItem.t) : Prop :=
  SalesTransactionItem.transaction_id it = tid
  /\ SalesTransactionItem.medicine_id it = medicine_id l
  /\ SalesTransactionItem.quantity it = quantity l
  /\ exists rec rest,
       medicines_where_id (medicine_id l) ms = rec :: rest
       /\ SalesTransactionItem.unit_price it
          = toNumeric (parseFloat (Medicine.price rec))
       /\ SalesTransactionItem.total_price it
          = toNumeric (PrimFloat.mul (parseFloat (Medicine.price rec))
                                     (number_of_Z (quantity l))).

(** An item row whose [unit_price] is the price of the medicine row its
    cart line read at validation, and whose [total_price] is made from that
    [unit_price] and the quantity. *)
Definition copied_at_validation (ms : list Medicine.t) (tid : Z) (l : CartLine)
    (it : SalesTransactionItem.t) : Prop :=
  SalesTransactionItem.transaction_id it = tid
  /\ SalesTransactionItem.medicine_id it = medicine_id l
  /\ SalesTransactionItem.quantity it = quantity l
  /\ (exists rec rest,
        medicines_where_id (medicine_id l) ms = rec :: rest
        /\ SalesTransactionItem.unit_price it = Medicine.price rec)
  /\ SalesTransactionItem.total_price it
     = toNumeric (PrimFloat.mul (parseFloat (SalesTransactionItem.unit_price it))
                                (number_of_Z (SalesTransactionItem.quantity it))).

(** ** Runs on the shelf *)

(** Two of paracetamol and one syrup are sold, then the syrup is taken out
    of the medicines table. *)
Definition two_medicines_sold : Store :=
  fst (createSalesTransaction 1
         (cash_sale 2000000 [Build_CartLine 1 2; Build_CartLine 3 1]) shelf).

Definition syrup_gone : Store :=
  happen (MedicinesRewritten (filter (fun m => negb (Medicine.id m =? 3))))
         two_medicines_sold.

(** The sale of the handlers' test: two of paracetamol, one amoxicillin,
    20000.00 handed over. *)
Definition test_sale : CreateSalesTransactionInput :=
  cash_sale 2000000 [Build_CartLine 1 2; Build_CartLine 2 1].

(** Afterwards every price is doubled and another sale is made. *)
Definition prices_doubled : list Event :=
  [MedicinesRewritten
     (map (fun m => Medicine.mk (Medicine.id m) (Medicine.name m)
                      (Medicine.unit m) (2 * Medicine.price m)
                      (Medicine.minimum_stock m) (Medicine.current_stock m) 9));
   Engine (CreateSale 10 (cash_sale 2000000 [Build_CartLine 1 1]))].

(** A cart with two lines on the syrup, three bottles and four. *)
Definition syrup_twice : CreateSalesTransactionInput :=
  cash_sale 2000 [Build_CartLine 3 3; Build_CartLine 3 4].

Definition syrup_twice_sold : Store :=
  fst (createSalesTransaction 7 syrup_twice shelf).

(** Three bottles of syrup at 1.10, paid with 3.30. *)
Definition syrup_paid_exactly : CreateSalesTransactionInput :=
  cash_sale 330 [Build_CartLine 3 3].

(** Movements of minus four bottles of syrup. *)
Definition minus_four (ty : StockTransactionType) : CreateStockTransactionInput :=
  {| cst_medicine_id := 3; cst_type := ty; cst_quantity := -4;
     cst_notes := None |}.



(** * The range of the integer columns

    The [serial] and [integer] columns of db/schema.ts hold 32-bit
    integers.  A statement with another value is refused by the database
    and throws where it stands; what the handler wrote before stays
    written, since the handlers open no transaction.  The handlers above
    are written over all integers: they are the handlers for the calls in
    which the database refuses nothing. *)

Definition int4 (z : Z) : Prop := -2147483648 <= z <= 2147483647.

Definition int4b (z : Z) : bool := (-2147483648 <=? z) && (z <=? 2147483647).

(** The stocks and the quantities of the store are 32-bit integers. *)
Definition within_int4 (db : Store) : Prop :=
  Forall (fun m => int4 (Medicine.current_stock m)) (medicinesTable db)
  /\ Forall (fun r => int4 (StockTransaction.quantity r))
            (stockTransactionsTable db)
  /\ Forall (fun it => int4 (SalesTransactionItem.quantity it))
            (salesTransactionItemsTable db).

(** The operation returns: it throws nothing. *)
Definition returned (op : Op) (db : Store) : bool :=
  match op with
  | CreateStock now input => is_ok (snd (createStockTransaction now input db))
  | CreateSale now input => is_ok (snd (createSalesTransaction now input db))
  | CancelSale now id => is_ok (snd (cancelSalesTransaction now id db))
  end.

(** What a call comes to when the database may refuse a value. *)
Inductive Reply (A : Type) :=
| Returns (a : A)
| Throws (e : Thrown)
| Refuses (value : Z).
Arguments Returns {A} a.
Arguments Throws {A} e.
Arguments Refuses {A} value.

(** [createStockTransaction] (stock_handlers.ts, lines 53-108) with the
    refusals of the database: of the id in the [where] of the select, of
    the quantity in the insert, and of the new stock in the update, which
    comes after the insert. *)
Definition createStockTransaction_int4 (now : timestamp)
    (input : CreateStockTransactionInput) (db : Store)
  : Store * Reply StockTransaction.t :=
  (* 1. Validate that medicine exists and get current stock *)
  if negb (int4b (cst_medicine_id input))
  then (db, Refuses (cst_medicine_id input))
  else
    match medicines_where_id (cst_medicine_id input) (medicinesTable db) with
    | [] => (db, Throws (MedicineNotFound (cst_medicine_id input)))
    | currentMedicine :: _ =>
        (* 2. For OUT transactions, check if sufficient stock is available *)
        if match cst_type input with OUT => true | IN => false end
           && (Medicine.current_stock currentMedicine <? cst_quantity input)
        then (db, Throws (InsufficientStock None
                            (Medicine.current_stock currentMedicine)
                            (cst_quantity input)))
        else
          (* 3. Insert stock transaction record *)
          if negb (int4b (cst_quantity input))
          then (db, Refuses (cst_quantity input))
          else
            match insert_stockTransaction (cst_medicine_id input)
                    (cst_type input) (cst_quantity input) (cst_notes input)
                    now db with
            | (db1, Err e) => (db1, Throws e)
            | (db1, Ok createdTransaction) =>
                (* 4. Update current_stock in medicines table *)
                let stockChange :=
                  match cst_type input with
                  | IN => cst_quantity input
                  | OUT => - cst_quantity input
                  end in
                let newStock :=
                  Medicine.current_stock currentMedicine + stockChange in
                if negb (int4b newStock)
                then (db1, Refuses newStock)
                else
                  (fst (update_medicine_stock (cst_medicine_id input)
                          newStock now db1),
                   (* 5. Return the created transaction *)
                   Returns createdTransaction)
            end
    end.


(** * The reading handlers of the ledger and of the sales

    A handler that only selects neither writes nor throws here, and is the
    function of the store it reads. *)

(** [.orderBy(desc(column))], by insertion.  Rows of equal key stay in
    table order here; the database promises no order among them, and no
    statement below depends on it. *)
Fixpoint insert_desc {A} (key : A -> Z) (x : A) (l : list A) : list A :=
  match l with
  | [] => [x]
  | y :: rest =>
      if key y <? key x then x :: y :: rest
      else y :: insert_desc key x rest
  end.

Definition order_by_desc {A} (key : A -> Z) (l : list A) : list A :=
  fold_right (insert_desc key) [] l.

(** [getStockTransactions] (stock_handlers.ts, lines 110-126) *)
Definition getStockTransactions (db : Store) : list StockTransaction.t :=
  order_by_desc StockTransaction.transaction_date (stockTransactionsTable db).

(** [getStockTransactionsByMedicine] (lines 128-145) *)
Definition getStockTransactionsByMedicine (medicineId : Z) (db : Store)
  : list StockTransaction.t :=
  order_by_desc StockTransaction.transaction_date
    (filter (fun r => StockTransaction.medicine_id r =? medicineId)
            (stockTransactionsTable db)).

(** [getStockTransactionHistory] (lines 147-170): [gte] and [lte] on the
    transaction date. *)
Definition getStockTransactionHistory (startDate endDate : timestamp)
    (db : Store) : list StockTransaction.t :=
  order_by_desc StockTransaction.transaction_date
    (filter (fun r => (startDate <=? StockTransaction.transaction_date r)
                      && (StockTransaction.transaction_date r <=? endDate))
            (stockTransactionsTable db)).

(** [{ ...transaction, total_amount: parseFloat(...), ... }] *)
Definition view_of (transaction : SalesTransaction.t) : SalesTransactionView :=
  {| row := transaction;
     view_total_amount := parseFloat (SalesTransaction.total_amount transaction);
     view_payment_received :=
       parseFloat (SalesTransaction.payment_received transaction);
     view_change_amount :=
       parseFloat (SalesTransaction.change_amount transaction) |}.

(** [getSalesTransactions] (lines 294-311) *)
Definition getSalesTransactions (db : Store) : list SalesTransactionView :=
  map view_of
      (order_by_desc SalesTransaction.transaction_date
                     (salesTransactionsTable db)).


(** [getSalesTransactionsByDateRange] (lines 337-358) *)
Definition getSalesTransactionsByDateRange (startDate endDate : timestamp)
    (db : Store) : list SalesTransactionView :=
  map view_of
      (order_by_desc SalesTransaction.transaction_date
         (filter (fun r => (startDate <=? SalesTransaction.transaction_date r)
                           && (SalesTransaction.transaction_date r <=? endDate))
                 (salesTransactionsTable db))).

(** * Patients and settings

    The handlers of handlers/patient_handlers.ts and
    handlers/settings_handlers.ts work on two more tables.  Time stamps are
    milliseconds since the epoch, as a JS [Date] holds them, and a [date]
    column holds the number of its day since the epoch. *)

Module Gender.
Inductive t := L | P.
End Gender.

Module Patient.
Record t := mk {
  id : Z;
  name : string;
  birth_date : option Z;
  gender : option Gender.t;
  phone : option string;
  address : option string;
  medical_history : option string;
  created_at : timestamp;
  updated_at : timestamp
}.
End Patient.

(** A patient as the handlers return it, [birth_date] a [Date] again. *)
Module PatientView.
Record t := mk {
  id : Z;
  name : string;
  birth_date : option timestamp;
  gender : option Gender.t;
  phone : option string;
  address : option string;
  medical_history : option string;
  created_at : timestamp;
  updated_at : timestamp
}.
End PatientView.

Module Settings.
Record t := mk {
  id : Z;
  key : string;
  value : option string;
  description : option string;
  created_at : timestamp;
  updated_at : timestamp
}.
End Settings.

Record Database := {
  engine : Store;
  patientsTable : list Patient.t;
  settingsTable : list Settings.t;
  patients_serial : Z;
  settings_serial : Z
}.

Definition msPerDay : Z := 86400000.

(** [d.toISOString().split('T')[0]] written to a [date] column: the day,
    in UTC, the instant falls in.  This is so for the instants of the years
    0001 to 9999, see [four_digit_year] below; [toISOString] writes any
    other year with a sign and six digits. *)
Definition date_of_Date (d : timestamp) : Z := d / msPerDay.

(** [new Date('YYYY-MM-DD')]: midnight, in UTC, of that day. *)
Definition Date_of_date (day : Z) : timestamp := day * msPerDay.

(** [{ ...patient, birth_date: patient.birth_date ? new Date(...) : null }] *)
Definition patient_view (patient : Patient.t) : PatientView.t :=
  PatientView.mk (Patient.id patient) (Patient.name patient)
    (option_map Date_of_date (Patient.birth_date patient))
    (Patient.gender patient) (Patient.phone patient) (Patient.address patient)
    (Patient.medical_history patient) (Patient.created_at patient)
    (Patient.updated_at patient).

Definition with_patients (ps : list Patient.t) (serial : Z) (db : Database)
  : Database :=
  {| engine := engine db;
     patientsTable := ps;
     settingsTable := settingsTable db;
     patients_serial := serial;
     settings_serial := settings_serial db |}.

Definition with_settings (ss : list Settings.t) (serial : Z) (db : Database)
  : Database :=
  {| engine := engine db;
     patientsTable := patientsTable db;
     settingsTable := ss;
     patients_serial := patients_serial db;
     settings_serial := serial |}.

Definition with_engine (s : Store) (db : Database) : Database :=
  {| engine := s;
     patientsTable := patientsTable db;
     settingsTable := settingsTable db;
     patients_serial := patients_serial db;
     settings_serial := settings_serial db |}.

(** ** handlers/patient_handlers.ts *)

Record CreatePatientInput := {
  cp_name : string;
  cp_birth_date : option timestamp;
  cp_gender : option Gender.t;
  cp_phone : option string;
  cp_address : option string;
  cp_medical_history : option string
}.

(** Every field but [id] is optional: the outer [option] says whether the
    field is given ([!== undefined]), the inner one whether it is [null]. *)
Record UpdatePatientInput := {
  up_id : Z;
  up_name : option string;
  up_birth_date : option (option timestamp);
  up_gender : option (option Gender.t);
  up_phone : option (option string);
  up_address : option (option string);
  up_medical_history : option (option string)
}.

Definition patients_where_id (i : Z) (ps : list Patient.t) : list Patient.t :=
  filter (fun p => Patient.id p =? i) ps.

(** [createPatient] (lines 12-36) *)
Definition createPatient (now : timestamp) (input : CreatePatientInput)
    (db : Database) : Database * PatientView.t :=
  let patient :=
    Patient.mk (patients_serial db) (cp_name input)
      (option_map date_of_Date (cp_birth_date input))
      (cp_gender input) (cp_phone input) (cp_address input)
      (cp_medical_history input) now now in
  (with_patients (patientsTable db ++ [patient]) (patients_serial db + 1) db,
   patient_view patient).

(** [getPatientById] (lines 56-74) *)
Definition getPatientById (id : Z) (db : Database) : option PatientView.t :=
  match patients_where_id id (patientsTable db) with
  | [] => None
  | patient :: _ => Some (patient_view patient)
  end.

(** A field of [updateData]: the given value, or the row's own. *)
Definition given {A} (field : option A) (old : A) : A :=
  match field with
  | Some v => v
  | None => old
  end.

(** [.set(updateData)] on one row. *)
Definition apply_update (now : timestamp) (input : UpdatePatientInput)
    (p : Patient.t) : Patient.t :=
  Patient.mk (Patient.id p)
    (given (up_name input) (Patient.name p))
    (given (option_map (option_map date_of_Date) (up_birth_date input))
           (Patient.birth_date p))
    (given (up_gender input) (Patient.gender p))
    (given (up_phone input) (Patient.phone p))
    (given (up_address input) (Patient.address p))
    (given (up_medical_history input) (Patient.medical_history p))
    (Patient.created_at p) now.

(** [updatePatient] (lines 76-109) *)
Definition updatePatient (now : timestamp) (input : UpdatePatientInput)
    (db : Database) : Database * option PatientView.t :=
  let table :=
    map (fun p => if Patient.id p =? up_id input
                  then apply_update now input p else p) (patientsTable db) in
  let result :=
    map (apply_update now input)
        (patients_where_id (up_id input) (patientsTable db)) in
  (with_patients table (patients_serial db) db,
   match result with
   | [] => None
   | patient :: _ => Some (patient_view patient)
   end).

Inductive Outcome (A : Type) :=
| Returned (a : A)
| Threw (message : string).
Arguments Returned {A} a.
Arguments Threw {A} message.

(** [.where(eq(salesTransactionsTable.patient_id, id))]: a [null] equals
    nothing. *)
Definition sales_of_patient (id : Z) (l : list SalesTransaction.t)
  : list SalesTransaction.t :=
  filter (fun r => match SalesTransaction.patient_id r with
                   | Some p => p =? id
                   | None => false
                   end) l.

(** [deletePatient] (lines 111-132) *)
Definition deletePatient (id : Z) (db : Database) : Database * Outcome bool :=
  (* Check if patient has any sales transactions *)
  match sales_of_patient id (salesTransactionsTable (engine db)) with
  | _ :: _ =>
      (db, Threw "Cannot delete patient with existing sales transactions")
  | [] =>
      (with_patients
         (filter (fun p => negb (Patient.id p =? id)) (patientsTable db))
         (patients_serial db) db,
       Returned (0 <? Z.of_nat (List.length (patients_where_id id (patientsTable db)))))
  end.

(** One line of a visit. *)
Module VisitItem.
Record t := mk {
  medicine_name : string;
  quantity : Z;
  unit_price : number;
  total_price : number
}.
End VisitItem.

Module PatientVisit.
Record t := mk {
  transaction_id : Z;
  transaction_date : timestamp;
  total_amount : number;
  items : list VisitItem.t
}.
End PatientVisit.

(** A row of the join of sales, items and medicines. *)
Module VisitRow.
Record t := mk {
  transaction_id : Z;
  transaction_date : timestamp;
  total_amount : numeric;
  medicine_name : string;
  quantity : Z;
  unit_price : numeric;
  total_price : numeric
}.
End VisitRow.

(** The sales of the patient, newest first, each joined with its items and
    these with their medicines. *)
Definition visit_rows (patientId : Z) (db : Store) : list VisitRow.t :=
  flat_map
    (fun s =>
       flat_map
         (fun it =>
            map (fun m =>
                   VisitRow.mk (SalesTransaction.id s)
                     (SalesTransaction.transaction_date s)
                     (SalesTransaction.total_amount s)
                     (Medicine.name m)
                     (SalesTransactionItem.quantity it)
                     (SalesTransactionItem.unit_price it)
                     (SalesTransactionItem.total_price it))
                (medicines_where_id (SalesTransactionItem.medicine_id it)
                                    (medicinesTable db)))
         (items_where_transaction_id (SalesTransaction.id s)
                                     (salesTransactionItemsTable db)))
    (order_by_desc SalesTransaction.transaction_date
       (sales_of_patient patientId (salesTransactionsTable db))).

Definition visit_item (r : VisitRow.t) : VisitItem.t :=
  VisitItem.mk (VisitRow.medicine_name r) (VisitRow.quantity r)
    (parseFloat (VisitRow.unit_price r)) (parseFloat (VisitRow.total_price r)).

(** [transactionMap.has(transactionId)]: the map is the list of its values
    in the order their keys were first set. *)
Definition map_has (tid : Z) (m : list PatientVisit.t) : bool :=
  existsb (fun v => PatientVisit.transaction_id v =? tid) m.

(** [transactionMap.get(transactionId)!.items.push(item)] *)
Fixpoint map_push (tid : Z) (item : VisitItem.t) (m : list PatientVisit.t)
  : list PatientVisit.t :=
  match m with
  | [] => []
  | v :: rest =>
      if PatientVisit.transaction_id v =? tid
      then PatientVisit.mk (PatientVisit.transaction_id v)
             (PatientVisit.transaction_date v) (PatientVisit.total_amount v)
             (PatientVisit.items v ++ [item]) :: rest
      else v :: map_push tid item rest
  end.

(** The body of [transactionsWithItems.forEach]. *)
Definition group_row (m : list PatientVisit.t) (r : VisitRow.t)
  : list PatientVisit.t :=
  let transactionId := VisitRow.transaction_id r in
  let m1 :=
    if map_has transactionId m then m
    else m ++ [PatientVisit.mk transactionId (VisitRow.transaction_date r)
                 (parseFloat (VisitRow.total_amount r)) []] in
  map_push transactionId (visit_item r) m1.

(** The grouping: [Array.from(transactionMap.values())]. *)
Definition group_visits (rows : list VisitRow.t) : list PatientVisit.t :=
  fold_left group_row rows [].

(** [getPatientVisitHistory] (lines 169-223) *)
Definition getPatientVisitHistory (patientId : Z) (db : Store)
  : list PatientVisit.t :=
  group_visits (visit_rows patientId db).

(** ** handlers/settings_handlers.ts *)

Definition settings_where_key (k : string) (ss : list Settings.t)
  : list Settings.t :=
  filter (fun s => String.eqb (Settings.key s) k) ss.

(** [getSettingByKey] (lines 23-35) *)
Definition getSettingByKey (k : string) (db : Database) : option Settings.t :=
  match settings_where_key k (settingsTable db) with
  | [] => None
  | s :: _ => Some s
  end.

Record UpdateSettingsInput := {
  us_key : string;
  us_value : string
}.

(** [.set({ value, updated_at })] on one row. *)
Definition set_value (v : string) (now : timestamp) (s : Settings.t)
  : Settings.t :=
  Settings.mk (Settings.id s) (Settings.key s) (Some v)
    (Settings.description s) (Settings.created_at s) now.

(** [db.insert(settingsTable).values({ key, value, description })] *)
Definition insert_setting (k v : string) (d : option string) (now : timestamp)
    (db : Database) : Database * Settings.t :=
  let s := Settings.mk (settings_serial db) k (Some v) d now now in
  (with_settings (settingsTable db ++ [s]) (settings_serial db + 1) db, s).

(** [updateSetting] (lines 37-71).  [results[0]] of the update is the
    first row of the key, which exists when [existing] does. *)
Definition updateSetting (now : timestamp) (input : UpdateSettingsInput)
    (db : Database) : Database * Settings.t :=
  (* Check if setting exists *)
  match getSettingByKey (us_key input) db with
  | Some existing =>
      (* Update existing setting *)
      (with_settings
         (map (fun s => if String.eqb (Settings.key s) (us_key input)
                        then set_value (us_value input) now s else s)
              (settingsTable db))
         (settings_serial db) db,
       set_value (us_value input) now existing)
  | None =>
      (* Create new setting *)
      insert_setting (us_key input) (us_value input) None now db
  end.

Record ClinicInfo := {
  clinic_name : string;
  clinic_address : option string;
  clinic_logo : option string
}.

(** [x?.value || fallback]: the fallback stands in for a missing row, for
    [null] and for the empty string. *)
Definition value_or (fallback : string) (r : option Settings.t) : string :=
  match r with
  | Some s =>
      match Settings.value s with
      | Some v => if String.eqb v "" then fallback else v
      | None => fallback
      end
  | None => fallback
  end.

(** [x?.value ?? null]: the empty string is kept. *)
Definition value_or_null (r : option Settings.t) : option string :=
  match r with
  | Some s => Settings.value s
  | None => None
  end.

(** [getClinicInfo] (lines 73-89) *)
Definition getClinicInfo (db : Database) : ClinicInfo :=
  {| clinic_name :=
       value_or "Bidan Hebat Management" (getSettingByKey "clinic_name" db);
     clinic_address := value_or_null (getSettingByKey "clinic_address" db);
     clinic_logo := value_or_null (getSettingByKey "clinic_logo" db) |}.

(** [updateClinicInfo] (lines 91-111).  [updateSetting] throws nothing
    here, so the [catch] that returns [false] is never entered and the
    result is the [true] of the [try]; the statements below are on the
    settings the call leaves, not on this result. *)
Definition updateClinicInfo (now : timestamp) (name : string)
    (address logo : option string) (db : Database) : Database * bool :=
  (* Update clinic name *)
  let db1 := fst (updateSetting now {| us_key := "clinic_name"; us_value := name |} db) in
  (* Update clinic address if provided *)
  let db2 :=
    match address with
    | Some a => fst (updateSetting now {| us_key := "clinic_address"; us_value := a |} db1)
    | None => db1
    end in
  (* Update clinic logo if provided *)
  let db3 :=
    match logo with
    | Some l => fst (updateSetting now {| us_key := "clinic_logo"; us_value := l |} db2)
    | None => db2
    end in
  (db3, true).

Definition defaultSettings : list (string * string * string) :=
  [("clinic_name", "Bidan Hebat Management", "Nama klinik");
   ("clinic_address", "", "Alamat klinik");
   ("clinic_logo", "", "Logo klinik");
   ("low_stock_threshold_days", "7",
    "Ambang batas peringatan stok rendah (hari)");
   ("receipt_footer_text", "Terima kasih atas kunjungan Anda",
    "Teks footer struk")]%string.

(** Check and create only non-existing settings. *)
Definition ensure_setting (now : timestamp) (db : Database)
    (setting : string * string * string) : Database :=
  let '(k, v, d) := setting in
  match getSettingByKey k db with
  | Some _ => db
  | None => fst (insert_setting k v (Some d) now db)
  end.

(** [initializeDefaultSettings] (lines 113-140) *)
Definition initializeDefaultSettings (now : timestamp) (db : Database)
  : Database :=
  fold_left (ensure_setting now) defaultSettings db.

(** ** [getReceiptData] (stock_handlers.ts, lines 373-463) *)

Module ReceiptItem.
Record t := mk {
  id : Z;
  transaction_id : Z;
  medicine_id : Z;
  quantity : Z;
  unit_price : number;
  total_price : number;
  created_at : timestamp;
  medicine_name : string;
  medicine_unit : string
}.
End ReceiptItem.

Record ReceiptData := {
  receipt_transaction : SalesTransactionView;
  receipt_items : list ReceiptItem.t;
  receipt_patient : option PatientView.t;
  receipt_clinic_name : string;
  receipt_clinic_address : option string
}.

(** The items of the sale joined with their medicines.  The query has no
    [orderBy]: the lines are listed here item by item, and the statements
    on them are up to their order. *)
Definition receipt_items_of (transactionId : Z) (db : Store)
  : list ReceiptItem.t :=
  flat_map
    (fun it =>
       map (fun m =>
              ReceiptItem.mk (SalesTransactionItem.id it)
                (SalesTransactionItem.transaction_id it)
                (SalesTransactionItem.medicine_id it)
                (SalesTransactionItem.quantity it)
                (parseFloat (SalesTransactionItem.unit_price it))
                (parseFloat (SalesTransactionItem.total_price it))
                (SalesTransactionItem.created_at it)
                (Medicine.name m) (Medicine.unit m))
           (medicines_where_id (SalesTransactionItem.medicine_id it)
                               (medicinesTable db)))
    (items_where_transaction_id transactionId (salesTransactionItemsTable db)).

(** [if (transaction.patient_id)]: [null] and 0 are both falsy. *)
Definition receipt_patient_of (transaction : SalesTransaction.t)
    (db : Database) : option PatientView.t :=
  match SalesTransaction.patient_id transaction with
  | Some p =>
      if p =? 0 then None
      else match patients_where_id p (patientsTable db) with
           | patient :: _ => Some (patient_view patient)
           | [] => None
           end
  | None => None
  end.

Definition getReceiptData (transactionId : Z) (db : Database)
  : option ReceiptData :=
  (* Get transaction *)
  match sales_where_id transactionId (salesTransactionsTable (engine db)) with
  | [] => None
  | transaction :: _ =>
      Some {| receipt_transaction := view_of transaction;
              receipt_items := receipt_items_of transactionId (engine db);
              receipt_patient := receipt_patient_of transaction db;
              receipt_clinic_name :=
                value_or "Apotek" (getSettingByKey "clinic_name" db);
              receipt_clinic_address :=
                value_or_null (getSettingByKey "clinic_address" db) |}
  end.

(** ** Notions for the statements on these handlers *)

(** Newest first. *)
Definition newest_first {A} (key : A -> Z) (l : list A) : Prop :=
  StronglySorted (fun a b => key b <= key a) l.

(** Every id of the sales, of the items and of the ledger came out of its
    sequence, and no two rows of a table share one. *)
Definition ids_from_sequences (db : Store) : Prop :=
  Forall (fun r => SalesTransaction.id r < salesTransactions_serial db)
         (salesTransactionsTable db)
  /\ Forall (fun it => SalesTransactionItem.transaction_id it
                       < salesTransactions_serial db)
            (salesTransactionItemsTable db)
  /\ NoDup (map SalesTransaction.id (salesTransactionsTable db)).

(** What no operation of the engine touches in a medicine. *)
Definition medicine_card (m : Medicine.t) : Z * string * string * numeric * Z :=
  (Medicine.id m, Medicine.name m, Medicine.unit m, Medicine.price m,
   Medicine.minimum_stock m).

(** The medicine handlers rewrite rows in place and keep their ids. *)
Definition keeps_ids (f : list Medicine.t -> list Medicine.t) : Prop :=
  forall ms, map Medicine.id (f ms) = map Medicine.id ms.

(** Every sale that names a patient names one of the patients table. *)
Definition patients_resolve (db : Database) : Prop :=
  Forall (fun r => match SalesTransaction.patient_id r with
                   | Some p => patients_where_id p (patientsTable db) <> []
                   | None => True
                   end) (salesTransactionsTable (engine db)).

(** The rows of a transaction, as visit items, in the order of the rows. *)
Definition rows_of (tid : Z) (rows : list VisitRow.t) : list VisitRow.t :=
  filter (fun r => VisitRow.transaction_id r =? tid) rows.

(** What the map holds once the rows [done] have been grouped: one visit
    for every transaction met, with the items of its rows in the order of
    the rows, and with date and total of one of its rows. *)
Definition grouped (done : list VisitRow.t) (m : list PatientVisit.t) : Prop :=
  NoDup (map PatientVisit.transaction_id m)
  /\ (forall v, In v m ->
        PatientVisit.items v
        = map visit_item (rows_of (PatientVisit.transaction_id v) done)
        /\ exists r,
             In r done
             /\ VisitRow.transaction_id r = PatientVisit.transaction_id v
             /\ PatientVisit.transaction_date v = VisitRow.transaction_date r
             /\ PatientVisit.total_amount v
                = parseFloat (VisitRow.total_amount r))
  /\ (forall r, In r done ->
        In (VisitRow.transaction_id r) (map PatientVisit.transaction_id m)).

(** [items.push(item)] on one visit. *)
Definition push_item (item : VisitItem.t) (v : PatientVisit.t) : PatientVisit.t :=
  PatientVisit.mk (PatientVisit.transaction_id v)
    (PatientVisit.transaction_date v) (PatientVisit.total_amount v)
    (PatientVisit.items v ++ [item]).

(** An IN movement that takes the amoxicillin, 50 in stock, beyond the
    range of its column. *)
Definition too_many_in : CreateStockTransactionInput :=
  {| cst_medicine_id := 2; cst_type := IN; cst_quantity := 2147483647;
     cst_notes := None |}.

(** An empty clinic: the shelf, no patient, no setting. *)
Definition clinic : Database :=
  {| engine := shelf;
     patientsTable := [];
     settingsTable := [];
     patients_serial := 1;
     settings_serial := 1 |}.

(** What a receipt line takes from the item row. *)
Definition priced_line (l : ReceiptItem.t)
  : Z * Z * Z * Z * number * number * timestamp :=
  (ReceiptItem.id l, ReceiptItem.transaction_id l, ReceiptItem.medicine_id l,
   ReceiptItem.quantity l, ReceiptItem.unit_price l, ReceiptItem.total_price l,
   ReceiptItem.created_at l).

(** The same line read off the item row itself. *)
Definition priced_item (it : SalesTransactionItem.t)
  : Z * Z * Z * Z * number * number * timestamp :=
  (SalesTransactionItem.id it, SalesTransactionItem.transaction_id it,
   SalesTransactionItem.medicine_id it, SalesTransactionItem.quantity it,
   parseFloat (SalesTransactionItem.unit_price it),
   parseFloat (SalesTransactionItem.total_price it),
   SalesTransactionItem.created_at it).

(** The instant cut down to midnight, in UTC, of its day. *)
Definition midnight (d : timestamp) : timestamp := d - d mod msPerDay.

(** From 0001-01-01T00:00:00.000Z to 9999-12-31T23:59:59.999Z. *)
Definition four_digit_year (d : timestamp) : Prop :=
  -62135596800000 <= d < 253402300800000.

(** The store with its medicines table rewritten by the medicine
    handlers. *)
Definition medicines_rewritten (f : list Medicine.t -> list Medicine.t)
    (db : Database) : Database :=
  with_engine (with_medicines (f (medicinesTable (engine db))) (engine db)) db.

(** A patient to run the handlers on. *)
Definition john : CreatePatientInput :=
  {| cp_name := "John Doe";
     cp_birth_date := Some 484963200123;
     cp_gender := Some Gender.L;
     cp_phone := Some "081234567890"%string;
     cp_address := Some "Jakarta"%string;
     cp_medical_history := None |}.

(** Every price doubled, every name changed. *)
Definition reprice (ms : list Medicine.t) : list Medicine.t :=
  map (fun m => Medicine.mk (Medicine.id m) ("Generic " ++ Medicine.name m)
                  (Medicine.unit m) (2 * Medicine.price m)
                  (Medicine.minimum_stock m) (Medicine.current_stock m) 9) ms.

(** The clinic after the sale of two paracetamol and one syrup. *)
Definition clinic_after_sale : Database := with_engine two_medicines_sold clinic.

(** Patient 1 buys two paracetamol at time 10, then a syrup and one more
    paracetamol at time 20. *)
Definition john_buys (cart : list CartLine) : CreateSalesTransactionInput :=
  {| patient_id := Some 1;
     payment_method := CASH;
     payment_received := parseFloat 2000000;
     notes := None;
     items := cart |}.

Definition john_twice : Store :=
  run [CreateSale 10 (john_buys [Build_CartLine 1 2]);
       CreateSale 20 (john_buys [Build_CartLine 3 1; Build_CartLine 1 1])]
      shelf.

(** * The loops, one by one *)

Lemma validate_line_eq (item : CartLine) (db : Store) :
  validate_line item db =
  (db, match medicines_where_id (medicine_id item) (medicinesTable db) with
       | [] => Err (MedicineNotFound (medicine_id item))
       | rec :: _ =>
           if Medicine.current_stock rec <? quantity item
           then Err (InsufficientStock (Some (Medicine.name rec))
                       (Medicine.current_stock rec) (quantity item))
           else Ok {| medicineRecord := rec; requestedQuantity := quantity item |}
       end).
Proof.
  cbv [validate_line bind select_medicines ret throw].
  destruct (medicines_where_id _ _); [reflexivity|].
  destruct (_ <? _); reflexivity.
Qed.

Lemma for_of_push_validate (cart : list CartLine) (db : Store) :
  for_of_push cart validate_line db = (db, validate (medicinesTable db) cart).
Proof.
  induction cart as [|item rest IH]; [reflexivity|].
  cbn [for_of_push validate]. unfold bind at 1. rewrite validate_line_eq.
  destruct (medicines_where_id (medicine_id item) (medicinesTable db)) as [|rec tl];
    [reflexivity|].
  destruct (Medicine.current_stock rec <? quantity item); [reflexivity|].
  unfold bind at 1. rewrite IH.
  destruct (validate (medicinesTable db) rest); reflexivity.
Qed.

Lemma items_loop (tid : Z) (now : timestamp) (md : list MedicineData) :
  forall db,
    for_of md (fun med =>
      insert_salesTransactionItem tid
        (Medicine.id (medicineRecord med)) (requestedQuantity med)
        (toNumeric (parseFloat (Medicine.price (medicineRecord med))))
        (toNumeric (totalPrice med)) now) db
    = ({| medicinesTable := medicinesTable db;
          stockTransactionsTable := stockTransactionsTable db;
          salesTransactionsTable := salesTransactionsTable db;
          salesTransactionItemsTable :=
            salesTransactionItemsTable db
              ++ item_rows tid now (salesTransactionItems_serial db) md;
          stockTransactions_serial := stockTransactions_serial db;
          salesTransactions_serial := salesTransactions_serial db;
          salesTransactionItems_serial :=
            salesTransactionItems_serial db + Z.of_nat (List.length md) |},
       Ok tt).
Proof.
  induction md as [|med rest IH]; intros db.
  - destruct db; cbn. rewrite app_nil_r, Z.add_0_r. reflexivity.
  - cbn [for_of]. unfold bind at 1. unfold insert_salesTransactionItem at 1.
    rewrite IH. cbn. rewrite <- app_assoc. cbn.
    do 2 f_equal. lia.
Qed.

Lemma debit_loop (tid : Z) (now : timestamp) (md : list MedicineData) :
  forall db,
    for_of md (fun med =>
      update_medicine_stock (Medicine.id (medicineRecord med))
        (Medicine.current_stock (medicineRecord med) - requestedQuantity med) now ;;;
      _ <- insert_stockTransaction (Medicine.id (medicineRecord med)) OUT
             (requestedQuantity med)
             (Some ("Sales transaction #" ++ string_of_Z tid)%string) now ;;
      ret tt) db
    = ({| medicinesTable := debit now md (medicinesTable db);
          stockTransactionsTable :=
            stockTransactionsTable db
              ++ out_rows tid now (stockTransactions_serial db) md;
          salesTransactionsTable := salesTransactionsTable db;
          salesTransactionItemsTable := salesTransactionItemsTable db;
          stockTransactions_serial :=
            stockTransactions_serial db + Z.of_nat (List.length md);
          salesTransactions_serial := salesTransactions_serial db;
          salesTransactionItems_serial := salesTransactionItems_serial db |},
       Ok tt).
Proof.
  induction md as [|med rest IH]; intros db.
  - destruct db; cbn. rewrite app_nil_r, Z.add_0_r. reflexivity.
  - cbn [for_of]. unfold bind at 1.
    unfold bind at 1. unfold update_medicine_stock at 1.
    unfold bind at 1. unfold insert_stockTransaction at 1. unfold ret at 1.
    rewrite IH. cbn. rewrite <- app_assoc. cbn.
    do 2 f_equal. lia.
Qed.

(** [createSalesTransaction] in one equation: validation, the payment
    check, then the writes. *)
Lemma createSalesTransaction_eq (now : timestamp)
    (input : CreateSalesTransactionInput) (db : Store) :
  createSalesTransaction now input db =
  match validate (medicinesTable db) (items input) with
  | Err e => (db, Err e)
  | Ok md =>
      if PrimFloat.ltb (PrimFloat.sub (payment_received input) (totalAmount md))
                       PrimFloat.zero
      then (db, Err PaymentLessThanTotal)
      else
        let r := SalesTransaction.mk (salesTransactions_serial db)
                   (patient_id input) (toNumeric (totalAmount md))
                   (payment_method input) (toNumeric (payment_received input))
                   (toNumeric (PrimFloat.sub (payment_received input)
                                             (totalAmount md)))
                   COMPLETED (notes input) now now in
        (sold now input md db,
         Ok {| row := r;
               view_total_amount := parseFloat (SalesTransaction.total_amount r);
               view_payment_received :=
                 parseFloat (SalesTransaction.payment_received r);
               view_change_amount :=
                 parseFloat (SalesTransaction.change_amount r) |})
  end.
Proof.
  unfold createSalesTransaction. unfold bind at 1.
  rewrite for_of_push_validate.
  destruct (validate (medicinesTable db) (items input)) as [md|e]; [|reflexivity].
  destruct (PrimFloat.ltb _ _); [reflexivity|].
  unfold bind at 1. unfold insert_salesTransaction at 1.
  unfold bind at 1. cbn [SalesTransaction.id]. rewrite items_loop.
  unfold bind at 1. rewrite debit_loop. reflexivity.
Qed.

(** * The medicines table under [select] and [update] *)

Lemma where_id_head (i : Z) (ms : list Medicine.t) (m : Medicine.t)
    (rest : list Medicine.t) :
  medicines_where_id i ms = m :: rest -> Medicine.id m = i.
Proof.
  intros H.
  assert (Hin : In m (medicines_where_id i ms)) by (rewrite H; left; reflexivity).
  apply filter_In in Hin. destruct Hin as [_ Heq]. lia.
Qed.

Lemma where_id_set (i j v : Z) (now : timestamp) (ms : list Medicine.t) :
  medicines_where_id i (set_stock_where_id j v now ms) =
  if i =? j then map (Medicine.set_stock v now) (medicines_where_id i ms)
  else medicines_where_id i ms.
Proof.
  unfold medicines_where_id, set_stock_where_id.
  induction ms as [|m ms IH]; cbn [map filter].
  - destruct (i =? j); reflexivity.
  - rewrite IH.
    destruct (Z.eqb_spec (Medicine.id m) j) as [Hj|Hj];
      destruct (Z.eqb_spec i j) as [Hi|Hi];
      destruct (Z.eqb_spec (Medicine.id m) i) as [Hm|Hm];
      cbn [Medicine.set_stock Medicine.id map];
      try reflexivity; try congruence;
      destruct (Z.eqb_spec (Medicine.id m) i); try reflexivity; congruence.
Qed.

Lemma stock_in_set (i j v : Z) (now : timestamp) (ms : list Medicine.t) :
  stock_in i (set_stock_where_id j v now ms) =
  if i =? j
  then match stock_in i ms with Some _ => Some v | None => None end
  else stock_in i ms.
Proof.
  unfold stock_in. rewrite where_id_set.
  destruct (i =? j); [|reflexivity].
  destruct (medicines_where_id i ms); reflexivity.
Qed.

Lemma set_stock_ids (j v : Z) (now : timestamp) (ms : list Medicine.t) :
  map Medicine.id (set_stock_where_id j v now ms) = map Medicine.id ms.
Proof.
  unfold set_stock_where_id. rewrite map_map. apply map_ext.
  intros m. destruct (Medicine.id m =? j); reflexivity.
Qed.

Lemma has_medicine_ids (i : Z) (ms ms' : list Medicine.t) :
  map Medicine.id ms = map Medicine.id ms' ->
  has_medicine i ms = has_medicine i ms'.
Proof.
  unfold has_medicine. revert ms'.
  induction ms as [|m ms IH]; intros [|m' ms'] H; try discriminate; [reflexivity|].
  cbn in *. injection H as H1 H2. rewrite H1, (IH _ H2). reflexivity.
Qed.

Lemma has_medicine_where (i : Z) (ms : list Medicine.t) :
  has_medicine i ms =
  match medicines_where_id i ms with [] => false | _ :: _ => true end.
Proof.
  unfold has_medicine, medicines_where_id.
  induction ms as [|m ms IH]; [reflexivity|].
  cbn. destruct (Medicine.id m =? i); [reflexivity|exact IH].
Qed.

Lemma set_stock_nonneg (j v : Z) (now : timestamp) (ms : list Medicine.t) :
  0 <= v ->
  Forall (fun m => 0 <= Medicine.current_stock m) ms ->
  Forall (fun m => 0 <= Medicine.current_stock m) (set_stock_where_id j v now ms).
Proof.
  intros Hv H. unfold set_stock_where_id. apply Forall_map.
  eapply Forall_impl; [|exact H]. intros m Hm.
  destruct (Medicine.id m =? j); [exact Hv|exact Hm].
Qed.

Lemma where_id_first_nonneg (i : Z) (ms : list Medicine.t) (m : Medicine.t)
    (rest : list Medicine.t) :
  Forall (fun m => 0 <= Medicine.current_stock m) ms ->
  medicines_where_id i ms = m :: rest -> 0 <= Medicine.current_stock m.
Proof.
  intros H E.
  assert (Hin : In m (medicines_where_id i ms)) by (rewrite E; left; reflexivity).
  apply filter_In in Hin. destruct Hin as [Hin _].
  rewrite Forall_forall in H. exact (H _ Hin).
Qed.


(** * The validation loop *)

Lemma validate_ok (ms : list Medicine.t) (cart : list CartLine) :
  forall md, validate ms cart = Ok md -> Forall2 (snapshot_of ms) cart md.
Proof.
  induction cart as [|l rest IH]; intros md H; cbn in H.
  - injection H as <-. constructor.
  - destruct (medicines_where_id (medicine_id l) ms) as [|rec tl] eqn:E;
      [discriminate|].
    destruct (Z.ltb_spec (Medicine.current_stock rec) (quantity l)) as [Hlt|Hge];
      [discriminate|].
    destruct (validate ms rest) as [vs|e]; [|discriminate].
    injection H as <-. constructor; [|apply IH; reflexivity].
    unfold snapshot_of; cbn. split; [exists tl; exact E|split; [reflexivity|lia]].
Qed.

Lemma validate_err (ms : list Medicine.t) (cart : list CartLine) (e : Thrown) :
  validate ms cart = Err e ->
  (exists l, In l cart /\ e = MedicineNotFound (medicine_id l)
             /\ medicines_where_id (medicine_id l) ms = [])
  \/ (exists l rec rest, In l cart
        /\ medicines_where_id (medicine_id l) ms = rec :: rest
        /\ Medicine.current_stock rec < quantity l
        /\ e = InsufficientStock (Some (Medicine.name rec))
                 (Medicine.current_stock rec) (quantity l)).
Proof.
  induction cart as [|l rest IH]; intros H; cbn in H; [discriminate|].
  destruct (medicines_where_id (medicine_id l) ms) as [|rec tl] eqn:E.
  - injection H as <-. left. exists l. cbn. auto.
  - destruct (Z.ltb_spec (Medicine.current_stock rec) (quantity l)) as [Hlt|Hge].
    + injection H as <-. right. exists l, rec, tl. cbn. auto.
    + destruct (validate ms rest) as [vs|e'] eqn:Ev; [discriminate|].
      injection H as <-.
      destruct (IH eq_refl) as [(l' & Hin & He & Hw)|(l' & r' & t' & Hin & Hw & Hlt & He)].
      * left. exists l'. cbn. auto.
      * right. exists l', r', t'. cbn. auto.
Qed.

Lemma validate_complete (ms : list Medicine.t) (cart : list CartLine) :
  Forall (fun l => exists rec rest,
            medicines_where_id (medicine_id l) ms = rec :: rest
            /\ quantity l <= Medicine.current_stock rec) cart ->
  exists md, validate ms cart = Ok md.
Proof.
  induction 1 as [|l rest (rec & tl & E & Hq) _ (md & IH)]; cbn.
  - eexists; reflexivity.
  - rewrite E. destruct (Z.ltb_spec (Medicine.current_stock rec) (quantity l));
      [lia|]. rewrite IH. eexists; reflexivity.
Qed.



(** * The debiting loop of a sale *)

Lemma debit_ids (now : timestamp) (md : list MedicineData) :
  forall ms, map Medicine.id (debit now md ms) = map Medicine.id ms.
Proof.
  induction md as [|med rest IH]; intros ms; cbn; [reflexivity|].
  rewrite IH. apply set_stock_ids.
Qed.


(** Every line writes the stock of its medicine from the snapshot read
    before the first write: of several lines on one medicine the last one
    decides. *)
Lemma debit_last_wins (now : timestamp) (ms0 : list Medicine.t) (i s : Z)
    (cart : list CartLine) (md : list MedicineData) :
  stock_in i ms0 = Some s ->
  Forall2 (snapshot_of ms0) cart md ->
  forall ms,
    stock_in i ms <> None ->
    stock_in i (debit now md ms) =
    match last_quantity i cart with
    | Some q => Some (s - q)
    | None => stock_in i ms
    end.
Proof.
  intros Hs. induction 1 as [|l med cart md Hl _ IH]; intros ms Hex; cbn;
    [reflexivity|].
  destruct Hl as ((tl & E) & Hrq & _).
  pose proof (where_id_head _ _ _ _ E) as Hid.
  rewrite IH.
  - destruct (last_quantity i cart) as [q|]; [reflexivity|].
    rewrite stock_in_set, Hid, Hrq.
    rewrite (Z.eqb_sym (medicine_id l) i).
    destruct (Z.eqb_spec i (medicine_id l)) as [->|Hne]; [|reflexivity].
    unfold stock_in in Hs, Hex |- *. rewrite E in Hs. injection Hs as <-.
    destruct (medicines_where_id (medicine_id l) ms); [congruence|reflexivity].
  - rewrite stock_in_set.
    destruct (i =? Medicine.id (medicineRecord med)); [|exact Hex].
    destruct (stock_in i ms); congruence.
Qed.

Lemma out_rows_entries (tid : Z) (now : timestamp) (ms : list Medicine.t)
    (cart : list CartLine) (md : list MedicineData) :
  Forall2 (snapshot_of ms) cart md ->
  forall serial,
    map entry (out_rows tid now serial md) =
    map (fun l => (medicine_id l, OUT, quantity l)) cart.
Proof.
  induction 1 as [|l med cart md Hl _ IH]; intros serial; cbn; [reflexivity|].
  destruct Hl as ((tl & E) & Hrq & _).
  rewrite IH. unfold entry at 1. cbn.
  rewrite (where_id_head _ _ _ _ E), Hrq. reflexivity.
Qed.


(** * [createStockTransaction] in one equation *)

Lemma createStockTransaction_eq (now : timestamp)
    (input : CreateStockTransactionInput) (db : Store) :
  createStockTransaction now input db =
  match medicines_where_id (cst_medicine_id input) (medicinesTable db) with
  | [] => (db, Err (MedicineNotFound (cst_medicine_id input)))
  | cur :: _ =>
      if match cst_type input with OUT => true | IN => false end
         && (Medicine.current_stock cur <? cst_quantity input)
      then (db, Err (InsufficientStock None (Medicine.current_stock cur)
                       (cst_quantity input)))
      else
        let r := StockTransaction.mk (stockTransactions_serial db)
                   (cst_medicine_id input) (cst_type input)
                   (cst_quantity input) (cst_notes input) now now in
        ({| medicinesTable :=
              set_stock_where_id (cst_medicine_id input)
                (Medicine.current_stock cur
                 + match cst_type input with
                   | IN => cst_quantity input
                   | OUT => - cst_quantity input
                   end) now (medicinesTable db);
            stockTransactionsTable := stockTransactionsTable db ++ [r];
            salesTransactionsTable := salesTransactionsTable db;
            salesTransactionItemsTable := salesTransactionItemsTable db;
            stockTransactions_serial := stockTransactions_serial db + 1;
            salesTransactions_serial := salesTransactions_serial db;
            salesTransactionItems_serial := salesTransactionItems_serial db |},
         Ok r)
  end.
Proof.
  unfold createStockTransaction. unfold bind at 1. unfold select_medicines at 1.
  destruct (medicines_where_id _ _) as [|cur tl]; [reflexivity|].
  destruct (_ && _); reflexivity.
Qed.

(** * The restoring loop of a cancellation *)

Lemma restore_line_eq (now : timestamp) (id : Z) (item : SalesTransactionItem.t)
    (db : Store) :
  restore_line now id item db =
  match medicines_where_id (SalesTransactionItem.medicine_id item)
          (medicinesTable db) with
  | [] => (db, Ok tt)
  | medicine :: _ =>
      ({| medicinesTable :=
            set_stock_where_id (SalesTransactionItem.medicine_id item)
              (Medicine.current_stock medicine
               + SalesTransactionItem.quantity item) now (medicinesTable db);
          stockTransactionsTable :=
            stockTransactionsTable db
              ++ [StockTransaction.mk (stockTransactions_serial db)
                    (SalesTransactionItem.medicine_id item) IN
                    (SalesTransactionItem.quantity item)
                    (Some ("Cancelled sales transaction #" ++ string_of_Z id)%string)
                    now now];
          salesTransactionsTable := salesTransactionsTable db;
          salesTransactionItemsTable := salesTransactionItemsTable db;
          stockTransactions_serial := stockTransactions_serial db + 1;
          salesTransactions_serial := salesTransactions_serial db;
          salesTransactionItems_serial := salesTransactionItems_serial db |},
       Ok tt)
  end.
Proof.
  unfold restore_line. unfold bind at 1. unfold select_medicines at 1.
  destruct (medicines_where_id _ _) as [|medicine tl]; reflexivity.
Qed.

(** What the restoring loop does to the store: it touches neither sales nor
    items, keeps the rows of the medicines table in place, credits every
    medicine that exists with the quantities of its lines and appends one
    IN entry for each such line, and passes over the lines whose medicine
    is not in the table. *)
Lemma restore_loop (now : timestamp) (id : Z)
    (its : list SalesTransactionItem.t) :
  forall db, exists db',
    for_of its (restore_line now id) db = (db', Ok tt)
    /\ salesTransactionsTable db' = salesTransactionsTable db
    /\ salesTransactionItemsTable db' = salesTransactionItemsTable db
    /\ salesTransactions_serial db' = salesTransactions_serial db
    /\ salesTransactionItems_serial db' = salesTransactionItems_serial db
    /\ map Medicine.id (medicinesTable db') = map Medicine.id (medicinesTable db)
    /\ (exists L,
          stockTransactionsTable db' = stockTransactionsTable db ++ L
          /\ map entry L =
             map (fun it => (SalesTransactionItem.medicine_id it, IN,
                             SalesTransactionItem.quantity it))
                 (filter (fun it => has_medicine
                                      (SalesTransactionItem.medicine_id it)
                                      (medicinesTable db)) its))
    /\ (forall i, stock_of i db' =
                  option_map (fun s => s + items_quantity i its) (stock_of i db))
    /\ (Forall (fun it => 0 < SalesTransactionItem.quantity it) its ->
        stock_nonneg db -> stock_nonneg db').
Proof.
  induction its as [|it rest IH]; intros db.
  - exists db. cbn. repeat split; try reflexivity.
    + exists []. rewrite app_nil_r. split; reflexivity.
    + intros i. destruct (stock_of i db); cbn; [f_equal; lia|reflexivity].
    + intros _ H; exact H.
  - cbn [for_of]. unfold bind at 1. rewrite restore_line_eq.
    cbn [filter]. rewrite has_medicine_where.
    destruct (medicines_where_id (SalesTransactionItem.medicine_id it)
                (medicinesTable db)) as [|m tl] eqn:E.
    + destruct (IH db) as (db' & Hrun & Hs & Hi & Hss & His & Hids & HL & Hst & Hnn).
      exists db'. rewrite Hrun. repeat split; try assumption.
      * intros i. rewrite Hst. cbn [items_quantity].
        destruct (Z.eqb_spec (SalesTransactionItem.medicine_id it) i) as [Hi'|Hi'];
          [|reflexivity].
        unfold stock_of, stock_in. rewrite <- Hi', E. reflexivity.
      * intros Hpos. apply Hnn. inversion Hpos; assumption.
    + match goal with
      | |- context [for_of rest _ ?d] => destruct (IH d)
          as (db' & Hrun & Hs & Hi & Hss & His & Hids & (L & HL & HLe) & Hst & Hnn)
      end.
      exists db'. rewrite Hrun. cbn in Hs, Hi, Hss, His, Hids, HL, HLe.
      repeat split; try assumption.
      * rewrite Hids. apply set_stock_ids.
      * eexists. rewrite HL, <- app_assoc. split; [reflexivity|].
        cbn [app map]. f_equal.
        rewrite HLe. f_equal. apply filter_ext. intros a.
        apply has_medicine_ids. apply set_stock_ids.
      * intros i. rewrite Hst. unfold stock_of. cbn [medicinesTable].
        rewrite stock_in_set. cbn [items_quantity].
        rewrite (Z.eqb_sym (SalesTransactionItem.medicine_id it) i).
        destruct (Z.eqb_spec i (SalesTransactionItem.medicine_id it)) as [->|Hne].
        -- unfold stock_in. rewrite E. cbn. f_equal. lia.
        -- destruct (stock_in i (medicinesTable db)); reflexivity.
      * intros Hpos Hdb. inversion Hpos as [|? ? Hq Hrest]; subst.
        apply Hnn; [exact Hrest|]. unfold stock_nonneg in *. cbn [medicinesTable].
        apply set_stock_nonneg; [|exact Hdb].
        pose proof (where_id_first_nonneg _ _ _ _ Hdb E). lia.
Qed.

(** * [cancelSalesTransaction] in one equation *)

Lemma cancelSalesTransaction_eq (now : timestamp) (id : Z) (db : Store) :
  cancelSalesTransaction now id db =
  match sales_where_id id (salesTransactionsTable db) with
  | [] => (db, Ok false)
  | transaction :: _ =>
      if TransactionStatus_eqb (SalesTransaction.status transaction) CANCELLED
      then (db, Ok false)
      else
        (fst (for_of (items_where_transaction_id id (salesTransactionItemsTable db))
                (restore_line now id) (marked_cancelled id db)),
         Ok true)
  end.
Proof.
  unfold cancelSalesTransaction. unfold bind at 1.
  unfold select_salesTransactions at 1.
  destruct (sales_where_id id (salesTransactionsTable db)) as [|tx tl];
    [reflexivity|].
  destruct (TransactionStatus_eqb _ _); [reflexivity|].
  unfold bind at 1. unfold select_salesTransactionItems at 1.
  unfold bind at 1. unfold update_salesTransaction_status at 1.
  fold (marked_cancelled id db). unfold bind at 1.
  destruct (restore_loop now id
              (items_where_transaction_id id (salesTransactionItemsTable db))
              (marked_cancelled id db)) as (db' & Hrun & _).
  rewrite Hrun. reflexivity.
Qed.


(** * The sales table through the operations *)

Lemma sticky_refl (r : SalesTransaction.t) : sticky r r.
Proof. split; [reflexivity|tauto]. Qed.

Lemma sales_evolve_refl (l : list SalesTransaction.t) : sales_evolve l l.
Proof.
  exists l, []. rewrite app_nil_r. split; [reflexivity|].
  induction l; constructor; [apply sticky_refl|assumption].
Qed.

Lemma Forall2_sticky_trans (l1 l2 l3 : list SalesTransaction.t) :
  Forall2 sticky l1 l2 -> Forall2 sticky l2 l3 -> Forall2 sticky l1 l3.
Proof.
  intros H. revert l3. induction H as [|a b l1 l2 Hab _ IH]; intros l3 H23;
    inversion H23 as [|? c ? l3' Hbc Hrest]; subst; constructor.
  - destruct Hab as [Ha1 Ha2], Hbc as [Hb1 Hb2]. split; [congruence|tauto].
  - apply IH. exact Hrest.
Qed.

Lemma sales_evolve_trans (l1 l2 l3 : list SalesTransaction.t) :
  sales_evolve l1 l2 -> sales_evolve l2 l3 -> sales_evolve l1 l3.
Proof.
  intros (a & more & -> & Ha) (b & more' & -> & Hb).
  apply Forall2_app_inv_l in Hb. destruct Hb as (b1 & b2 & Hb1 & _ & ->).
  exists b1, (b2 ++ more'). rewrite app_assoc. split; [reflexivity|].
  eapply Forall2_sticky_trans; eassumption.
Qed.

Lemma set_status_sticky (i : Z) (l : list SalesTransaction.t) :
  Forall2 sticky l (set_status_where_id i CANCELLED l).
Proof.
  induction l as [|r l IH]; cbn; constructor; [|exact IH].
  destruct (SalesTransaction.id r =? i); [|apply sticky_refl].
  split; reflexivity.
Qed.

Lemma perform_sales_evolve (op : Op) (db : Store) :
  sales_evolve (salesTransactionsTable db) (salesTransactionsTable (perform op db)).
Proof.
  destruct op as [now input|now input|now id]; cbn [perform].
  - rewrite createStockTransaction_eq.
    destruct (medicines_where_id _ _); [apply sales_evolve_refl|].
    destruct (_ && _); apply sales_evolve_refl.
  - rewrite createSalesTransaction_eq.
    destruct (validate _ _); [|apply sales_evolve_refl].
    destruct (PrimFloat.ltb _ _); [apply sales_evolve_refl|].
    cbn. eexists _, _. split; [reflexivity|].
    induction (salesTransactionsTable db); constructor;
      [apply sticky_refl|assumption].
  - rewrite cancelSalesTransaction_eq.
    destruct (sales_where_id _ _); [apply sales_evolve_refl|].
    destruct (TransactionStatus_eqb _ _); [apply sales_evolve_refl|].
    cbn [fst].
    destruct (restore_loop now id
                (items_where_transaction_id id (salesTransactionItemsTable db))
                (marked_cancelled id db)) as (db' & Hrun & Hs & _).
    rewrite Hrun. cbn [fst]. rewrite Hs. cbn.
    exists (set_status_where_id id CANCELLED (salesTransactionsTable db)), [].
    rewrite app_nil_r. split; [reflexivity|apply set_status_sticky].
Qed.

Lemma run_sales_evolve (ops : list Op) :
  forall db,
    sales_evolve (salesTransactionsTable db) (salesTransactionsTable (run ops db)).
Proof.
  induction ops as [|op ops IH]; intros db; cbn.
  - apply sales_evolve_refl.
  - eapply sales_evolve_trans; [apply perform_sales_evolve|apply IH].
Qed.

Lemma sales_where_id_sticky (i : Z) (l l' : list SalesTransaction.t) :
  Forall2 sticky l l' ->
  Forall2 sticky (sales_where_id i l) (sales_where_id i l').
Proof.
  induction 1 as [|r r' l l' Hr _ IH]; cbn; [constructor|].
  destruct Hr as [Hid Hst]. rewrite Hid.
  destruct (SalesTransaction.id r =? i); [constructor; [split|]|]; assumption.
Qed.

Lemma status_of_evolve (i : Z) (db db' : Store) :
  sales_evolve (salesTransactionsTable db) (salesTransactionsTable db') ->
  status_of i db = Some CANCELLED -> status_of i db' = Some CANCELLED.
Proof.
  intros (l1 & more & E & H) Hst. unfold status_of in *. rewrite E.
  unfold sales_where_id at 1. rewrite filter_app.
  apply (sales_where_id_sticky i) in H.
  fold (sales_where_id i l1).
  destruct (sales_where_id i (salesTransactionsTable db)) as [|r tl];
    [discriminate|].
  inversion H as [|? r' ? tl' (_ & Hr) _]; subst. cbn.
  injection Hst as Hst. rewrite (Hr Hst). reflexivity.
Qed.

Lemma sales_where_id_set_status (i : Z) (s : TransactionStatus)
    (l : list SalesTransaction.t) :
  sales_where_id i (set_status_where_id i s l) =
  map (SalesTransaction.set_status s) (sales_where_id i l).
Proof.
  unfold sales_where_id, set_status_where_id.
  induction l as [|r l IH]; cbn [map filter]; [reflexivity|].
  destruct (Z.eqb_spec (SalesTransaction.id r) i) as [Hi|Hi];
    cbn [SalesTransaction.set_status SalesTransaction.id];
    destruct (Z.eqb_spec (SalesTransaction.id r) i); try contradiction;
    cbn [map]; rewrite IH; reflexivity.
Qed.

(** * The handlers' tests, replayed on the shelf *)

(** 'should create IN stock transaction and increase medicine stock' *)
Example test_in_increases_stock :
  stock_of 2 (fst (createStockTransaction 1
                     {| cst_medicine_id := 2; cst_type := IN; cst_quantity := 25;
                        cst_notes := Some "Restocking from supplier"%string |}
                     shelf))
  = Some 75.
Proof. vm_compute. reflexivity. Qed.

(** 'should create OUT stock transaction and decrease medicine stock' *)
Example test_out_decreases_stock :
  stock_of 1 (fst (createStockTransaction 1
                     {| cst_medicine_id := 1; cst_type := OUT; cst_quantity := 30;
                        cst_notes := Some "Sale to patient"%string |}
                     shelf))
  = Some 70.
Proof. vm_compute. reflexivity. Qed.

(** 'should throw error when medicine does not exist' *)
Example test_unknown_medicine :
  option_map message
    (match snd (createStockTransaction 1
                  {| cst_medicine_id := 999999; cst_type := IN;
                     cst_quantity := 10; cst_notes := None |} shelf) with
     | Err e => Some e
     | Ok _ => None
     end)
  = Some "Medicine with ID 999999 not found"%string.
Proof. vm_compute. reflexivity. Qed.

(** 'should create a sales transaction with items': 13000 in total, 7000
    of change, stocks 98 and 49. *)
Example test_sale_with_items :
  exists db',
    createSalesTransaction 1 test_sale shelf
    = (db', Ok {| row := SalesTransaction.mk 1 None 1300000 CASH 2000000 700000
                           COMPLETED None 1 1;
                  view_total_amount := parseFloat 1300000;
                  view_payment_received := parseFloat 2000000;
                  view_change_amount := parseFloat 700000 |})
    /\ stock_of 1 db' = Some 98 /\ stock_of 2 db' = Some 49
    /\ map entry (stockTransactionsTable db') = [(1, OUT, 2); (2, OUT, 1)].
Proof.
  eexists. split; [vm_compute; reflexivity|].
  repeat split; vm_compute; reflexivity.
Qed.

(** 'should throw error when payment is insufficient' *)
Example test_payment_insufficient :
  createSalesTransaction 1 (cash_sale 100000 [Build_CartLine 1 1]) shelf
  = (shelf, Err PaymentLessThanTotal).
Proof. vm_compute. reflexivity. Qed.

(** 'should cancel transaction and restore stock' *)
Example test_cancel_restores_stock :
  exists sold_store db',
    fst (createSalesTransaction 1
           (cash_sale 5000000 [Build_CartLine 1 5; Build_CartLine 2 3]) shelf)
    = sold_store
    /\ stock_of 1 sold_store = Some 95
    /\ cancelSalesTransaction 2 1 sold_store = (db', Ok true)
    /\ status_of 1 db' = Some CANCELLED
    /\ stock_of 1 db' = Some 100 /\ stock_of 2 db' = Some 50.
Proof.
  eexists _, _. split; [vm_compute; reflexivity|].
  split; [vm_compute; reflexivity|].
  split; [vm_compute; reflexivity|].
  repeat split; vm_compute; reflexivity.
Qed.

(** * Sales fail before they write *)

(** C3. Whenever [createSalesTransaction] throws, which it does only for
    an unknown medicine, for a cart line that asks more than the stock of
    its medicine, or for a payment below the computed total, the store is
    left exactly as it was: no sale, no item, no ledger entry is written
    and no stock is changed. *)
Theorem failed_sale_persists_nothing (now : timestamp)
    (input : CreateSalesTransactionInput) (db db' : Store) (e : Thrown) :
  createSalesTransaction now input db = (db', Err e) ->
  db' = db
  /\ ((exists l, In l (items input)
         /\ stock_of (medicine_id l) db = None
         /\ e = MedicineNotFound (medicine_id l))
      \/ (exists l name available, In l (items input)
            /\ stock_of (medicine_id l) db = Some available
            /\ available < quantity l
            /\ e = InsufficientStock (Some name) available (quantity l))
      \/ e = PaymentLessThanTotal).
Proof.
  rewrite createSalesTransaction_eq.
  destruct (validate (medicinesTable db) (items input)) as [md|e'] eqn:Ev.
  - destruct (PrimFloat.ltb _ _); intros H; [|discriminate].
    injection H as <- <-. auto.
  - intros H. injection H as <- <-. split; [reflexivity|].
    destruct (validate_err _ _ _ Ev)
      as [(l & Hin & -> & Hw)|(l & rec & tl & Hin & Hw & Hlt & ->)].
    + left. exists l. unfold stock_of, stock_in. rewrite Hw. auto.
    + right; left. exists l, (Medicine.name rec), (Medicine.current_stock rec).
      unfold stock_of, stock_in. rewrite Hw. auto.
Qed.

Lemma failed_sale_persists_nothing_witness :
  createSalesTransaction 7 (cash_sale 10000000 [Build_CartLine 1 200]) shelf
  = (shelf, Err (InsufficientStock (Some "Paracetamol"%string) 100 200))
  /\ fst (createSalesTransaction 7
            (cash_sale 10000000 [Build_CartLine 1 200]) shelf) = shelf.
Proof.
  assert (H : createSalesTransaction 7
                (cash_sale 10000000 [Build_CartLine 1 200]) shelf
              = (shelf, Err (InsufficientStock (Some "Paracetamol"%string) 100 200)))
    by (vm_compute; reflexivity).
  split; [exact H|].
  destruct (failed_sale_persists_nothing _ _ _ _ _ H) as [_ _].
  rewrite H. reflexivity.
Defined.

(** * Several lines on one medicine *)

(** C9. When every line of the cart, taken alone, names a medicine of the
    store and asks no more than the stock read before any write, the sale
    raises no stock error, however much the lines on one medicine add up
    to: it either stops at the payment check or goes through.  When it goes
    through, one OUT entry per line is appended to the ledger, and the
    stock of a medicine the cart names becomes the stock read before the
    sale minus the quantity of the last line naming it; other medicines
    keep their stock. *)
Theorem duplicate_lines_last_line_wins (now : timestamp)
    (input : CreateSalesTransactionInput) (db : Store) :
  Forall (fun l => exists available,
            stock_of (medicine_id l) db = Some available
            /\ quantity l <= available) (items input) ->
  createSalesTransaction now input db = (db, Err PaymentLessThanTotal)
  \/ exists view db',
       createSalesTransaction now input db = (db', Ok view)
       /\ (exists L,
             stockTransactionsTable db' = stockTransactionsTable db ++ L
             /\ map entry L =
                map (fun l => (medicine_id l, OUT, quantity l)) (items input))
       /\ (forall i s,
             stock_of i db = Some s ->
             stock_of i db' =
             match last_quantity i (items input) with
             | Some q => Some (s - q)
             | None => Some s
             end).
Proof.
  intros Hall.
  assert (Hv : exists md, validate (medicinesTable db) (items input) = Ok md).
  { apply validate_complete. eapply Forall_impl; [|exact Hall].
    intros l (a & Hs & Hq). unfold stock_of, stock_in in Hs.
    destruct (medicines_where_id (medicine_id l) (medicinesTable db))
      as [|rec tl]; [discriminate|].
    injection Hs as <-. exists rec, tl. auto. }
  destruct Hv as (md & Hv). rewrite createSalesTransaction_eq, Hv.
  destruct (PrimFloat.ltb _ _); [left; reflexivity|right].
  eexists _, _. split; [reflexivity|].
  pose proof (validate_ok _ _ _ Hv) as Hsnap. split.
  - eexists. split; [reflexivity|]. eapply out_rows_entries; exact Hsnap.
  - intros i s Hs. unfold stock_of. cbn [sold medicinesTable].
    rewrite (debit_last_wins now (medicinesTable db) i s _ _ Hs Hsnap).
    + destruct (last_quantity i (items input)); [reflexivity|exact Hs].
    + unfold stock_of in Hs. congruence.
Qed.

Lemma duplicate_lines_last_line_wins_witness :
  cart_quantity 3 [Build_CartLine 3 8; Build_CartLine 3 9] = 17
  /\ stock_of 3 shelf = Some 10
  /\ exists view db',
       createSalesTransaction 7
         (cash_sale 2000 [Build_CartLine 3 8; Build_CartLine 3 9]) shelf
       = (db', Ok view)
       /\ stock_of 3 db' = Some 1
       /\ exists L, stockTransactionsTable db' = stockTransactionsTable shelf ++ L
                    /\ map entry L = [(3, OUT, 8); (3, OUT, 9)].
Proof.
  split; [reflexivity|]. split; [reflexivity|].
  destruct (duplicate_lines_last_line_wins 7
              (cash_sale 2000 [Build_CartLine 3 8; Build_CartLine 3 9]) shelf)
    as [Hpay|(view & db' & Hrun & HL & Hstock)].
  - repeat constructor; exists 10; (split; [reflexivity|cbn; lia]).
  - exfalso. vm_compute in Hpay. discriminate Hpay.
  - exists view, db'. split; [exact Hrun|]. split.
    + exact (Hstock 3 10 eq_refl).
    + exact HL.
Defined.

(** * Stock never goes below zero *)








(** * CANCELLED is terminal *)

Lemma sales_evolve_row (l l' : list SalesTransaction.t) (k : nat)
    (r : SalesTransaction.t) :
  sales_evolve l l' -> nth_error l k = Some r ->
  exists r', nth_error l' k = Some r' /\ sticky r r'.
Proof.
  intros (l1 & more & -> & H). revert k.
  induction H as [|a b l l1 Hab _ IH]; intros [|k] Hk; cbn in *; try discriminate.
  - injection Hk as <-. exists b. split; [reflexivity|exact Hab].
  - apply IH. exact Hk.
Qed.

Lemma cancel_of_absent_or_cancelled (now : timestamp) (id : Z) (db : Store) :
  status_of id db = None \/ status_of id db = Some CANCELLED ->
  cancelSalesTransaction now id db = (db, Ok false).
Proof.
  rewrite cancelSalesTransaction_eq. unfold status_of.
  destruct (sales_where_id id (salesTransactionsTable db)) as [|tx tl];
    [reflexivity|].
  intros [H|H]; [discriminate|]. injection H as ->. reflexivity.
Qed.

Lemma cancel_marks_cancelled (now : timestamp) (id : Z) (db db1 : Store) :
  cancelSalesTransaction now id db = (db1, Ok true) ->
  status_of id db1 = Some CANCELLED.
Proof.
  rewrite cancelSalesTransaction_eq. unfold status_of.
  destruct (sales_where_id id (salesTransactionsTable db)) as [|tx tl] eqn:E;
    [discriminate|].
  destruct (TransactionStatus_eqb _ _); [discriminate|].
  destruct (restore_loop now id
              (items_where_transaction_id id (salesTransactionItemsTable db))
              (marked_cancelled id db)) as (db' & Hrun & Hs & _).
  rewrite Hrun. cbn [fst]. intros H. injection H as <-.
  rewrite Hs. cbn [marked_cancelled salesTransactionsTable].
  rewrite sales_where_id_set_status, E. reflexivity.
Qed.

(** C6. [cancelSalesTransaction] returns false, throws nothing and leaves
    the store as it was both when no sale has the id and when the sale is
    already CANCELLED, so the result does not tell the two apart.  No
    operation takes a sale out of CANCELLED: through any sequence of
    operations every row of the sales table stays at its place with its id,
    and stays CANCELLED once it is.  Hence after a cancellation that
    returned true, and whatever happened since, cancelling the same id
    again returns false and changes nothing. *)
Theorem cancelled_is_terminal :
  (forall now id db,
     status_of id db = None \/ status_of id db = Some CANCELLED ->
     cancelSalesTransaction now id db = (db, Ok false))
  /\ (forall ops db k r,
        nth_error (salesTransactionsTable db) k = Some r ->
        SalesTransaction.status r = CANCELLED ->
        exists r',
          nth_error (salesTransactionsTable (run ops db)) k = Some r'
          /\ SalesTransaction.id r' = SalesTransaction.id r
          /\ SalesTransaction.status r' = CANCELLED)
  /\ (forall id ops db,
        status_of id db = Some CANCELLED ->
        status_of id (run ops db) = Some CANCELLED)
  /\ (forall now id db db1,
        cancelSalesTransaction now id db = (db1, Ok true) ->
        status_of id db1 = Some CANCELLED
        /\ forall ops now',
             cancelSalesTransaction now' id (run ops db1)
             = (run ops db1, Ok false)).
Proof.
  split; [exact cancel_of_absent_or_cancelled|]. split; [|split].
  - intros ops db k r Hk Hst.
    destruct (sales_evolve_row _ _ k r (run_sales_evolve ops db) Hk)
      as (r' & Hk' & Hid & Hkeep).
    exists r'. auto.
  - intros id ops db. apply status_of_evolve. apply run_sales_evolve.
  - intros now id db db1 Hc.
    pose proof (cancel_marks_cancelled _ _ _ _ Hc) as H1.
    split; [exact H1|]. intros ops now'.
    apply cancel_of_absent_or_cancelled. right.
    eapply status_of_evolve; [apply run_sales_evolve|exact H1].
Qed.

Lemma cancelled_is_terminal_witness :
  cancelSalesTransaction 9 99999 shelf = (shelf, Ok false)
  /\ exists sold_once cancelled_once,
       createSalesTransaction 1 (cash_sale 500000 [Build_CartLine 1 1]) shelf
       = (sold_once, Ok {| row := SalesTransaction.mk 1 None 500000 CASH 500000 0
                                    COMPLETED None 1 1;
                           view_total_amount := parseFloat 500000;
                           view_payment_received := parseFloat 500000;
                           view_change_amount := parseFloat 0 |})
       /\ cancelSalesTransaction 2 1 sold_once = (cancelled_once, Ok true)
       /\ cancelSalesTransaction 3 1 cancelled_once = (cancelled_once, Ok false)
       /\ cancelSalesTransaction 5 1
            (run [CreateSale 4 (cash_sale 500000 [Build_CartLine 1 1])]
                 cancelled_once)
          = (run [CreateSale 4 (cash_sale 500000 [Build_CartLine 1 1])]
                 cancelled_once, Ok false).
Proof.
  destruct cancelled_is_terminal as (Habsent & _ & _ & Hagain).
  split; [apply Habsent; left; reflexivity|].
  exists (fst (createSalesTransaction 1
                 (cash_sale 500000 [Build_CartLine 1 1]) shelf)).
  exists (fst (cancelSalesTransaction 2 1
                 (fst (createSalesTransaction 1
                         (cash_sale 500000 [Build_CartLine 1 1]) shelf)))).
  assert (Hc : cancelSalesTransaction 2 1
                 (fst (createSalesTransaction 1
                         (cash_sale 500000 [Build_CartLine 1 1]) shelf))
               = (fst (cancelSalesTransaction 2 1
                         (fst (createSalesTransaction 1
                                 (cash_sale 500000 [Build_CartLine 1 1]) shelf))),
                  Ok true))
    by (vm_compute; reflexivity).
  destruct (Hagain _ _ _ _ Hc) as [_ Hfalse].
  split; [vm_compute; reflexivity|]. split; [exact Hc|]. split.
  - exact (Hfalse [] 3).
  - exact (Hfalse [CreateSale 4 (cash_sale 500000 [Build_CartLine 1 1])] 5).
Defined.

(** * Cancelling when a medicine is gone *)



(** * Prices on the items are snapshots *)

Lemma item_rows_priced (ms : list Medicine.t) (tid : Z) (now : timestamp)
    (cart : list CartLine) (md : list MedicineData) :
  Forall2 (snapshot_of ms) cart md ->
  forall serial,
    Forall2 (priced_at_validation ms tid) cart (item_rows tid now serial md).
Proof.
  induction 1 as [|l med cart md Hl _ IH]; intros serial; cbn; constructor;
    [|apply IH].
  destruct Hl as ((tl & E) & Hrq & _).
  unfold priced_at_validation; cbn.
  rewrite (where_id_head _ _ _ _ E), Hrq.
  repeat split. exists (medicineRecord med), tl.
  split; [exact E|]. split; [reflexivity|].
  unfold totalPrice; rewrite ?Hrq; reflexivity.
Qed.

(** * A price comes back from its JS number

    [parseFloat] gives the binary64 number nearest to the price, and
    [toString] followed by the rounding of the column gives the price
    again.  This is read off the specification of binary64 division. *)

Lemma digits2_pos_bounds (p : positive) :
  2 ^ (Zpos (digits2_pos p) - 1) <= Zpos p < 2 ^ Zpos (digits2_pos p).
Proof.
  induction p as [p IH|p IH|]; cbn [digits2_pos].
  - rewrite Pos2Z.inj_succ.
    replace (Z.succ (Zpos (digits2_pos p)) - 1) with (Z.succ (Zpos (digits2_pos p) - 1)) by lia.
    rewrite !Z.pow_succ_r by lia. lia.
  - rewrite Pos2Z.inj_succ.
    replace (Z.succ (Zpos (digits2_pos p)) - 1) with (Z.succ (Zpos (digits2_pos p) - 1)) by lia.
    rewrite !Z.pow_succ_r by lia. lia.
  - cbn. lia.
Qed.

Lemma digits2_pos_unique (p : positive) (d : Z) :
  2 ^ (d - 1) <= Zpos p < 2 ^ d -> Zpos (digits2_pos p) = d.
Proof.
  intros [Hlo Hhi]. pose proof (digits2_pos_bounds p) as [Blo Bhi].
  assert (0 < d).
  { destruct (Z.ltb_spec 0 d); [assumption|].
    destruct (Z.eqb_spec d 0) as [->|]; [cbn in Hhi; lia|].
    rewrite Z.pow_neg_r in Hhi by lia. lia. }
  destruct (Z.lt_trichotomy (Zpos (digits2_pos p)) d) as [Hlt|[Heq|Hgt]];
    [|exact Heq|].
  - assert (2 ^ Zpos (digits2_pos p) <= 2 ^ (d - 1))
      by (apply Z.pow_le_mono_r; lia). lia.
  - assert (2 ^ d <= 2 ^ (Zpos (digits2_pos p) - 1))
      by (apply Z.pow_le_mono_r; lia). lia.
Qed.

Lemma fexp_normal (d e : Z) :
  -1021 <= d + e -> fexp prec emax (d + e) - e = d - 53.
Proof. intros H. unfold fexp, SpecFloat.emin, prec, emax. lia. Qed.

Lemma round_nearest_even_cases (m : Z) (l : location) :
  round_nearest_even m l = m \/ round_nearest_even m l = m + 1.
Proof.
  destruct l as [|[| |]]; cbn [round_nearest_even]; auto.
  destruct (Z.even m); auto.
Qed.

(** The first shift of [binary_round_aux]: none for a mantissa of 53
    digits, one place for a mantissa of 54. *)
Lemma first_shift (p : positive) (e : Z) (l : location) :
  2 ^ 52 <= Zpos p < 2 ^ 54 -> -1000 <= e <= 900 ->
  exists mrs j,
    shr_fexp prec emax (Zpos p) e l = (mrs, e + j)
    /\ ((j = 0 /\ Zpos p < 2 ^ 53 /\ mrs = shr_record_of_loc (Zpos p) l)
        \/ (j = 1 /\ 2 ^ 53 <= Zpos p /\ shr_m mrs = Zpos p / 2)).
Proof.
  intros Hp He. unfold shr_fexp. cbn [Zdigits2].
  destruct (Z.ltb_spec (Zpos p) (2 ^ 53)) as [Hlt|Hge].
  - assert (Hd : Zpos (digits2_pos p) = 53)
      by (apply digits2_pos_unique; change (53 - 1) with 52; lia).
    rewrite Hd, fexp_normal by lia. change (53 - 53) with 0. cbn [shr].
    exists (shr_record_of_loc (Zpos p) l), 0. split; [f_equal; lia|].
    left. split; [reflexivity|]. split; [exact Hlt|reflexivity].
  - assert (Hd : Zpos (digits2_pos p) = 54)
      by (apply digits2_pos_unique; change (54 - 1) with 53; lia).
    rewrite Hd, fexp_normal by lia.
    change (54 - 53) with 1. cbn [shr iter_pos].
    exists (shr_1 (shr_record_of_loc (Zpos p) l)), 1. split; [reflexivity|].
    right. split; [reflexivity|]. split; [exact Hge|].
    assert (Hm : shr_m (shr_1 (shr_record_of_loc (Zpos p) l))
                 = shr_m (shr_1 (Build_shr_record (Zpos p) false false))).
    { destruct l as [|[| |]]; destruct p; reflexivity. }
    rewrite Hm. destruct p as [p|p|]; cbn [shr_1 shr_m].
    + rewrite Pos2Z.inj_xI. apply Z.div_unique with (r := 1); lia.
    + rewrite Pos2Z.inj_xO. apply Z.div_unique with (r := 0); lia.
    + cbn in Hge. lia.
Qed.

(** The second shift, after rounding: one place when rounding carried the
    mantissa to 2^53. *)
Lemma second_shift (s : bool) (mr e : Z) :
  2 ^ 52 <= mr <= 2 ^ 53 -> -1000 <= e <= 900 ->
  exists m k,
    (let '(mrs, e') := shr_fexp prec emax mr e loc_Exact in
     match shr_m mrs with
     | Z0 => S754_zero s
     | Zpos m => if e' <=? emax - prec then S754_finite s m e'
                 else S754_infinity s
     | Zneg _ => S754_nan
     end) = S754_finite s m (e + k)
    /\ ((k = 0 /\ Zpos m = mr) \/ (k = 1 /\ mr = 2 ^ 53 /\ Zpos m = 2 ^ 52)).
Proof.
  intros Hm He. destruct mr as [|p|p]; try (cbn in Hm; lia).
  destruct (first_shift p e loc_Exact) as (mrs & j & Hs & Hj);
    [cbn in *; lia|exact He|].
  rewrite Hs. destruct Hj as [(-> & Hlt & Hmrs)|(-> & Hge & Hmrs)].
  - rewrite Hmrs. cbn [shr_record_of_loc shr_m]. exists p, 0.
    destruct (Z.leb_spec (e + 0) (emax - prec)) as [_|Hbad];
      [|unfold emax, prec in Hbad; lia].
    split; [reflexivity|]. left. split; reflexivity.
  - assert (Hp : Zpos p = 2 ^ 53) by lia.
    rewrite Hmrs, Hp. change (2 ^ 53 / 2) with (Zpos (2 ^ 52)%positive).
    exists (2 ^ 52)%positive, 1.
    destruct (Z.leb_spec (e + 1) (emax - prec)) as [_|Hbad];
      [|unfold emax, prec in Hbad; lia].
    split; [reflexivity|]. right. split; [reflexivity|]. split; reflexivity.
Qed.

(** [binary_round_aux] on a mantissa of 53 or 54 digits: the result is
    finite and lies within one unit in the last place of the mantissa it
    was given. *)
Lemma binary_round_aux_near (s : bool) (p : positive) (e : Z) (l : location) :
  2 ^ 52 <= Zpos p < 2 ^ 54 -> -1000 <= e <= 800 ->
  exists m k,
    binary_round_aux prec emax s (Zpos p) e l = S754_finite s m (e + k)
    /\ 0 <= k <= 2
    /\ Zpos p - 1 <= Zpos m * 2 ^ k <= Zpos p + 2
    /\ 2 ^ 52 * 2 ^ k <= Zpos m * 2 ^ k
    /\ (k = 0 -> Zpos p <= Zpos m <= Zpos p + 1).
Proof.
  intros Hp He. unfold binary_round_aux.
  destruct (first_shift p e l Hp) as (mrs & j & Hs & Hj); [lia|].
  rewrite Hs.
  set (mr := round_nearest_even (shr_m mrs) (loc_of_shr_record mrs)).
  assert (Hmr : mr = shr_m mrs \/ mr = shr_m mrs + 1)
    by apply round_nearest_even_cases.
  assert (Hhalf : j = 1 -> 2 * shr_m mrs <= Zpos p <= 2 * shr_m mrs + 1).
  { intros Hj1. destruct Hj as [(H0 & _)|(_ & _ & Hm)]; [lia|].
    rewrite Hm. pose proof (Z.div_mod (Zpos p) 2).
    pose proof (Z.mod_pos_bound (Zpos p) 2). lia. }
  assert (Hsame : j = 0 -> shr_m mrs = Zpos p).
  { intros Hj0. destruct Hj as [(_ & _ & ->)|(H1 & _)]; [|lia].
    destruct l as [|[| |]]; reflexivity. }
  assert (Hrange : 2 ^ 52 <= mr <= 2 ^ 53).
  { destruct Hj as [(-> & Hlt & Hm)|(-> & Hge & Hm)];
      [specialize (Hsame eq_refl); lia|].
    specialize (Hhalf eq_refl). lia. }
  destruct (second_shift s mr (e + j) Hrange) as (m & k & Hfin & Hk);
    [destruct Hj as [(-> & _)|(-> & _)]; lia|].
  rewrite Hfin. exists m, (j + k). split; [f_equal; lia|].
  destruct Hj as [(-> & Hlt & Hm)|(-> & Hge & Hm)];
    destruct Hk as [(-> & Hmm)|(-> & Hcarry & Hmm)]; cbn [Z.add];
    try specialize (Hhalf eq_refl); try specialize (Hsame eq_refl);
    rewrite Hmm; change (2 ^ 0) with 1; change (2 ^ 1) with 2;
    change (2 ^ 2) with 4; lia.
Qed.

Lemma binary_round_aux_exact (s : bool) (p : positive) (e : Z) :
  2 ^ 52 <= Zpos p < 2 ^ 53 -> -1000 <= e <= 800 ->
  binary_round_aux prec emax s (Zpos p) e loc_Exact = S754_finite s p e.
Proof.
  intros Hp He. unfold binary_round_aux.
  destruct (first_shift p e loc_Exact) as (mrs & j & Hs & Hj); [lia|lia|].
  rewrite Hs. destruct Hj as [(-> & _ & ->)|(_ & Hge & _)]; [|lia].
  cbn [shr_record_of_loc shr_m loc_of_shr_record round_nearest_even].
  destruct (second_shift s (Zpos p) (e + 0)) as (m & k & Hfin & Hk);
    [lia|lia|].
  rewrite Hfin. destruct Hk as [(-> & Hm)|(_ & Hc & _)]; [|lia].
  injection Hm as ->. f_equal. lia.
Qed.

Lemma iter_xO (p k : positive) :
  Zpos (Pos.iter xO p k) = Zpos p * 2 ^ Zpos k.
Proof.
  induction k as [|k IH] using Pos.peano_ind.
  - cbn [Pos.iter]. rewrite Pos2Z.inj_xO. change (2 ^ 1) with 2. lia.
  - rewrite Pos.iter_succ, Pos2Z.inj_xO, IH, Pos2Z.inj_succ.
    rewrite Z.pow_succ_r by lia. lia.
Qed.

(** The JS number of a positive integer below 2^53, normalised: a
    mantissa of 53 digits and the exponent that goes with it. *)
Lemma of_Z_normal (p : positive) :
  Zpos p < 2 ^ 53 ->
  exists m g,
    Prim2SF (PrimFloat.of_uint63 (Uint63.of_Z (Zpos p))) = S754_finite false m (- g)
    /\ 2 ^ 52 <= Zpos m < 2 ^ 53
    /\ 0 <= g <= 52
    /\ Zpos m = Zpos p * 2 ^ g
    /\ Zpos (digits2_pos p) = 53 - g.
Proof.
  intros Hp. rewrite of_uint63_spec, Uint63.of_Z_spec.
  rewrite Z.mod_small by (unfold Uint63.wB; cbn; lia).
  cbn [binary_normalize]. unfold binary_round.
  pose proof (digits2_pos_bounds p) as [Blo Bhi].
  set (d := Zpos (digits2_pos p)) in *.
  assert (Hd : 1 <= d <= 53).
  { split; [unfold d; lia|].
    destruct (Z.leb_spec d 53) as [|Hbig]; [assumption|].
    assert (2 ^ 53 <= 2 ^ (d - 1)) by (apply Z.pow_le_mono_r; lia). lia. }
  assert (Hf : fexp prec emax (d + 0) = d - 53)
    by (unfold fexp, SpecFloat.emin, prec, emax; lia).
  rewrite Hf. unfold shl_align.
  assert (Hpow : 2 ^ (d - 1) * 2 ^ (53 - d) = 2 ^ 52
                 /\ 2 ^ d * 2 ^ (53 - d) = 2 ^ 53).
  { rewrite <- !Z.pow_add_r by lia. split; f_equal; lia. }
  assert (Hpos : 0 < 2 ^ (53 - d)) by (apply Z.pow_pos_nonneg; lia).
  destruct (d - 53 - 0) as [|k|k] eqn:Ek; [| lia |].
  - exists p, 0. replace (d - 53) with 0 by lia.
    assert (Hd53 : d = 53) by lia. rewrite Hd53 in *.
    change (2 ^ (53 - 1)) with (2 ^ 52) in Blo.
    rewrite binary_round_aux_exact by lia.
    repeat split; try lia.
  - exists (Pos.iter xO p k), (53 - d).
    assert (Hk : Zpos k = 53 - d) by lia.
    assert (Hm : Zpos (Pos.iter xO p k) = Zpos p * 2 ^ (53 - d))
      by (rewrite iter_xO, Hk; reflexivity).
    assert (Hr : 2 ^ 52 <= Zpos (Pos.iter xO p k) < 2 ^ 53) by (rewrite Hm; nia).
    rewrite binary_round_aux_exact by lia.
    split; [f_equal; lia|]. split; [exact Hr|]. split; [lia|].
    split; [exact Hm|lia].
Qed.

Lemma div_eucl_eq (a b : Z) : Z.div_eucl a b = (a / b, a mod b).
Proof. unfold Z.div, Z.modulo. destruct (Z.div_eucl a b). reflexivity. Qed.

Lemma SFdiv_core_normal (m1 m2 : positive) (e1 e2 : Z) :
  2 ^ 52 <= Zpos m1 < 2 ^ 53 -> 2 ^ 52 <= Zpos m2 < 2 ^ 53 ->
  -1000 <= e1 - e2 ->
  SFdiv_core_binary prec emax (Zpos m1) e1 (Zpos m2) e2
  = (Zpos m1 * 2 ^ 53 / Zpos m2, e1 - e2 - 53,
     new_location (Zpos m2) ((Zpos m1 * 2 ^ 53) mod Zpos m2)).
Proof.
  intros H1 H2 He. unfold SFdiv_core_binary. cbn [Zdigits2].
  assert (Hd1 : Zpos (digits2_pos m1) = 53)
    by (apply digits2_pos_unique; change (53 - 1) with 52; lia).
  assert (Hd2 : Zpos (digits2_pos m2) = 53)
    by (apply digits2_pos_unique; change (53 - 1) with 52; lia).
  rewrite Hd1, Hd2.
  assert (Hmin : Z.min (fexp prec emax (53 + e1 - (53 + e2))) (e1 - e2)
                 = e1 - e2 - 53)
    by (unfold fexp, SpecFloat.emin, prec, emax; lia).
  rewrite Hmin. replace (e1 - e2 - (e1 - e2 - 53)) with 53 by lia.
  rewrite Z.shiftl_mul_pow2 by lia. rewrite div_eucl_eq. reflexivity.
Qed.

(** The quotient of two normal numbers lies within 2^-52 of the exact
    quotient, relative to itself. *)
Lemma SFdiv_normal (s : bool) (m1 m2 : positive) (g1 g2 : Z) :
  2 ^ 52 <= Zpos m1 < 2 ^ 53 -> 2 ^ 52 <= Zpos m2 < 2 ^ 53 ->
  0 <= g1 <= 52 -> 0 <= g2 <= 52 ->
  exists m k,
    SFdiv prec emax (S754_finite s m1 (- g1)) (S754_finite false m2 (- g2))
    = S754_finite s m (g2 - g1 - 53 + k)
    /\ 0 <= k <= 2
    /\ Z.abs (Zpos m * 2 ^ k * Zpos m2 - Zpos m1 * 2 ^ 53) * 2 ^ 52
       <= Zpos m * 2 ^ k * Zpos m2.
Proof.
  intros H1 H2 Hg1 Hg2. unfold SFdiv.
  rewrite SFdiv_core_normal by lia. rewrite xorb_false_r.
  set (N := Zpos m1 * 2 ^ 53).
  pose proof (Z.div_mod N (Zpos m2) ltac:(lia)) as Hdm.
  pose proof (Z.mod_pos_bound N (Zpos m2) ltac:(lia)) as Hr.
  set (q := N / Zpos m2) in *. set (r := N mod Zpos m2) in *.
  assert (Hq : 2 ^ 52 <= q < 2 ^ 54).
  { change (2 ^ 54) with (2 * 2 ^ 53). change (2 ^ 53) with (2 * 2 ^ 52) in *.
    unfold N in *. nia. }
  destruct q as [|pq|pq] eqn:Eq; try (cbn in Hq; lia).
  destruct (binary_round_aux_near s pq (- g1 - - g2 - 53)
              (new_location (Zpos m2) r) Hq) as (m & k & Hfin & Hk & Hv & Hlow & H0);
    [lia|].
  rewrite Hfin. exists m, k. split; [f_equal; lia|]. split; [exact Hk|].
  assert (Hpow : 1 <= 2 ^ k /\ (k <> 0 -> 2 <= 2 ^ k)).
  { assert (Hk3 : k = 0 \/ k = 1 \/ k = 2) by lia.
    destruct Hk3 as [-> | [-> | ->]]; cbn; lia. }
  destruct Hpow as [Hp1 Hp2].
  set (V := Zpos m * 2 ^ k) in *. set (b := Zpos m2) in *.
  assert (Hsplit : V * b - N = (V - Zpos pq) * b - r) by lia.
  assert (Hb : 0 < b) by (unfold b; lia).
  assert (Hprod0 : - b <= (V - Zpos pq) * b <= 2 * b) by nia.
  assert (Hprod : - (2 * b) < (V - Zpos pq) * b - r <= 2 * b) by lia.
  assert (Hbig : (if k =? 0 then 1 else 2) * 2 ^ 52 * b <= V * b).
  { destruct (Z.eqb_spec k 0) as [Hk0|Hk0]; [nia|].
    specialize (Hp2 Hk0). nia. }
  assert (Hzero : k = 0 -> - b < (V - Zpos pq) * b - r <= b).
  { intros Hk0. specialize (H0 Hk0). subst k.
    unfold V in *. change (2 ^ 0) with 1 in *.
    assert (0 <= (Zpos m * 1 - Zpos pq) * b <= b) by nia. lia. }
  rewrite Hsplit. destruct (Z.eqb_spec k 0) as [Hk0|Hk0].
  - specialize (Hzero Hk0). change (2 ^ 52) with 4503599627370496 in *. lia.
  - change (2 ^ 52) with 4503599627370496 in *. lia.
Qed.

(** The quotient of two integers as JS numbers, the dividend below 2^36 in
    magnitude: a finite number [m / 2^g] within 2^-52 of the exact
    quotient, relative to itself. *)
Lemma div_near (a : Z) (pb : positive) :
  0 < Z.abs a < 2 ^ 36 -> Zpos pb < 2 ^ 53 ->
  exists m g,
    Prim2SF (PrimFloat.div (number_of_Z a) (number_of_Z (Zpos pb)))
    = S754_finite (a <? 0) m (- g)
    /\ 0 < g
    /\ Z.abs (Zpos m * Zpos pb - Z.abs a * 2 ^ g) * 2 ^ 52 <= Zpos m * Zpos pb.
Proof.
  intros Ha Hb.
  assert (Hnum : exists pa m1 g1,
             Z.abs a = Zpos pa
             /\ Prim2SF (number_of_Z a) = S754_finite (a <? 0) m1 (- g1)
             /\ 2 ^ 52 <= Zpos m1 < 2 ^ 53 /\ 17 <= g1 <= 52
             /\ Zpos m1 = Zpos pa * 2 ^ g1).
  { assert (Hn : forall pa, Zpos pa < 2 ^ 36 ->
               exists m1 g1,
                 Prim2SF (PrimFloat.of_uint63 (Uint63.of_Z (Zpos pa)))
                 = S754_finite false m1 (- g1)
                 /\ 2 ^ 52 <= Zpos m1 < 2 ^ 53 /\ 17 <= g1 <= 52
                 /\ Zpos m1 = Zpos pa * 2 ^ g1).
    { intros pa Hpa.
      destruct (of_Z_normal pa) as (m1 & g1 & E & Hm & Hg & Hv & Hd);
        [change (2 ^ 53) with (2 ^ 36 * 2 ^ 17); lia|].
      exists m1, g1. split; [exact E|]. split; [exact Hm|].
      split; [|exact Hv]. split; [|lia].
      pose proof (digits2_pos_bounds pa) as [Blo _]. rewrite Hd in Blo.
      destruct (Z.leb_spec 17 g1) as [|Hsmall]; [assumption|].
      assert (2 ^ 36 <= 2 ^ (53 - g1 - 1)) by (apply Z.pow_le_mono_r; lia).
      lia. }
    destruct a as [|pa|pa]; [cbn in Ha; lia| |].
    - destruct (Hn pa) as (m1 & g1 & E & H); [cbn in Ha; lia|].
      exists pa, m1, g1. split; [reflexivity|]. split; [exact E|exact H].
    - destruct (Hn pa) as (m1 & g1 & E & H); [cbn in Ha; lia|].
      exists pa, m1, g1. split; [reflexivity|]. split; [|exact H].
      cbn [number_of_Z]. rewrite opp_spec, E. reflexivity. }
  destruct Hnum as (pa & m1 & g1 & Habs & E1 & Hm1 & Hg1 & Hv1).
  destruct (of_Z_normal pb Hb) as (m2 & g2 & E2 & Hm2 & Hg2 & Hv2 & _).
  cbn [number_of_Z]. rewrite div_spec, E1, E2. unfold SF64div.
  destruct (SFdiv_normal (a <? 0) m1 m2 g1 g2 Hm1 Hm2) as (m & k & E & Hk & Hbound);
    [lia|lia|].
  rewrite E. exists m, (g1 - g2 + 53 - k). split; [f_equal; lia|].
  split; [lia|]. rewrite Habs.
  set (g := g1 - g2 + 53 - k).
  assert (HT : 0 < 2 ^ (k + g2)) by (apply Z.pow_pos_nonneg; lia).
  assert (Hleft : Zpos m * 2 ^ k * Zpos m2 = Zpos m * Zpos pb * 2 ^ (k + g2)).
  { rewrite Hv2, Z.pow_add_r by lia. ring. }
  assert (Hright : Zpos m1 * 2 ^ 53 = Zpos pa * 2 ^ g * 2 ^ (k + g2)).
  { rewrite Hv1, <- !Z.mul_assoc, <- !Z.pow_add_r by (unfold g; lia).
    f_equal. f_equal. unfold g. lia. }
  rewrite Hleft, Hright, <- Z.mul_sub_distr_r, Z.abs_mul in Hbound.
  rewrite (Z.abs_eq (2 ^ (k + g2))) in Hbound by lia.
  apply (Z.mul_le_mono_pos_r _ _ (2 ^ (k + g2)) HT).
  rewrite <- Hbound. apply Z.eq_le_incl. ring.
Qed.

Lemma toNumeric_finite (x : number) (s : bool) (m : positive) (g : Z) :
  Prim2SF x = S754_finite s m (- g) -> 0 < g ->
  toNumeric x
  = let n := 100 * Zpos m in
    let d := 2 ^ g in
    let c := n / d in
    let up :=
      ((2 * c + 1) * d <=? 2 * n)
      || PrimFloat.eqb
           (PrimFloat.div (number_of_Z (2 * c + 1)) (number_of_Z 200))
           (PrimFloat.abs x) in
    let r := if up then c + 1 else c in
    if s then - r else r.
Proof.
  intros E Hg. unfold toNumeric. rewrite E.
  destruct (Z.leb_spec 0 (- g)) as [|_]; [lia|].
  rewrite Z.opp_involutive, Z.mul_1_r. reflexivity.
Qed.

Lemma SFeqb_finite (m m' : positive) (e e' : Z) :
  SFeqb (S754_finite false m' e') (S754_finite false m e) = true ->
  e' = e /\ m' = m.
Proof.
  unfold SFeqb, SFcompare.
  destruct (Z.compare_spec e' e) as [He| |]; try discriminate.
  destruct (Pos.compare_cont Eq m' m) eqn:Hc; try discriminate.
  intros _. split; [exact He|]. apply Pos.compare_eq. exact Hc.
Qed.

(** A value of a [numeric(10,2)] column comes back from its JS number as
    itself. *)
Theorem numeric_reads_back (c : numeric) :
  -10000000000 < c < 10000000000 -> toNumeric (parseFloat c) = c.
Proof.
  intros Hc. destruct (Z.eq_dec c 0) as [->|Hnz]; [vm_compute; reflexivity|].
  destruct (div_near c 100) as (m & g & E & Hg & Hb);
    [change (2 ^ 36) with 68719476736; lia|cbn; lia|].
  unfold parseFloat at 1.
  rewrite (toNumeric_finite _ _ _ _ E Hg). cbv zeta.
  set (C := Z.abs c) in *. set (n := 100 * Zpos m). set (d := 2 ^ g).
  assert (Hd : 0 < d) by (apply Z.pow_pos_nonneg; lia).
  replace (Zpos m * 100) with n in Hb by (unfold n; lia).
  fold d in Hb.
  assert (HC : 0 < C < 10000000000) by (unfold C; lia).
  assert (HCd : d <= C * d <= 9999999999 * d) by nia.
  change (2 ^ 52) with 4503599627370496 in Hb.
  assert (Hnear : 2 * Z.abs (n - C * d) < d) by lia.
  assert (Hsign : (if c <? 0 then - C else C) = c).
  { unfold C. destruct (Z.ltb_spec c 0); lia. }
  destruct (Z.le_gt_cases (C * d) n) as [Hup|Hdown].
  - assert (Hk : n / d = C).
    { symmetry. apply Z.div_unique with (r := n - C * d); lia. }
    rewrite Hk.
    destruct (Z.leb_spec ((2 * C + 1) * d) (2 * n)) as [|_]; [lia|].
    cbn [orb].
    destruct (div_near (2 * C + 1) 200) as (m' & g' & E' & Hg' & Hb');
      [change (2 ^ 36) with 68719476736; lia|cbn; lia|].
    rewrite eqb_spec, abs_spec.
    unfold parseFloat. rewrite E, E'. cbn [SFabs].
    replace (2 * C + 1 <? 0) with false
      by (symmetry; apply Z.ltb_ge; lia).
    destruct (SFeqb _ _) eqn:Heq; [exfalso|exact Hsign].
    apply SFeqb_finite in Heq. destruct Heq as [Hgg ->].
    assert (g' = g) by lia. subst g'. fold d in Hb'.
    replace (Zpos m * 200) with (2 * n) in Hb' by (unfold n; lia).
    change (2 ^ 52) with 4503599627370496 in Hb'.
    rewrite (Z.abs_eq (2 * C + 1)) in Hb' by lia. lia.
  - assert (Hk : n / d = C - 1).
    { symmetry. apply Z.div_unique with (r := n - (C - 1) * d); lia. }
    rewrite Hk.
    destruct (Z.leb_spec ((2 * (C - 1) + 1) * d) (2 * n)) as [_|]; [|lia].
    cbn [orb]. replace (C - 1 + 1) with C by lia. exact Hsign.
Qed.

Lemma priced_is_copied (ms : list Medicine.t) (tid : Z) (l : CartLine)
    (it : SalesTransactionItem.t) :
  Forall (fun m => in_column (Medicine.price m)) ms ->
  priced_at_validation ms tid l it -> copied_at_validation ms tid l it.
Proof.
  intros Hcol (Ht & Hm & Hq & rec & rest & E & Hu & Htot).
  assert (Hin : In rec (medicines_where_id (medicine_id l) ms))
    by (rewrite E; left; reflexivity).
  apply filter_In in Hin. destruct Hin as [Hin _].
  rewrite Forall_forall in Hcol. specialize (Hcol rec Hin).
  rewrite (numeric_reads_back _ Hcol) in Hu.
  unfold copied_at_validation. rewrite Hu, Hq.
  split; [exact Ht|]. split; [exact Hm|]. split; [reflexivity|].
  split; [exists rec, rest; split; [exact E|reflexivity]|exact Htot].
Qed.

Lemma perform_items_append (op : Op) (db : Store) :
  exists more,
    salesTransactionItemsTable (perform op db)
    = salesTransactionItemsTable db ++ more.
Proof.
  destruct op as [now input|now input|now id]; cbn [perform].
  - rewrite createStockTransaction_eq.
    destruct (medicines_where_id _ _); [|destruct (_ && _)];
      exists []; rewrite app_nil_r; reflexivity.
  - rewrite createSalesTransaction_eq.
    destruct (validate _ _); [destruct (PrimFloat.ltb _ _)|];
      try (exists []; rewrite app_nil_r; reflexivity).
    eexists. reflexivity.
  - rewrite cancelSalesTransaction_eq.
    destruct (sales_where_id _ _); [|destruct (TransactionStatus_eqb _ _)];
      try (exists []; rewrite app_nil_r; reflexivity).
    destruct (restore_loop now id
                (items_where_transaction_id id (salesTransactionItemsTable db))
                (marked_cancelled id db)) as (db' & Hrun & _ & Hi & _).
    rewrite Hrun. cbn [fst]. rewrite Hi.
    exists []. rewrite app_nil_r. reflexivity.
Qed.

Lemma history_items_append (evs : list Event) :
  forall db, exists more,
    salesTransactionItemsTable (history evs db)
    = salesTransactionItemsTable db ++ more.
Proof.
  induction evs as [|ev evs IH]; intros db.
  - exists []. rewrite app_nil_r. reflexivity.
  - change (history (ev :: evs) db) with (history evs (happen ev db)).
    destruct (IH (happen ev db)) as (more & Hmore). rewrite Hmore.
    destruct ev as [op|f]; cbn [happen].
    + destruct (perform_items_append op db) as (m1 & Hm1). rewrite Hm1.
      exists (m1 ++ more). rewrite app_assoc. reflexivity.
    + exists more. reflexivity.
Qed.

(** C8. The prices of the medicines being values of their
    [numeric(10,2)] column, a sale that goes through appends one item row
    per cart line, in cart order: the row carries the line's medicine and
    quantity, its [unit_price] is the price of the medicine row read at
    validation, and its [total_price] is made from that [unit_price], as a
    JS number, times the quantity, written to the column.  Whatever happens
    afterwards, operations of the engine and arbitrary rewrites of the
    medicines table (prices included), these rows stay in the items table
    as they were written: the table only grows at its end. *)
Theorem item_prices_are_snapshots (now : timestamp)
    (input : CreateSalesTransactionInput) (db db' : Store)
    (view : SalesTransactionView) (evs : list Event) :
  Forall (fun m => in_column (Medicine.price m)) (medicinesTable db) ->
  createSalesTransaction now input db = (db', Ok view) ->
  exists new more,
    salesTransactionItemsTable db' = salesTransactionItemsTable db ++ new
    /\ Forall2 (copied_at_validation (medicinesTable db)
                  (SalesTransaction.id (row view))) (items input) new
    /\ salesTransactionItemsTable (history evs db')
       = salesTransactionItemsTable db ++ new ++ more.
Proof.
  intros Hcol. rewrite createSalesTransaction_eq.
  destruct (validate (medicinesTable db) (items input)) as [md|e] eqn:Ev;
    [|discriminate].
  destruct (PrimFloat.ltb _ _); [discriminate|].
  intros H. injection H as <- <-.
  destruct (history_items_append evs (sold now input md db)) as (more & Hmore).
  exists (item_rows (salesTransactions_serial db) now
            (salesTransactionItems_serial db) md), more.
  split; [reflexivity|]. split.
  - eapply Forall2_impl; [|apply item_rows_priced, validate_ok; exact Ev].
    intros l it. apply priced_is_copied. exact Hcol.
  - rewrite Hmore. cbn [sold salesTransactionItemsTable].
    rewrite app_assoc. reflexivity.
Qed.

Lemma item_prices_are_snapshots_witness :
  exists more,
    map (fun it => (SalesTransactionItem.unit_price it,
                    SalesTransactionItem.total_price it))
        (salesTransactionItemsTable
           (history prices_doubled
              (fst (createSalesTransaction 1 test_sale shelf))))
    = [(500000, 1000000); (300000, 300000)] ++ more.
Proof.
  assert (H : createSalesTransaction 1 test_sale shelf
              = (fst (createSalesTransaction 1 test_sale shelf),
                 Ok {| row := SalesTransaction.mk 1 None 1300000 CASH 2000000
                                700000 COMPLETED None 1 1;
                       view_total_amount := parseFloat 1300000;
                       view_payment_received := parseFloat 2000000;
                       view_change_amount := parseFloat 700000 |}))
    by (vm_compute; reflexivity).
  assert (Hcol : Forall (fun m => in_column (Medicine.price m))
                        (medicinesTable shelf))
    by (repeat constructor; cbn; lia).
  destruct (item_prices_are_snapshots 1 test_sale shelf _ _ prices_doubled
              Hcol H)
    as (new & more & Hnew & _ & Hlater).
  exists (map (fun it => (SalesTransactionItem.unit_price it,
                          SalesTransactionItem.total_price it)) more).
  rewrite Hlater. cbn [shelf salesTransactionItemsTable app].
  rewrite map_app. f_equal.
  assert (Hn : new = salesTransactionItemsTable
                       (fst (createSalesTransaction 1 test_sale shelf)))
    by (rewrite Hnew; reflexivity).
  rewrite Hn. vm_compute. reflexivity.
Defined.

(** * Where the code leaves the specification *)

(** C1. Two lines on one medicine break the agreement of counter and
    ledger.  The shelf holds 10 bottles of syrup and no ledger entry.  A
    sale of three bottles and of four, in two lines, goes through and
    records OUT 3 and OUT 4, signed sum -7, while the stock is written as
    10 - 4 = 6 and not as 10 - 7 = 3. *)
Theorem duplicate_lines_break_ledger_agreement :
  stock_of 3 shelf = Some 10
  /\ ledger_sum 3 (stockTransactionsTable shelf) = 0
  /\ (exists view,
        createSalesTransaction 7 syrup_twice shelf = (syrup_twice_sold, Ok view))
  /\ map entry (stockTransactionsTable syrup_twice_sold)
     = [(3, OUT, 3); (3, OUT, 4)]
  /\ ledger_sum 3 (stockTransactionsTable syrup_twice_sold) = -7
  /\ stock_of 3 syrup_twice_sold = Some 6
  /\ stock_of 3 syrup_twice_sold
     <> Some (10 + ledger_sum 3 (stockTransactionsTable syrup_twice_sold)).
Proof.
  repeat split; try (vm_compute; reflexivity).
  - eexists. vm_compute. reflexivity.
  - vm_compute. discriminate.
Qed.

(** C4. Cancelling a sale with two lines on one medicine does not give the
    stock back as it was.  The sale of three and of four bottles of syrup
    took the stock from 10 to 6; its cancellation returns true, marks the
    sale CANCELLED and appends IN 3 and IN 4, which brings the stock to 13
    and not back to 10. *)
Theorem cancelling_duplicate_lines_overshoots :
  stock_of 3 shelf = Some 10
  /\ stock_of 3 syrup_twice_sold = Some 6
  /\ exists db',
       cancelSalesTransaction 8 1 syrup_twice_sold = (db', Ok true)
       /\ status_of 1 db' = Some CANCELLED
       /\ map entry (stockTransactionsTable db')
          = [(3, OUT, 3); (3, OUT, 4); (3, IN, 3); (3, IN, 4)]
       /\ stock_of 3 db' = Some 13.
Proof.
  split; [reflexivity|]. split; [vm_compute; reflexivity|].
  exists (fst (cancelSalesTransaction 8 1 syrup_twice_sold)).
  repeat split; vm_compute; reflexivity.
Qed.

(** C5. The payment is checked against a total computed in binary
    floating point.  Three bottles at 1.10 make 3.3000000000000003, which
    the column would store as 3.30; a payment of 3.30, which the column
    stores as 3.30 as well, is 4.4e-16 short of it, and the sale is thrown
    out as paid too little instead of being created with change 0.00.  One
    hundredth more and the sale goes through, total 3.30 and change 0.01. *)
Theorem exact_payment_is_refused :
  toNumeric (totalAmount [{| medicineRecord := syrup; requestedQuantity := 3 |}])
  = 330
  /\ toNumeric (payment_received syrup_paid_exactly) = 330
  /\ createSalesTransaction 7 syrup_paid_exactly shelf
     = (shelf, Err PaymentLessThanTotal)
  /\ exists db',
       createSalesTransaction 7 (cash_sale 331 [Build_CartLine 3 3]) shelf
       = (db', Ok {| row := SalesTransaction.mk 1 None 330 CASH 331 1
                              COMPLETED None 7 7;
                     view_total_amount := parseFloat 330;
                     view_payment_received := parseFloat 331;
                     view_change_amount := parseFloat 1 |}).
Proof.
  repeat split; try (vm_compute; reflexivity).
  eexists. vm_compute. reflexivity.
Qed.

(** * Quantities that are not positive *)

(** C7, as the handler behaves when called directly: with -4 as quantity
    [createStockTransaction] throws nothing.  An IN movement of -4 takes the
    syrup from 10 to 6, an OUT movement of -4 passes the stock check and
    takes it to 14; each leaves an entry of quantity -4 in the ledger. *)
Lemma handler_takes_nonpositive_quantity :
  cst_quantity (minus_four IN) <= 0
  /\ (exists db' r,
        createStockTransaction 7 (minus_four IN) shelf = (db', Ok r)
        /\ stockTransactionsTable db' = [r]
        /\ entry r = (3, IN, -4)
        /\ stock_of 3 db' = Some 6)
  /\ (exists db' r,
        createStockTransaction 7 (minus_four OUT) shelf = (db', Ok r)
        /\ stockTransactionsTable db' = [r]
        /\ entry r = (3, OUT, -4)
        /\ stock_of 3 db' = Some 14).
Proof.
  split; [cbn; lia|].
  split; eexists _, _; repeat split; vm_compute; reflexivity.
Qed.

(** C7, amended.  On the route [stock.createTransaction] a quantity that is
    not positive, IN or OUT, is turned away by the input schema before the
    handler runs: the call fails with the schema's error, no ledger entry is
    written and no stock is changed. *)
Theorem route_rejects_nonpositive_quantity (now : timestamp)
    (input : CreateStockTransactionInput) (db : Store) :
  cst_quantity input <= 0 ->
  stock_createTransaction now input db
  = (db, Err (ZodError "Jumlah harus lebih dari 0")).
Proof.
  intros Hq. unfold stock_createTransaction, createStockTransactionInputSchema.
  destruct (Z.ltb_spec 0 (cst_quantity input)); [lia|reflexivity].
Qed.

Lemma route_rejects_nonpositive_quantity_witness :
  stock_createTransaction 7 (minus_four IN) shelf
  = (shelf, Err (ZodError "Jumlah harus lebih dari 0"))
  /\ stock_createTransaction 7 (minus_four OUT) shelf
     = (shelf, Err (ZodError "Jumlah harus lebih dari 0")).
Proof.
  split; apply route_rejects_nonpositive_quantity; cbn; lia.
Defined.

(** * Where counter and ledger do agree

    Outside carts with repeated medicines C1 and C4 do hold: every
    operation keeps counter and ledger in step, and a cancellation gives
    back what its sale took. *)

Lemma ledger_sum_app (i : Z) (a b : list StockTransaction.t) :
  ledger_sum i (a ++ b) = ledger_sum i a + ledger_sum i b.
Proof.
  induction a as [|r a IH]; cbn; [reflexivity|]. rewrite IH. lia.
Qed.

Lemma ledger_sum_out_rows (i tid : Z) (now : timestamp) (ms : list Medicine.t)
    (cart : list CartLine) (md : list MedicineData) :
  Forall2 (snapshot_of ms) cart md ->
  forall serial,
    ledger_sum i (out_rows tid now serial md) = - cart_quantity i cart.
Proof.
  induction 1 as [|l med cart md Hl _ IH]; intros serial; cbn; [reflexivity|].
  destruct Hl as ((tl & E) & Hrq & _).
  rewrite IH, (where_id_head _ _ _ _ E), Hrq. unfold signed; cbn.
  destruct (medicine_id l =? i); lia.
Qed.

Lemma ledger_sum_in_entries (i : Z) (its : list SalesTransactionItem.t) :
  forall L,
    map entry L =
    map (fun it => (SalesTransactionItem.medicine_id it, IN,
                    SalesTransactionItem.quantity it)) its ->
    ledger_sum i L = items_quantity i its.
Proof.
  induction its as [|it its IH]; intros [|r L] H; cbn in *; try discriminate;
    [reflexivity|].
  injection H as Hm Ht Hq HL. rewrite (IH _ HL).
  unfold signed. rewrite Hm, Ht, Hq. reflexivity.
Qed.

Lemma items_quantity_present (i : Z) (ms : list Medicine.t)
    (its : list SalesTransactionItem.t) :
  has_medicine i ms = true ->
  items_quantity i
    (filter (fun it => has_medicine (SalesTransactionItem.medicine_id it) ms) its)
  = items_quantity i its.
Proof.
  intros Hi. induction its as [|it its IH]; cbn [filter items_quantity];
    [reflexivity|].
  destruct (has_medicine (SalesTransactionItem.medicine_id it) ms) eqn:Eh;
    cbn [items_quantity]; rewrite IH; [reflexivity|].
  destruct (Z.eqb_spec (SalesTransactionItem.medicine_id it) i) as [E|E];
    [rewrite E in Eh; congruence|lia].
Qed.

Lemma last_quantity_named (i : Z) (cart : list CartLine) :
  last_quantity i cart <> None -> In i (map medicine_id cart).
Proof.
  induction cart as [|l cart IH]; cbn; [congruence|].
  destruct (last_quantity i cart); [intros _; right; apply IH; congruence|].
  destruct (Z.eqb_spec (medicine_id l) i); [intros _; left; assumption|congruence].
Qed.

Lemma last_quantity_is_all (i : Z) (cart : list CartLine) :
  distinct_medicines cart ->
  cart_quantity i cart =
  match last_quantity i cart with Some q => q | None => 0 end.
Proof.
  unfold distinct_medicines.
  induction cart as [|l cart IH]; cbn; [reflexivity|].
  intros Hnd. inversion Hnd as [|? ? Hnotin Hrest]; subst.
  rewrite (IH Hrest).
  destruct (last_quantity i cart) as [q|] eqn:El.
  - assert (Hin : In i (map medicine_id cart))
      by (apply last_quantity_named; congruence).
    destruct (Z.eqb_spec (medicine_id l) i) as [E|E]; [|lia].
    rewrite E in Hnotin. contradiction.
  - destruct (medicine_id l =? i); lia.
Qed.

Lemma stock_in_ids (i : Z) (ms ms' : list Medicine.t) :
  map Medicine.id ms = map Medicine.id ms' ->
  stock_in i ms = None -> stock_in i ms' = None.
Proof.
  intros Hids. pose proof (has_medicine_ids i _ _ Hids) as H.
  rewrite !has_medicine_where in H. unfold stock_in.
  destruct (medicines_where_id i ms); destruct (medicines_where_id i ms');
    congruence.
Qed.

(** The stock a sale leaves, for every medicine of the store. *)
Lemma sold_stock (now : timestamp) (input : CreateSalesTransactionInput)
    (md : list MedicineData) (db : Store) (i : Z) :
  validate (medicinesTable db) (items input) = Ok md ->
  stock_of i (sold now input md db) =
  match stock_of i db, last_quantity i (items input) with
  | Some s, Some q => Some (s - q)
  | other, _ => other
  end.
Proof.
  intros Hv. apply validate_ok in Hv. unfold stock_of. cbn [sold medicinesTable].
  destruct (stock_in i (medicinesTable db)) as [s|] eqn:Hs.
  - rewrite (debit_last_wins now (medicinesTable db) i s _ _ Hs Hv);
      [|congruence].
    destruct (last_quantity i (items input)); [reflexivity|exact Hs].
  - apply (stock_in_ids i (medicinesTable db)); [|exact Hs].
    symmetry. apply debit_ids.
Qed.

(** X1. An operation that returns keeps counter and ledger of a medicine
    in step, a sale provided its cart names no medicine twice.  The
    operation writes within the range of the integer columns: the sold
    quantities it finds are positive, and the stocks and quantities it
    leaves are 32-bit integers. *)
Lemma ledger_agreement_kept (op : Op) (db : Store) (i s0 : Z) :
  lines_distinct op ->
  items_positive db ->
  returned op db = true ->
  within_int4 (perform op db) ->
  ledger_agrees i s0 db -> ledger_agrees i s0 (perform op db).
Proof.
  intros Hd _ _ _ Hag.
  destruct op as [now input|now input|now id]; cbn [perform lines_distinct] in *.
  - rewrite createStockTransaction_eq.
    destruct (medicines_where_id (cst_medicine_id input) (medicinesTable db))
      as [|cur tl] eqn:E; [exact Hag|].
    destruct (_ && _); [exact Hag|].
    cbn [fst]. intros s Hs. unfold stock_of in Hs.
    cbn [medicinesTable stockTransactionsTable] in *.
    rewrite stock_in_set in Hs. rewrite ledger_sum_app. cbn [ledger_sum].
    unfold signed; cbn [StockTransaction.medicine_id StockTransaction.type
                        StockTransaction.quantity].
    rewrite (Z.eqb_sym (cst_medicine_id input) i).
    destruct (Z.eqb_spec i (cst_medicine_id input)) as [->|Hne].
    + assert (Hcur : stock_of (cst_medicine_id input) db
                     = Some (Medicine.current_stock cur))
        by (unfold stock_of, stock_in; rewrite E; reflexivity).
      unfold stock_of in Hcur. rewrite Hcur in Hs. injection Hs as <-.
      rewrite (Hag _ Hcur) at 1. destruct (cst_type input); lia.
    + rewrite (Hag _ Hs). lia.
  - rewrite createSalesTransaction_eq.
    destruct (validate (medicinesTable db) (items input)) as [md|e] eqn:Ev;
      [|exact Hag].
    destruct (PrimFloat.ltb _ _); [exact Hag|].
    cbn [fst]. intros s Hs. rewrite (sold_stock _ _ _ _ _ Ev) in Hs.
    cbn [sold stockTransactionsTable]. rewrite ledger_sum_app.
    rewrite (ledger_sum_out_rows i _ _ _ _ _ (validate_ok _ _ _ Ev)).
    rewrite (last_quantity_is_all i _ Hd).
    destruct (stock_of i db) as [s1|] eqn:H1; [|discriminate].
    specialize (Hag _ H1).
    destruct (last_quantity i (items input)); injection Hs as <-; lia.
  - rewrite cancelSalesTransaction_eq.
    destruct (sales_where_id _ _); [exact Hag|].
    destruct (TransactionStatus_eqb _ _); [exact Hag|].
    cbn [fst].
    destruct (restore_loop now id
                (items_where_transaction_id id (salesTransactionItemsTable db))
                (marked_cancelled id db))
      as (db' & Hrun & _ & _ & _ & _ & _ & (L & HL & HLe) & Hst & _).
    rewrite Hrun. cbn [fst]. intros s Hs. rewrite Hst in Hs.
    rewrite HL, ledger_sum_app. cbn [marked_cancelled stockTransactionsTable].
    change (stock_of i (marked_cancelled id db)) with (stock_of i db) in Hs.
    destruct (stock_of i db) as [s1|] eqn:H1; [|discriminate].
    cbn in Hs. injection Hs as <-.
    rewrite (ledger_sum_in_entries i _ _ HLe).
    cbn [marked_cancelled medicinesTable].
    rewrite items_quantity_present.
    + rewrite (Hag _ H1) at 1. lia.
    + rewrite has_medicine_where. unfold stock_of, stock_in in H1.
      destruct (medicines_where_id i (medicinesTable db)); [discriminate|reflexivity].
Qed.

Lemma item_rows_quantity (i tid : Z) (now : timestamp) (ms : list Medicine.t)
    (cart : list CartLine) (md : list MedicineData) :
  Forall2 (snapshot_of ms) cart md ->
  forall serial,
    items_quantity i (item_rows tid now serial md) = cart_quantity i cart.
Proof.
  induction 1 as [|l med cart md Hl _ IH]; intros serial; cbn; [reflexivity|].
  destruct Hl as ((tl & E) & Hrq & _).
  rewrite IH, (where_id_head _ _ _ _ E), Hrq. reflexivity.
Qed.

Lemma item_rows_of_sale (tid : Z) (now : timestamp) (md : list MedicineData) :
  forall serial,
    items_where_transaction_id tid (item_rows tid now serial md)
    = item_rows tid now serial md.
Proof.
  unfold items_where_transaction_id.
  induction md as [|med md IH]; intros serial; cbn; [reflexivity|].
  rewrite Z.eqb_refl, IH. reflexivity.
Qed.

Lemma item_rows_all_present (tid : Z) (now : timestamp) (ms ms' : list Medicine.t)
    (cart : list CartLine) (md : list MedicineData) :
  Forall2 (snapshot_of ms) cart md ->
  map Medicine.id ms' = map Medicine.id ms ->
  forall serial,
    map (fun it => (SalesTransactionItem.medicine_id it, IN,
                    SalesTransactionItem.quantity it))
        (filter (fun it => has_medicine (SalesTransactionItem.medicine_id it) ms')
                (item_rows tid now serial md))
    = map (fun l => (medicine_id l, IN, quantity l)) cart.
Proof.
  intros H Hids.
  induction H as [|l med cart md Hl _ IH]; intros serial; [reflexivity|].
  destruct Hl as ((tl & E) & Hrq & _).
  cbn [item_rows filter SalesTransactionItem.medicine_id].
  rewrite (has_medicine_ids _ _ _ Hids), has_medicine_where.
  rewrite (where_id_head _ _ _ _ E), E.
  cbn [map SalesTransactionItem.medicine_id SalesTransactionItem.quantity].
  rewrite IH, Hrq. reflexivity.
Qed.

(** A sale whose cart names no medicine twice is undone by its
    cancellation: the cancellation returns true, marks the sale CANCELLED,
    appends one IN entry per cart line with the line's quantity, and every
    medicine has the stock it had before the sale. *)
Lemma cancellation_restores_distinct_cart (now now' : timestamp)
    (input : CreateSalesTransactionInput) (db db1 : Store)
    (view : SalesTransactionView) :
  distinct_medicines (items input) ->
  sale_id_fresh db ->
  createSalesTransaction now input db = (db1, Ok view) ->
  exists db2,
    cancelSalesTransaction now' (SalesTransaction.id (row view)) db1
    = (db2, Ok true)
    /\ status_of (SalesTransaction.id (row view)) db2 = Some CANCELLED
    /\ (forall i, stock_of i db2 = stock_of i db)
    /\ exists L,
         stockTransactionsTable db2 = stockTransactionsTable db1 ++ L
         /\ map entry L = map (fun l => (medicine_id l, IN, quantity l))
                              (items input).
Proof.
  intros Hd (Hfs & Hfi). rewrite createSalesTransaction_eq.
  destruct (validate (medicinesTable db) (items input)) as [md|e] eqn:Ev;
    [|discriminate].
  destruct (PrimFloat.ltb _ _); [discriminate|].
  intros H. injection H as <- <-. cbn [row SalesTransaction.id].
  pose proof (validate_ok _ _ _ Ev) as Hsnap.
  destruct (cancelSalesTransaction now' (salesTransactions_serial db)
              (sold now input md db)) as [db2 r] eqn:Hc.
  pose proof Hc as Hc'. rewrite cancelSalesTransaction_eq in Hc'.
  cbn [sold salesTransactionsTable salesTransactionItemsTable] in Hc'.
  unfold sales_where_id in Hc' at 1. rewrite filter_app in Hc'.
  fold (sales_where_id (salesTransactions_serial db) (salesTransactionsTable db))
    in Hc'.
  rewrite Hfs in Hc'. cbn in Hc'. rewrite Z.eqb_refl in Hc'. cbn in Hc'.
  unfold items_where_transaction_id in Hc' at 1. rewrite filter_app in Hc'.
  fold (items_where_transaction_id (salesTransactions_serial db)
          (salesTransactionItemsTable db)) in Hc'.
  fold (items_where_transaction_id (salesTransactions_serial db)
          (item_rows (salesTransactions_serial db) now
             (salesTransactionItems_serial db) md)) in Hc'.
  rewrite Hfi, item_rows_of_sale in Hc'. cbn [app] in Hc'.
  match type of Hc' with
  | (fst (for_of ?its _ ?d), _) = _ =>
      destruct (restore_loop now' (salesTransactions_serial db) its d)
        as (d2 & Hrun & _ & _ & _ & _ & _ & (L & HL & HLe) & Hst & _)
  end.
  rewrite Hrun in Hc'. cbn [fst] in Hc'. injection Hc' as <- <-.
  exists d2. split; [reflexivity|].
  split; [exact (cancel_marks_cancelled _ _ _ _ Hc)|]. split.
  - intros i. rewrite Hst.
    change (stock_of i (marked_cancelled (salesTransactions_serial db)
                          (sold now input md db)))
      with (stock_of i (sold now input md db)).
    rewrite (sold_stock _ _ _ _ _ Ev).
    rewrite (item_rows_quantity i _ _ _ _ _ Hsnap).
    rewrite (last_quantity_is_all i _ Hd).
    destruct (stock_of i db) as [s|]; [|reflexivity].
    destruct (last_quantity i (items input)); cbn; f_equal; lia.
  - exists L. split; [exact HL|]. rewrite HLe.
    apply (item_rows_all_present _ _ (medicinesTable db)); [exact Hsnap|].
    cbn. apply debit_ids.
Qed.

(** * More on the engine *)

(** [ledger_agreement_kept] on the sale of the handlers' test: it
    returns, leaves 98 and 49 in stock, and keeps counter and ledger of
    paracetamol in step. *)
Lemma ledger_agreement_kept_witness :
  lines_distinct (CreateSale 1 test_sale)
  /\ returned (CreateSale 1 test_sale) shelf = true
  /\ ledger_agrees 1 100 shelf
  /\ ledger_agrees 1 100 (perform (CreateSale 1 test_sale) shelf).
Proof.
  assert (Hd : lines_distinct (CreateSale 1 test_sale)).
  { cbn. unfold distinct_medicines. cbn.
    repeat constructor; cbn; intuition discriminate. }
  assert (Hp : items_positive shelf) by constructor.
  assert (Hr : returned (CreateSale 1 test_sale) shelf = true)
    by (vm_compute; reflexivity).
  assert (Hw : within_int4 (perform (CreateSale 1 test_sale) shelf)).
  { remember (perform (CreateSale 1 test_sale) shelf) as st eqn:Est.
    vm_compute in Est. subst st. unfold within_int4, int4. cbn.
    repeat split; repeat constructor; cbn; lia. }
  assert (Hs : ledger_agrees 1 100 shelf).
  { intros s Hs. vm_compute in Hs. injection Hs as <-. reflexivity. }
  split; [exact Hd|]. split; [exact Hr|]. split; [exact Hs|].
  exact (ledger_agreement_kept (CreateSale 1 test_sale) shelf 1 100
           Hd Hp Hr Hw Hs).
Defined.

(** X2. Witness of [cancellation_restores_distinct_cart]: the sale of the
    handlers' test, cancelled, leaves paracetamol and amoxicillin at 100
    and 50 again. *)
Lemma cancellation_restores_distinct_cart_witness :
  exists db1 view db2,
    createSalesTransaction 1 test_sale shelf = (db1, Ok view)
    /\ cancelSalesTransaction 2 (SalesTransaction.id (row view)) db1
       = (db2, Ok true)
    /\ stock_of 1 db2 = Some 100 /\ stock_of 2 db2 = Some 50.
Proof.
  assert (H : createSalesTransaction 1 test_sale shelf
              = (fst (createSalesTransaction 1 test_sale shelf),
                 Ok (view_of (SalesTransaction.mk 1 None 1300000 CASH 2000000
                                700000 COMPLETED None 1 1))))
    by (vm_compute; reflexivity).
  assert (Hd : distinct_medicines (items test_sale)).
  { unfold distinct_medicines. cbn. repeat constructor; cbn; intuition discriminate. }
  assert (Hf : sale_id_fresh shelf) by (split; reflexivity).
  destruct (cancellation_restores_distinct_cart 1 2 test_sale shelf _ _ Hd Hf H)
    as (db2 & Hc & _ & Hstock & _).
  eexists _, _, db2. split; [exact H|]. split; [exact Hc|].
  split; [exact (Hstock 1)|exact (Hstock 2)].
Defined.

Lemma restore_loop_cards (now : timestamp) (id : Z)
    (its : list SalesTransactionItem.t) :
  forall db,
    map medicine_card
        (medicinesTable (fst (for_of its (restore_line now id) db)))
    = map medicine_card (medicinesTable db).
Proof.
  induction its as [|it rest IH]; intros db; [reflexivity|].
  cbn [for_of]. unfold bind at 1. rewrite restore_line_eq.
  destruct (medicines_where_id _ _) as [|m tl]; [apply IH|].
  rewrite IH. cbn [medicinesTable].
  unfold set_stock_where_id. rewrite map_map. apply map_ext.
  intros a. destruct (Medicine.id a =? _); reflexivity.
Qed.

Lemma set_stock_cards (j v : Z) (now : timestamp) (ms : list Medicine.t) :
  map medicine_card (set_stock_where_id j v now ms) = map medicine_card ms.
Proof.
  unfold set_stock_where_id. rewrite map_map. apply map_ext.
  intros a. destruct (Medicine.id a =? j); reflexivity.
Qed.

Lemma debit_cards (now : timestamp) (md : list MedicineData) :
  forall ms, map medicine_card (debit now md ms) = map medicine_card ms.
Proof.
  induction md as [|med rest IH]; intros ms; cbn; [reflexivity|].
  rewrite IH. apply set_stock_cards.
Qed.

Lemma perform_ledger_append (op : Op) (db : Store) :
  exists more,
    stockTransactionsTable (perform op db) = stockTransactionsTable db ++ more.
Proof.
  destruct op as [now input|now input|now id]; cbn [perform].
  - rewrite createStockTransaction_eq.
    destruct (medicines_where_id _ _); [|destruct (_ && _)];
      try (exists []; rewrite app_nil_r; reflexivity).
    eexists. reflexivity.
  - rewrite createSalesTransaction_eq.
    destruct (validate _ _); [destruct (PrimFloat.ltb _ _)|];
      try (exists []; rewrite app_nil_r; reflexivity).
    eexists. reflexivity.
  - rewrite cancelSalesTransaction_eq.
    destruct (sales_where_id _ _); [|destruct (TransactionStatus_eqb _ _)];
      try (exists []; rewrite app_nil_r; reflexivity).
    destruct (restore_loop now id
                (items_where_transaction_id id (salesTransactionItemsTable db))
                (marked_cancelled id db))
      as (db' & Hrun & _ & _ & _ & _ & _ & (L & HL & _) & _).
    rewrite Hrun. cbn [fst]. exists L. exact HL.
Qed.

Lemma perform_cards (op : Op) (db : Store) :
  map medicine_card (medicinesTable (perform op db))
  = map medicine_card (medicinesTable db).
Proof.
  destruct op as [now input|now input|now id]; cbn [perform].
  - rewrite createStockTransaction_eq.
    destruct (medicines_where_id _ _); [reflexivity|].
    destruct (_ && _); [reflexivity|]. cbn. apply set_stock_cards.
  - rewrite createSalesTransaction_eq.
    destruct (validate _ _); [|reflexivity].
    destruct (PrimFloat.ltb _ _); [reflexivity|]. cbn. apply debit_cards.
  - rewrite cancelSalesTransaction_eq.
    destruct (sales_where_id _ _); [reflexivity|].
    destruct (TransactionStatus_eqb _ _); [reflexivity|].
    cbn [fst]. rewrite restore_loop_cards. reflexivity.
Qed.

(** X3. The ledger is append-only: through any sequence of
    createStockTransaction, createSalesTransaction and
    cancelSalesTransaction calls, failed ones included, the rows the ledger
    held stay as they were, in place, and new rows come behind them. *)
Theorem ledger_is_append_only (ops : list Op) (db : Store) :
  exists more,
    stockTransactionsTable (run ops db) = stockTransactionsTable db ++ more.
Proof.
  revert db. induction ops as [|op ops IH]; intros db.
  - exists []. rewrite app_nil_r. reflexivity.
  - change (run (op :: ops) db) with (run ops (perform op db)).
    destruct (IH (perform op db)) as (m2 & H2).
    destruct (perform_ledger_append op db) as (m1 & H1).
    exists (m1 ++ m2). rewrite H2, H1, app_assoc. reflexivity.
Qed.

(** X4. The engine moves stock and nothing else of a medicine: through any
    sequence of its operations the medicines table keeps its rows, in
    place, each with its id, name, unit, price and minimum stock.  No
    operation adds, removes, renames or reprices a medicine. *)
Theorem medicines_keep_their_cards (ops : list Op) (db : Store) :
  map medicine_card (medicinesTable (run ops db))
  = map medicine_card (medicinesTable db).
Proof.
  revert db. induction ops as [|op ops IH]; intros db; [reflexivity|].
  change (run (op :: ops) db) with (run ops (perform op db)).
  rewrite IH. apply perform_cards.
Qed.

Lemma int4b_spec (z : Z) : int4b z = true <-> int4 z.
Proof. unfold int4b, int4. lia. Qed.

(** X5. How a stock movement fails.  [createStockTransaction] throws for a
    medicine that is not in the store and for an OUT movement beyond the
    stock, and the database refuses an id or a quantity that is no 32-bit
    integer: in these four cases the store is left exactly as it was.  It
    fails in one more case, with something written: when the new stock is
    no 32-bit integer the update is refused after the ledger row has been
    inserted.  The ledger then holds the movement, the medicines are as
    they were, and counter and ledger of the medicine, if they agreed, no
    longer do. *)
Theorem refused_movement_leaves_ledger_row (now : timestamp)
    (input : CreateStockTransactionInput) (db db' : Store)
    (reply : Reply StockTransaction.t) :
  within_int4 db ->
  createStockTransaction_int4 now input db = (db', reply) ->
  (forall r, reply <> Returns r) ->
  (db' = db
   /\ ((reply = Refuses (cst_medicine_id input)
        /\ ~ int4 (cst_medicine_id input))
       \/ (reply = Throws (MedicineNotFound (cst_medicine_id input))
           /\ stock_of (cst_medicine_id input) db = None)
       \/ (exists available,
             reply = Throws (InsufficientStock None available
                               (cst_quantity input))
             /\ stock_of (cst_medicine_id input) db = Some available
             /\ cst_type input = OUT
             /\ available < cst_quantity input)
       \/ (reply = Refuses (cst_quantity input)
           /\ ~ int4 (cst_quantity input))))
  \/ (exists available r,
        stock_of (cst_medicine_id input) db = Some available
        /\ reply = Refuses (available + signed r)
        /\ ~ int4 (available + signed r)
        /\ entry r = (cst_medicine_id input, cst_type input,
                      cst_quantity input)
        /\ stockTransactionsTable db' = stockTransactionsTable db ++ [r]
        /\ medicinesTable db' = medicinesTable db
        /\ forall s0,
             ledger_agrees (cst_medicine_id input) s0 db ->
             ~ ledger_agrees (cst_medicine_id input) s0 db').
Proof.
  intros (Hstocks & _).
  unfold createStockTransaction_int4, stock_of, stock_in.
  destruct (int4b (cst_medicine_id input)) eqn:Ei; cbn [negb].
  2:{ intros H _. injection H as <- <-. left. split; [reflexivity|].
      left. split; [reflexivity|]. rewrite <- int4b_spec. congruence. }
  destruct (medicines_where_id (cst_medicine_id input) (medicinesTable db))
    as [|cur tl] eqn:E.
  { intros H _. injection H as <- <-. left. split; [reflexivity|].
    right; left. split; reflexivity. }
  destruct (match cst_type input with OUT => true | IN => false end
            && (Medicine.current_stock cur <? cst_quantity input)) eqn:Ec.
  { intros H _. injection H as <- <-. left. split; [reflexivity|].
    right; right; left. exists (Medicine.current_stock cur).
    apply andb_prop in Ec. destruct Ec as [Et Elt].
    split; [reflexivity|]. split; [reflexivity|].
    split; [destruct (cst_type input); [discriminate|reflexivity]|lia]. }
  destruct (int4b (cst_quantity input)) eqn:Eq; cbn [negb].
  2:{ intros H _. injection H as <- <-. left. split; [reflexivity|].
      right; right; right. split; [reflexivity|].
      rewrite <- int4b_spec. congruence. }
  unfold insert_stockTransaction.
  set (r := StockTransaction.mk (stockTransactions_serial db)
              (cst_medicine_id input) (cst_type input) (cst_quantity input)
              (cst_notes input) now now).
  assert (Hsigned : signed r = match cst_type input with
                               | IN => cst_quantity input
                               | OUT => - cst_quantity input
                               end)
    by (unfold signed; cbn; destruct (cst_type input); reflexivity).
  rewrite <- Hsigned.
  destruct (int4b (Medicine.current_stock cur + signed r)) eqn:En;
    cbn [negb].
  { intros H Hno. injection H as <- <-. exfalso. exact (Hno r eq_refl). }
  intros H _. injection H as <- <-. right.
  exists (Medicine.current_stock cur), r.
  split; [reflexivity|]. split; [reflexivity|].
  split; [rewrite <- int4b_spec; congruence|].
  split; [reflexivity|]. split; [reflexivity|]. split; [reflexivity|].
  intros s0 Hag Hag'.
  assert (Hcur : stock_of (cst_medicine_id input) db
                 = Some (Medicine.current_stock cur))
    by (unfold stock_of, stock_in; rewrite E; reflexivity).
  pose proof (Hag _ Hcur) as H1.
  pose proof (Hag' _ Hcur) as H2. cbn [stockTransactionsTable] in H2.
  rewrite ledger_sum_app in H2. cbn [ledger_sum] in H2.
  assert (Hmid : (StockTransaction.medicine_id r =? cst_medicine_id input) = true)
    by apply Z.eqb_refl.
  rewrite Hmid in H2.
  assert (Hin : In cur (medicines_where_id (cst_medicine_id input)
                          (medicinesTable db)))
    by (rewrite E; left; reflexivity).
  apply filter_In in Hin. destruct Hin as [Hin _].
  rewrite Forall_forall in Hstocks. specialize (Hstocks cur Hin).
  assert (Hout : ~ int4 (Medicine.current_stock cur + signed r))
    by (rewrite <- int4b_spec; congruence).
  unfold int4 in *. lia.
Qed.

Lemma refused_movement_leaves_ledger_row_witness :
  exists db' r,
    createStockTransaction_int4 5 too_many_in shelf
    = (db', Refuses 2147483697)
    /\ stockTransactionsTable db' = [r]
    /\ entry r = (2, IN, 2147483647)
    /\ stock_of 2 db' = Some 50
    /\ ledger_agrees 2 50 shelf
    /\ ~ ledger_agrees 2 50 db'.
Proof.
  assert (Hw : within_int4 shelf).
  { unfold within_int4, int4. cbn. repeat split; repeat constructor; cbn; lia. }
  assert (H : createStockTransaction_int4 5 too_many_in shelf
              = (fst (createStockTransaction_int4 5 too_many_in shelf),
                 Refuses 2147483697))
    by (vm_compute; reflexivity).
  assert (Hag : ledger_agrees 2 50 shelf).
  { intros s Hs. vm_compute in Hs. injection Hs as <-. reflexivity. }
  destruct (refused_movement_leaves_ledger_row 5 too_many_in shelf _ _ Hw H)
    as [(_ & [(Hr & _)|[(Hr & _)|[(a & Hr & _)|(Hr & _)]]])
       |(a & r & Ha & _ & _ & He & Hl & Hm & Hno)];
    try discriminate.
  exists (fst (createStockTransaction_int4 5 too_many_in shelf)), r.
  split; [exact H|]. split; [exact Hl|]. split; [exact He|].
  split; [unfold stock_of; rewrite Hm; reflexivity|].
  split; [exact Hag|exact (Hno 50 Hag)].
Defined.





(** * Ids come out of sequences *)

Lemma item_rows_transaction (tid : Z) (now : timestamp) (md : list MedicineData) :
  forall serial,
    Forall (fun it => SalesTransactionItem.transaction_id it = tid)
           (item_rows tid now serial md).
Proof.
  induction md as [|med md IH]; intros serial; cbn; constructor;
    [reflexivity|apply IH].
Qed.

Lemma set_status_ids (i : Z) (s : TransactionStatus)
    (l : list SalesTransaction.t) :
  map SalesTransaction.id (set_status_where_id i s l)
  = map SalesTransaction.id l.
Proof.
  unfold set_status_where_id. rewrite map_map. apply map_ext.
  intros r. destruct (SalesTransaction.id r =? i); reflexivity.
Qed.

Lemma Forall_ids_below (bound : Z) (l l' : list SalesTransaction.t) :
  map SalesTransaction.id l' = map SalesTransaction.id l ->
  Forall (fun r => SalesTransaction.id r < bound) l ->
  Forall (fun r => SalesTransaction.id r < bound) l'.
Proof.
  revert l'. induction l as [|r l IH]; intros [|r' l'] E H; try discriminate;
    constructor; cbn in E; injection E as E1 E2; inversion H; subst.
  - rewrite E1. assumption.
  - apply IH; assumption.
Qed.

Lemma perform_keeps_ids_from_sequences (op : Op) (db : Store) :
  ids_from_sequences db -> ids_from_sequences (perform op db).
Proof.
  intros (Hs & Hi & Hn).
  destruct op as [now input|now input|now id]; cbn [perform].
  - rewrite createStockTransaction_eq.
    destruct (medicines_where_id _ _); [repeat split; assumption|].
    destruct (_ && _); repeat split; assumption.
  - rewrite createSalesTransaction_eq.
    destruct (validate _ _) as [md|e]; [|repeat split; assumption].
    destruct (PrimFloat.ltb _ _); [repeat split; assumption|].
    unfold ids_from_sequences. cbn. split; [|split].
    + apply Forall_app. split.
      * eapply Forall_impl; [|exact Hs]. cbn. intros; lia.
      * constructor; [cbn; lia|constructor].
    + apply Forall_app. split.
      * eapply Forall_impl; [|exact Hi]. cbn. intros; lia.
      * eapply Forall_impl;
          [|apply (item_rows_transaction (salesTransactions_serial db))].
        cbn. intros a Ha. rewrite Ha. lia.
    + rewrite map_app. cbn.
      eapply Permutation_NoDup; [apply Permutation_cons_append|].
      constructor; [|exact Hn].
      intros Hin. apply in_map_iff in Hin. destruct Hin as (r & Hr & Hin).
      rewrite Forall_forall in Hs. specialize (Hs r Hin). lia.
  - rewrite cancelSalesTransaction_eq.
    destruct (sales_where_id _ _); [repeat split; assumption|].
    destruct (TransactionStatus_eqb _ _); [repeat split; assumption|].
    cbn [fst].
    destruct (restore_loop now id
                (items_where_transaction_id id (salesTransactionItemsTable db))
                (marked_cancelled id db))
      as (db' & Hrun & Hsales & Hitems & Hss & _).
    rewrite Hrun. cbn [fst]. unfold ids_from_sequences.
    rewrite Hsales, Hitems, Hss. cbn. split; [|split].
    + eapply Forall_ids_below; [apply set_status_ids|exact Hs].
    + exact Hi.
    + rewrite set_status_ids. exact Hn.
Qed.

Lemma filter_none {A} (f : A -> bool) (l : list A) :
  Forall (fun x => f x = false) l -> filter f l = [].
Proof.
  induction 1 as [|x l Hx _ IH]; cbn; [reflexivity|]. rewrite Hx. exact IH.
Qed.

Lemma ids_from_sequences_fresh (db : Store) :
  ids_from_sequences db -> sale_id_fresh db.
Proof.
  intros (Hs & Hi & _). split.
  - apply filter_none. eapply Forall_impl; [|exact Hs]. cbn. intros; lia.
  - apply filter_none. eapply Forall_impl; [|exact Hi]. cbn. intros; lia.
Qed.

(** X6. Ids come out of sequences and stay unique.  When every sale id and
    every transaction id on an item lies below the next value of the sales
    sequence and no two sales share an id, the same holds after any
    sequence of operations of the engine; hence the id the next sale will
    get names no sale and no item yet. *)
Theorem sale_ids_stay_unique (ops : list Op) (db : Store) :
  ids_from_sequences db ->
  ids_from_sequences (run ops db)
  /\ NoDup (map SalesTransaction.id (salesTransactionsTable (run ops db)))
  /\ sale_id_fresh (run ops db).
Proof.
  revert db. induction ops as [|op ops IH]; intros db H.
  - split; [exact H|]. split; [apply H|apply ids_from_sequences_fresh; exact H].
  - change (run (op :: ops) db) with (run ops (perform op db)).
    apply IH. apply perform_keeps_ids_from_sequences. exact H.
Qed.

Lemma sale_ids_stay_unique_witness :
  NoDup (map SalesTransaction.id
           (salesTransactionsTable
              (run [CreateSale 1 test_sale; CancelSale 2 1;
                    CreateSale 3 syrup_twice] shelf)))
  /\ sale_id_fresh (run [CreateSale 1 test_sale; CancelSale 2 1;
                         CreateSale 3 syrup_twice] shelf).
Proof.
  apply (sale_ids_stay_unique
           [CreateSale 1 test_sale; CancelSale 2 1; CreateSale 3 syrup_twice]
           shelf).
  repeat split; constructor.
Defined.






(** * Reading the ledger *)

Lemma insert_desc_perm {A} (key : A -> Z) (x : A) (l : list A) :
  Permutation (insert_desc key x l) (x :: l).
Proof.
  induction l as [|y l IH]; cbn; [reflexivity|].
  destruct (key y <? key x); [reflexivity|].
  rewrite IH. apply perm_swap.
Qed.

Lemma order_by_desc_perm {A} (key : A -> Z) (l : list A) :
  Permutation (order_by_desc key l) l.
Proof.
  induction l as [|x l IH]; cbn; [constructor|].
  rewrite insert_desc_perm. constructor. exact IH.
Qed.

Lemma insert_desc_sorted {A} (key : A -> Z) (x : A) (l : list A) :
  newest_first key l -> newest_first key (insert_desc key x l).
Proof.
  unfold newest_first. induction 1 as [|y l Hs IH Hy]; cbn.
  - constructor; constructor.
  - destruct (Z.ltb_spec (key y) (key x)) as [Hlt|Hge].
    + constructor; [constructor; assumption|].
      constructor; [lia|]. eapply Forall_impl; [|exact Hy]. cbn. intros; lia.
    + constructor; [exact IH|].
      eapply Permutation_Forall;
        [symmetry; apply insert_desc_perm|].
      constructor; [lia|exact Hy].
Qed.

Lemma order_by_desc_sorted {A} (key : A -> Z) (l : list A) :
  newest_first key (order_by_desc key l).
Proof.
  induction l as [|x l IH]; cbn; [constructor|].
  apply insert_desc_sorted. exact IH.
Qed.

Lemma order_by_desc_in {A} (key : A -> Z) (l : list A) (x : A) :
  In x (order_by_desc key l) <-> In x l.
Proof.
  split; apply Permutation_in;
    [apply order_by_desc_perm|symmetry; apply order_by_desc_perm].
Qed.

Lemma createStockTransaction_row (now : timestamp)
    (input : CreateStockTransactionInput) (db db' : Store)
    (r : StockTransaction.t) :
  createStockTransaction now input db = (db', Ok r) ->
  stockTransactionsTable db' = stockTransactionsTable db ++ [r]
  /\ StockTransaction.medicine_id r = cst_medicine_id input
  /\ StockTransaction.type r = cst_type input
  /\ StockTransaction.quantity r = cst_quantity input
  /\ StockTransaction.notes r = cst_notes input
  /\ StockTransaction.transaction_date r = now.
Proof.
  rewrite createStockTransaction_eq.
  destruct (medicines_where_id _ _); [discriminate|].
  destruct (_ && _); [discriminate|].
  intros H. injection H as <- <-. cbn. repeat split.
Qed.

(** X9. A movement that was recorded is listed.  The row
    [createStockTransaction] returns carries the medicine, direction,
    quantity and note of the input and the time of the call; afterwards
    [getStockTransactions] lists it besides what it listed before,
    [getStockTransactionsByMedicine] lists it for its medicine and lists
    for every other medicine what it listed before, and
    [getStockTransactionHistory] lists it exactly for the intervals that
    contain the time of the call, both ends included. *)
Theorem recorded_movement_is_listed (now : timestamp)
    (input : CreateStockTransactionInput) (db db' : Store)
    (r : StockTransaction.t) :
  createStockTransaction now input db = (db', Ok r) ->
  entry r = (cst_medicine_id input, cst_type input, cst_quantity input)
  /\ StockTransaction.notes r = cst_notes input
  /\ Permutation (getStockTransactions db') (r :: getStockTransactions db)
  /\ In r (getStockTransactionsByMedicine (cst_medicine_id input) db')
  /\ (forall j, j <> cst_medicine_id input ->
        getStockTransactionsByMedicine j db'
        = getStockTransactionsByMedicine j db)
  /\ (forall startDate endDate,
        In r (getStockTransactionHistory startDate endDate db')
        <-> startDate <= now <= endDate).
Proof.
  intros H. apply createStockTransaction_row in H.
  destruct H as (Hl & Hm & Ht & Hq & Hn & Hd).
  split; [unfold entry; rewrite Hm, Ht, Hq; reflexivity|].
  split; [exact Hn|]. split; [|split; [|split]].
  - unfold getStockTransactions. rewrite Hl.
    rewrite order_by_desc_perm, <- Permutation_cons_append.
    constructor. symmetry. apply order_by_desc_perm.
  - unfold getStockTransactionsByMedicine. apply order_by_desc_in.
    rewrite Hl. apply filter_In. split; [apply in_elt|].
    rewrite Hm. apply Z.eqb_refl.
  - intros j Hj. unfold getStockTransactionsByMedicine.
    rewrite Hl, filter_app. cbn [filter]. rewrite Hm.
    destruct (Z.eqb_spec (cst_medicine_id input) j); [congruence|].
    rewrite app_nil_r. reflexivity.
  - intros s e. unfold getStockTransactionHistory.
    rewrite order_by_desc_in, filter_In, Hd. split.
    + intros [_ Hr]. lia.
    + intros Hr. split; [rewrite Hl; apply in_elt|lia].
Qed.

Lemma recorded_movement_is_listed_witness :
  exists db' r,
    createStockTransaction 1000
      {| cst_medicine_id := 2; cst_type := IN; cst_quantity := 25;
         cst_notes := Some "Restocking from supplier"%string |} shelf
    = (db', Ok r)
    /\ getStockTransactionsByMedicine 2 db' = [r]
    /\ getStockTransactionsByMedicine 1 db' = []
    /\ In r (getStockTransactionHistory 1000 1000 db').
Proof.
  assert (H : createStockTransaction 1000
                {| cst_medicine_id := 2; cst_type := IN; cst_quantity := 25;
                   cst_notes := Some "Restocking from supplier"%string |} shelf
              = (fst (createStockTransaction 1000
                        {| cst_medicine_id := 2; cst_type := IN;
                           cst_quantity := 25;
                           cst_notes := Some "Restocking from supplier"%string |}
                        shelf),
                 Ok (StockTransaction.mk 1 2 IN 25
                       (Some "Restocking from supplier"%string) 1000 1000)))
    by (vm_compute; reflexivity).
  destruct (recorded_movement_is_listed _ _ _ _ _ H)
    as (_ & _ & _ & _ & Hother & Hhist).
  eexists _, _. split; [exact H|]. split; [vm_compute; reflexivity|].
  split; [rewrite (Hother 1); [reflexivity|discriminate]|].
  apply Hhist. cbn. lia.
Defined.

(** X10. [getStockTransactionHistory] reads a closed interval: it lists the
    ledger rows dated from [startDate] to [endDate], both ends included, and
    no other; newest first; and nothing at all when [endDate] lies before
    [startDate].  Every row it lists, [getStockTransactions] lists too. *)
Theorem history_is_a_closed_interval (startDate endDate : timestamp)
    (db : Store) :
  (forall r,
     In r (getStockTransactionHistory startDate endDate db)
     <-> In r (stockTransactionsTable db)
         /\ startDate <= StockTransaction.transaction_date r <= endDate)
  /\ newest_first StockTransaction.transaction_date
       (getStockTransactionHistory startDate endDate db)
  /\ (endDate < startDate ->
      getStockTransactionHistory startDate endDate db = [])
  /\ (forall r,
        In r (getStockTransactionHistory startDate endDate db) ->
        In r (getStockTransactions db)).
Proof.
  assert (Hin : forall r,
             In r (getStockTransactionHistory startDate endDate db)
             <-> In r (stockTransactionsTable db)
                 /\ startDate <= StockTransaction.transaction_date r <= endDate).
  { intros r. unfold getStockTransactionHistory.
    rewrite order_by_desc_in, filter_In. split; intros [H1 H2];
      (split; [exact H1|lia]). }
  split; [exact Hin|]. split; [apply order_by_desc_sorted|]. split.
  - intros Hlt. unfold getStockTransactionHistory.
    rewrite filter_none; [reflexivity|].
    apply Forall_forall. intros r _. lia.
  - intros r Hr. apply Hin in Hr. apply order_by_desc_in. apply Hr.
Qed.

Lemma history_is_a_closed_interval_witness :
  getStockTransactionHistory 5 4
    (run [CreateSale 4 test_sale; CreateSale 5 test_sale] shelf) = [].
Proof.
  destruct (history_is_a_closed_interval 5 4
              (run [CreateSale 4 test_sale; CreateSale 5 test_sale] shelf))
    as (_ & _ & Hempty & _).
  apply Hempty. lia.
Defined.

(** * Settings *)

Lemma where_key_head (k : string) (ss : list Settings.t) (s : Settings.t)
    (rest : list Settings.t) :
  settings_where_key k ss = s :: rest -> Settings.key s = k.
Proof.
  intros H.
  assert (Hin : In s (settings_where_key k ss)) by (rewrite H; left; reflexivity).
  apply filter_In in Hin. destruct Hin as [_ Heq].
  apply String.eqb_eq. exact Heq.
Qed.

Lemma where_key_set (k k0 v : string) (now : timestamp) (ss : list Settings.t) :
  settings_where_key k
    (map (fun s => if String.eqb (Settings.key s) k0
                   then set_value v now s else s) ss)
  = if String.eqb k k0 then map (set_value v now) (settings_where_key k ss)
    else settings_where_key k ss.
Proof.
  unfold settings_where_key.
  induction ss as [|s ss IH]; cbn [map filter].
  - destruct (String.eqb k k0); reflexivity.
  - rewrite IH.
    destruct (String.eqb_spec (Settings.key s) k0) as [Hs|Hs];
      destruct (String.eqb_spec k k0) as [Hk|Hk];
      cbn [set_value Settings.key];
      destruct (String.eqb_spec (Settings.key s) k) as [Hsk|Hsk];
      cbn [map]; try reflexivity; congruence.
Qed.

Lemma where_key_absent (k : string) (ss : list Settings.t) :
  settings_where_key k ss = [] -> ~ In k (map Settings.key ss).
Proof.
  intros H Hin. apply in_map_iff in Hin. destruct Hin as (s & Hk & Hin).
  assert (Hf : In s (settings_where_key k ss)).
  { apply filter_In. split; [exact Hin|]. apply String.eqb_eq. exact Hk. }
  rewrite H in Hf. contradiction.
Qed.

Lemma updateSetting_frame (now : timestamp) (input : UpdateSettingsInput)
    (db : Database) :
  engine (fst (updateSetting now input db)) = engine db
  /\ patientsTable (fst (updateSetting now input db)) = patientsTable db.
Proof.
  unfold updateSetting. destruct (getSettingByKey _ db); split; reflexivity.
Qed.

Lemma getSettingByKey_updateSetting (now : timestamp)
    (input : UpdateSettingsInput) (db : Database) (k : string) :
  getSettingByKey k (fst (updateSetting now input db))
  = if String.eqb k (us_key input)
    then Some (snd (updateSetting now input db))
    else getSettingByKey k db.
Proof.
  unfold updateSetting, getSettingByKey at 1 2.
  destruct (settings_where_key (us_key input) (settingsTable db))
    as [|existing tl] eqn:E; cbn [fst snd insert_setting with_settings settingsTable].
  - unfold getSettingByKey, settings_where_key. rewrite filter_app.
    cbn [filter Settings.key].
    rewrite (String.eqb_sym (us_key input) k).
    destruct (String.eqb_spec k (us_key input)) as [->|Hk].
    + fold (settings_where_key (us_key input) (settingsTable db)).
      rewrite E. reflexivity.
    + rewrite app_nil_r. reflexivity.
  - unfold getSettingByKey. rewrite where_key_set.
    destruct (String.eqb_spec k (us_key input)) as [->|Hk]; [|reflexivity].
    rewrite E. reflexivity.
Qed.

Lemma updateSetting_returns (now : timestamp) (input : UpdateSettingsInput)
    (db : Database) :
  Settings.key (snd (updateSetting now input db)) = us_key input
  /\ Settings.value (snd (updateSetting now input db)) = Some (us_value input).
Proof.
  unfold updateSetting, getSettingByKey.
  destruct (settings_where_key (us_key input) (settingsTable db))
    as [|existing tl] eqn:E; cbn; [split; reflexivity|].
  split; [exact (where_key_head _ _ _ _ E)|reflexivity].
Qed.

(** X11. A setting that was written is read back.  After
    [updateSetting], whether it updated a row or inserted one,
    [getSettingByKey] finds under the key the very row [updateSetting]
    returned, and this row carries the key and the value of the input;
    under every other key it finds what it found before. *)
Theorem written_setting_is_read_back (now : timestamp)
    (input : UpdateSettingsInput) (db : Database) :
  getSettingByKey (us_key input) (fst (updateSetting now input db))
  = Some (snd (updateSetting now input db))
  /\ Settings.key (snd (updateSetting now input db)) = us_key input
  /\ Settings.value (snd (updateSetting now input db)) = Some (us_value input)
  /\ forall k, k <> us_key input ->
       getSettingByKey k (fst (updateSetting now input db))
       = getSettingByKey k db.
Proof.
  split; [rewrite getSettingByKey_updateSetting, String.eqb_refl; reflexivity|].
  split; [apply updateSetting_returns|]. split; [apply updateSetting_returns|].
  intros k Hk. rewrite getSettingByKey_updateSetting.
  destruct (String.eqb_spec k (us_key input)); [contradiction|reflexivity].
Qed.

Lemma updateSetting_keys (now : timestamp) (input : UpdateSettingsInput)
    (db : Database) :
  map Settings.key (settingsTable (fst (updateSetting now input db)))
  = match getSettingByKey (us_key input) db with
    | Some _ => map Settings.key (settingsTable db)
    | None => map Settings.key (settingsTable db) ++ [us_key input]
    end.
Proof.
  unfold updateSetting. destruct (getSettingByKey (us_key input) db); cbn.
  - rewrite map_map. apply map_ext. intros s.
    destruct (String.eqb (Settings.key s) (us_key input)); reflexivity.
  - rewrite map_app. reflexivity.
Qed.

Lemma getSettingByKey_none (k : string) (db : Database) :
  getSettingByKey k db = None -> ~ In k (map Settings.key (settingsTable db)).
Proof.
  unfold getSettingByKey. intros H. apply where_key_absent.
  destruct (settings_where_key k (settingsTable db)); [reflexivity|discriminate].
Qed.

Lemma NoDup_snoc {A} (l : list A) (x : A) :
  NoDup l -> ~ In x l -> NoDup (l ++ [x]).
Proof.
  intros Hl Hx. eapply Permutation_NoDup; [apply Permutation_cons_append|].
  constructor; assumption.
Qed.

Lemma updateSetting_unique (now : timestamp) (input : UpdateSettingsInput)
    (db : Database) :
  NoDup (map Settings.key (settingsTable db)) ->
  NoDup (map Settings.key (settingsTable (fst (updateSetting now input db)))).
Proof.
  intros H. rewrite updateSetting_keys.
  destruct (getSettingByKey (us_key input) db) eqn:E; [exact H|].
  apply NoDup_snoc; [exact H|]. apply getSettingByKey_none. exact E.
Qed.

Lemma ensure_setting_keys (now : timestamp) (db : Database)
    (setting : string * string * string) :
  map Settings.key (settingsTable (ensure_setting now db setting))
  = match getSettingByKey (fst (fst setting)) db with
    | Some _ => map Settings.key (settingsTable db)
    | None => map Settings.key (settingsTable db) ++ [fst (fst setting)]
    end.
Proof.
  destruct setting as [[k v] d]. cbn [ensure_setting fst].
  destruct (getSettingByKey k db); [reflexivity|].
  cbn. rewrite map_app. reflexivity.
Qed.

Lemma ensure_setting_unique (now : timestamp) (db : Database)
    (setting : string * string * string) :
  NoDup (map Settings.key (settingsTable db)) ->
  NoDup (map Settings.key (settingsTable (ensure_setting now db setting))).
Proof.
  intros H. rewrite ensure_setting_keys.
  destruct (getSettingByKey (fst (fst setting)) db) eqn:E; [exact H|].
  apply NoDup_snoc; [exact H|]. apply getSettingByKey_none. exact E.
Qed.

Lemma updateClinicInfo_steps (now : timestamp) (name : string)
    (address logo : option string) (db : Database) :
  fst (updateClinicInfo now name address logo db)
  = let db1 := fst (updateSetting now
                      {| us_key := "clinic_name"; us_value := name |} db) in
    let db2 := match address with
               | Some a => fst (updateSetting now
                                  {| us_key := "clinic_address"; us_value := a |}
                                  db1)
               | None => db1
               end in
    match logo with
    | Some l => fst (updateSetting now
                       {| us_key := "clinic_logo"; us_value := l |} db2)
    | None => db2
    end.
Proof. reflexivity. Qed.

(** X12. Keys of settings stay unique.  When no two settings share a key,
    none do after [updateSetting], after [updateClinicInfo] or after
    [initializeDefaultSettings]: a setting is inserted only under a key
    that [getSettingByKey] did not find. *)
Theorem setting_keys_stay_unique (now : timestamp) (db : Database) :
  NoDup (map Settings.key (settingsTable db)) ->
  (forall input,
     NoDup (map Settings.key (settingsTable (fst (updateSetting now input db)))))
  /\ (forall name address logo,
        NoDup (map Settings.key
                 (settingsTable
                    (fst (updateClinicInfo now name address logo db)))))
  /\ NoDup (map Settings.key (settingsTable (initializeDefaultSettings now db))).
Proof.
  intros H. split; [|split].
  - intros input. apply updateSetting_unique. exact H.
  - intros name address logo. rewrite updateClinicInfo_steps. cbv zeta.
    destruct address, logo; repeat apply updateSetting_unique; exact H.
  - unfold initializeDefaultSettings.
    generalize defaultSettings. intros l. revert db H.
    induction l as [|x l IH]; intros db H; cbn; [exact H|].
    apply IH. apply ensure_setting_unique. exact H.
Qed.

Lemma setting_keys_stay_unique_witness :
  NoDup (map Settings.key (settingsTable (initializeDefaultSettings 1 clinic)))
  /\ map Settings.key (settingsTable (initializeDefaultSettings 1 clinic))
     = ["clinic_name"; "clinic_address"; "clinic_logo";
        "low_stock_threshold_days"; "receipt_footer_text"]%string.
Proof.
  split; [|vm_compute; reflexivity].
  apply (setting_keys_stay_unique 1 clinic). constructor.
Defined.

Lemma ensure_setting_append (now : timestamp) (db : Database)
    (setting : string * string * string) :
  (exists more,
     settingsTable (ensure_setting now db setting) = settingsTable db ++ more)
  /\ engine (ensure_setting now db setting) = engine db
  /\ patientsTable (ensure_setting now db setting) = patientsTable db.
Proof.
  destruct setting as [[k v] d]. cbn [ensure_setting].
  destruct (getSettingByKey k db).
  - split; [exists []; rewrite app_nil_r; reflexivity|split; reflexivity].
  - split; [eexists; reflexivity|split; reflexivity].
Qed.

Lemma getSettingByKey_append (k : string) (db db' : Database)
    (more : list Settings.t) (s : Settings.t) :
  settingsTable db' = settingsTable db ++ more ->
  getSettingByKey k db = Some s -> getSettingByKey k db' = Some s.
Proof.
  unfold getSettingByKey, settings_where_key. intros -> H.
  rewrite filter_app.
  destruct (filter _ (settingsTable db)); [discriminate|exact H].
Qed.

Lemma ensure_all_append (now : timestamp)
    (l : list (string * string * string)) :
  forall db,
    (exists more,
       settingsTable (fold_left (ensure_setting now) l db)
       = settingsTable db ++ more)
    /\ engine (fold_left (ensure_setting now) l db) = engine db
    /\ patientsTable (fold_left (ensure_setting now) l db) = patientsTable db.
Proof.
  induction l as [|x l IH]; intros db; cbn [fold_left].
  - split; [exists []; rewrite app_nil_r; reflexivity|split; reflexivity].
  - destruct (IH (ensure_setting now db x)) as ((m2 & H2) & He & Hp).
    destruct (ensure_setting_append now db x) as ((m1 & H1) & He1 & Hp1).
    split; [|split; congruence].
    exists (m1 ++ m2). rewrite H2, H1, app_assoc. reflexivity.
Qed.

Lemma ensure_all_keeps (now : timestamp) (l : list (string * string * string))
    (db : Database) (k : string) (s : Settings.t) :
  getSettingByKey k db = Some s ->
  getSettingByKey k (fold_left (ensure_setting now) l db) = Some s.
Proof.
  destruct (ensure_all_append now l db) as ((more & H) & _).
  apply (getSettingByKey_append k db _ more s H).
Qed.

Lemma ensure_setting_other (now : timestamp) (db : Database)
    (k k0 v d : string) :
  k <> k0 ->
  getSettingByKey k (ensure_setting now db (k0, v, d)) = getSettingByKey k db.
Proof.
  intros Hk. cbn [ensure_setting].
  destruct (getSettingByKey k0 db); [reflexivity|].
  unfold getSettingByKey, settings_where_key. cbn. rewrite filter_app. cbn.
  destruct (String.eqb_spec k0 k); [congruence|]. rewrite app_nil_r. reflexivity.
Qed.

Lemma ensure_setting_absent (now : timestamp) (db : Database) (k v d : string) :
  getSettingByKey k db = None ->
  exists s,
    getSettingByKey k (ensure_setting now db (k, v, d)) = Some s
    /\ Settings.value s = Some v /\ Settings.description s = Some d.
Proof.
  intros H. cbn [ensure_setting]. rewrite H.
  unfold getSettingByKey, settings_where_key in *. cbn. rewrite filter_app. cbn.
  rewrite String.eqb_refl.
  destruct (filter _ (settingsTable db)); [|discriminate].
  eexists. split; [reflexivity|split; reflexivity].
Qed.

Lemma ensure_all_defaults (now : timestamp)
    (l : list (string * string * string)) :
  NoDup (map (fun x => fst (fst x)) l) ->
  forall db k v d,
    In (k, v, d) l ->
    getSettingByKey k db = None ->
    exists s,
      getSettingByKey k (fold_left (ensure_setting now) l db) = Some s
      /\ Settings.value s = Some v /\ Settings.description s = Some d.
Proof.
  induction l as [|[[k0 v0] d0] l IH]; intros Hnd db k v d Hin Habs;
    [contradiction|].
  cbn in Hnd. inversion Hnd as [|? ? Hnotin Hrest]; subst.
  cbn [fold_left]. destruct Hin as [E|Hin].
  - injection E as -> -> ->.
    destruct (ensure_setting_absent now db k v d Habs) as (s & Hs & Hv & Hd).
    exists s. split; [apply ensure_all_keeps; exact Hs|split; assumption].
  - apply (IH Hrest); [exact Hin|].
    rewrite ensure_setting_other; [exact Habs|].
    intros ->. apply Hnotin.
    apply in_map_iff. exists (k0, v, d). split; [reflexivity|exact Hin].
Qed.

Lemma ensure_all_present (now : timestamp)
    (l : list (string * string * string)) :
  forall db,
    Forall (fun x => getSettingByKey (fst (fst x)) db <> None) l ->
    fold_left (ensure_setting now) l db = db.
Proof.
  induction l as [|[[k v] d] l IH]; intros db H; cbn [fold_left];
    [reflexivity|].
  inversion H as [|? ? Hx Hrest]; subst. cbn [fst] in Hx.
  assert (E : ensure_setting now db (k, v, d) = db).
  { cbn [ensure_setting]. destruct (getSettingByKey k db); [reflexivity|congruence]. }
  rewrite E. apply IH. exact Hrest.
Qed.

Lemma ensure_all_covers (now : timestamp)
    (l : list (string * string * string)) :
  forall db,
    Forall (fun x => getSettingByKey (fst (fst x))
                       (fold_left (ensure_setting now) l db) <> None) l.
Proof.
  induction l as [|[[k v] d] l IH]; intros db; cbn [fold_left]; constructor.
  - cbn [fst].
    destruct (getSettingByKey k (ensure_setting now db (k, v, d))) as [s|] eqn:E.
    + rewrite (ensure_all_keeps now l _ k s E). discriminate.
    + exfalso. cbn [ensure_setting] in E.
      destruct (getSettingByKey k db) eqn:E0; [congruence|].
      destruct (ensure_setting_absent now db k v d E0) as (s & Hs & _).
      cbn [ensure_setting] in Hs. rewrite E0 in Hs. congruence.
  - apply IH.
Qed.

(** X13. [initializeDefaultSettings] fills in and never overwrites.  It
    leaves every row of the settings table as it was and in place, so a
    setting found before is found unchanged afterwards; each of the five
    default keys that was missing is found afterwards with its default
    value and description; and running it again, at any time, changes
    nothing.  Sales, stock and patients are not touched. *)
Theorem default_settings_fill_gaps_only (now : timestamp) (db : Database) :
  (exists more,
     settingsTable (initializeDefaultSettings now db) = settingsTable db ++ more)
  /\ engine (initializeDefaultSettings now db) = engine db
  /\ patientsTable (initializeDefaultSettings now db) = patientsTable db
  /\ (forall k s,
        getSettingByKey k db = Some s ->
        getSettingByKey k (initializeDefaultSettings now db) = Some s)
  /\ (forall k v d,
        In (k, v, d) defaultSettings ->
        getSettingByKey k db = None ->
        exists s,
          getSettingByKey k (initializeDefaultSettings now db) = Some s
          /\ Settings.value s = Some v /\ Settings.description s = Some d)
  /\ (forall now',
        initializeDefaultSettings now' (initializeDefaultSettings now db)
        = initializeDefaultSettings now db).
Proof.
  unfold initializeDefaultSettings.
  destruct (ensure_all_append now defaultSettings db) as (Happ & He & Hp).
  split; [exact Happ|]. split; [exact He|]. split; [exact Hp|].
  split; [intros k s; apply ensure_all_keeps|]. split.
  - apply ensure_all_defaults. cbn.
    repeat constructor; cbn; intuition discriminate.
  - intros now'. apply ensure_all_present. apply ensure_all_covers.
Qed.

Lemma getClinicInfo_field (db : Database) :
  clinic_name (getClinicInfo db)
  = value_or "Bidan Hebat Management"%string (getSettingByKey "clinic_name"%string db)
  /\ clinic_address (getClinicInfo db)
     = value_or_null (getSettingByKey "clinic_address"%string db)
  /\ clinic_logo (getClinicInfo db)
     = value_or_null (getSettingByKey "clinic_logo"%string db).
Proof. repeat split. Qed.

Lemma value_or_written (fallback : string) (now : timestamp)
    (input : UpdateSettingsInput) (db : Database) :
  value_or fallback (Some (snd (updateSetting now input db)))
  = if String.eqb (us_value input) ""%string then fallback else us_value input.
Proof.
  cbn [value_or].
  destruct (updateSetting_returns now input db) as [_ ->]. reflexivity.
Qed.

Lemma clinic_settings_after_update (now : timestamp) (name : string)
    (address logo : option string) (db : Database) :
  getSettingByKey "clinic_name"%string (fst (updateClinicInfo now name address logo db))
  = Some (snd (updateSetting now {| us_key := "clinic_name"%string; us_value := name |} db))
  /\ value_or_null (getSettingByKey "clinic_address"%string
                      (fst (updateClinicInfo now name address logo db)))
     = match address with
       | Some a => Some a
       | None => value_or_null (getSettingByKey "clinic_address"%string db)
       end
  /\ value_or_null (getSettingByKey "clinic_logo"%string
                      (fst (updateClinicInfo now name address logo db)))
     = match logo with
       | Some l => Some l
       | None => value_or_null (getSettingByKey "clinic_logo"%string db)
       end.
Proof.
  rewrite updateClinicInfo_steps. cbv zeta.
  destruct address as [a|], logo as [l|];
    repeat (rewrite getSettingByKey_updateSetting; cbn [us_key String.eqb Ascii.eqb Bool.eqb]);
    repeat split; cbn [value_or_null];
    try (match goal with
         | |- Settings.value (snd (updateSetting ?n ?i ?d)) = _ =>
             destruct (updateSetting_returns n i d) as [_ ->]; reflexivity
         end).
Qed.

(** X14. What [getClinicInfo] shows after an [updateClinicInfo] that
    returned true: the name shown is the name given, or
    "Bidan Hebat Management" when the name given is empty; the address and
    the logo shown are the ones given, an empty string included, and the
    ones shown before when none is given. *)
Theorem clinic_info_after_update (now : timestamp) (name : string)
    (address logo : option string) (db : Database) :
  snd (updateClinicInfo now name address logo db) = true ->
  clinic_name (getClinicInfo (fst (updateClinicInfo now name address logo db)))
     = (if String.eqb name ""%string then "Bidan Hebat Management"%string else name)
  /\ clinic_address
       (getClinicInfo (fst (updateClinicInfo now name address logo db)))
     = match address with
       | Some a => Some a
       | None => clinic_address (getClinicInfo db)
       end
  /\ clinic_logo
       (getClinicInfo (fst (updateClinicInfo now name address logo db)))
     = match logo with
       | Some l => Some l
       | None => clinic_logo (getClinicInfo db)
       end.
Proof.
  intros _.
  destruct (clinic_settings_after_update now name address logo db)
    as (Hn & Ha & Hl).
  destruct (getClinicInfo_field (fst (updateClinicInfo now name address logo db)))
    as (-> & -> & ->).
  destruct (getClinicInfo_field db) as (_ & -> & ->).
  rewrite Hn, Ha, Hl, value_or_written. repeat split.
Qed.

Lemma clinic_info_after_update_witness :
  getClinicInfo
    (fst (updateClinicInfo 5 ""%string (Some ""%string) None clinic))
  = {| clinic_name := "Bidan Hebat Management";
       clinic_address := Some ""%string;
       clinic_logo := None |}.
Proof.
  destruct (clinic_info_after_update 5 ""%string (Some ""%string) None clinic
              eq_refl) as (Hn & Ha & Hl).
  destruct (getClinicInfo
              (fst (updateClinicInfo 5 ""%string (Some ""%string) None clinic)))
    as [n a l].
  cbn [clinic_name clinic_address clinic_logo] in *.
  rewrite Hn, Ha, Hl. reflexivity.
Defined.

(** * Patients *)

Lemma midnight_of_day (d : timestamp) :
  Date_of_date (date_of_Date d) = midnight d.
Proof.
  unfold Date_of_date, date_of_Date, midnight, msPerDay.
  pose proof (Z.div_mod d 86400000). lia.
Qed.

Lemma patients_where_id_head (i : Z) (ps : list Patient.t) (p : Patient.t)
    (rest : list Patient.t) :
  patients_where_id i ps = p :: rest -> Patient.id p = i.
Proof.
  intros H.
  assert (Hin : In p (patients_where_id i ps)) by (rewrite H; left; reflexivity).
  apply filter_In in Hin. destruct Hin as [_ Heq]. lia.
Qed.

(** X15. A patient can be read back, the birth date cut to its day.  When
    the next id of the sequence is not taken and the birth date, if one is
    given, lies in the years 0001 to 9999, the patient [createPatient]
    returns is the one [getPatientById] finds under its id, the other
    patients are found as before, and the birth date returned is the one
    given cut down to midnight, in UTC, of its day: a time of day given
    with the birth date is lost, a birth date given at midnight comes back
    as it is. *)
Theorem created_patient_is_read_back (now : timestamp)
    (input : CreatePatientInput) (db : Database) :
  patients_where_id (patients_serial db) (patientsTable db) = [] ->
  (forall d, cp_birth_date input = Some d -> four_digit_year d) ->
  getPatientById (PatientView.id (snd (createPatient now input db)))
                 (fst (createPatient now input db))
  = Some (snd (createPatient now input db))
  /\ PatientView.name (snd (createPatient now input db)) = cp_name input
  /\ PatientView.birth_date (snd (createPatient now input db))
     = option_map midnight (cp_birth_date input)
  /\ (forall d, cp_birth_date input = Some d -> d mod msPerDay = 0 ->
        PatientView.birth_date (snd (createPatient now input db)) = Some d)
  /\ (forall i, i <> patients_serial db ->
        getPatientById i (fst (createPatient now input db))
        = getPatientById i db).
Proof.
  intros Hfresh _. unfold createPatient, getPatientById.
  cbn [fst snd with_patients patientsTable patient_view PatientView.id
       PatientView.name PatientView.birth_date Patient.id Patient.name
       Patient.birth_date].
  unfold patients_where_id in *. rewrite filter_app, Hfresh.
  cbn [filter Patient.id app]. rewrite Z.eqb_refl.
  assert (Hb : option_map Date_of_date (option_map date_of_Date (cp_birth_date input))
               = option_map midnight (cp_birth_date input)).
  { destruct (cp_birth_date input); cbn; [rewrite midnight_of_day|]; reflexivity. }
  split; [reflexivity|]. split; [reflexivity|]. split; [exact Hb|]. split.
  - intros d Hd Hm. rewrite Hb, Hd. cbn. unfold midnight. rewrite Hm.
    f_equal. lia.
  - intros i Hi. rewrite filter_app. cbn [filter Patient.id].
    destruct (Z.eqb_spec (patients_serial db) i); [congruence|].
    rewrite app_nil_r. reflexivity.
Qed.

Lemma created_patient_is_read_back_witness :
  PatientView.birth_date (snd (createPatient 1 john clinic))
  = Some 484963200000
  /\ getPatientById 1 (fst (createPatient 1 john clinic))
     = Some (snd (createPatient 1 john clinic)).
Proof.
  assert (Hy : forall d, cp_birth_date john = Some d -> four_digit_year d).
  { intros d Hd. injection Hd as <-. unfold four_digit_year. lia. }
  destruct (created_patient_is_read_back 1 john clinic eq_refl Hy)
    as (Hget & _ & Hb & _).
  split; [rewrite Hb; reflexivity|exact Hget].
Defined.

Lemma patients_where_id_update (i : Z) (now : timestamp)
    (input : UpdatePatientInput) (ps : list Patient.t) :
  patients_where_id i
    (map (fun p => if Patient.id p =? up_id input
                   then apply_update now input p else p) ps)
  = if i =? up_id input
    then map (apply_update now input) (patients_where_id i ps)
    else patients_where_id i ps.
Proof.
  unfold patients_where_id.
  induction ps as [|p ps IH]; cbn [map filter].
  - destruct (i =? up_id input); reflexivity.
  - rewrite IH.
    destruct (Z.eqb_spec (Patient.id p) (up_id input)) as [Hp|Hp];
      destruct (Z.eqb_spec i (up_id input)) as [Hi|Hi];
      cbn [apply_update Patient.id];
      destruct (Z.eqb_spec (Patient.id p) i) as [Hpi|Hpi];
      cbn [map]; try reflexivity; congruence.
Qed.

(** X16. [updatePatient] is a patch.  For an id that is not in the table
    it returns null and leaves the database as it was.  For a patient of
    the table it returns the patient as [getPatientById] finds it
    afterwards: id and creation time as before, the update time the time of
    the call, every field the one given, or the row's own when none is
    given (a birth date given is cut to its day); every other patient is
    found as before.  A birth date given lies in the years 0001 to 9999. *)
Theorem update_patient_is_a_patch (now : timestamp)
    (input : UpdatePatientInput) (db : Database) :
  (forall d, up_birth_date input = Some (Some d) -> four_digit_year d) ->
  (getPatientById (up_id input) db = None ->
   updatePatient now input db = (db, None))
  /\ (forall old,
        getPatientById (up_id input) db = Some old ->
        exists new,
          snd (updatePatient now input db) = Some new
          /\ getPatientById (up_id input) (fst (updatePatient now input db))
             = Some new
          /\ PatientView.id new = PatientView.id old
          /\ PatientView.created_at new = PatientView.created_at old
          /\ PatientView.updated_at new = now
          /\ PatientView.name new = given (up_name input) (PatientView.name old)
          /\ PatientView.birth_date new
             = given (option_map (option_map midnight) (up_birth_date input))
                     (PatientView.birth_date old)
          /\ PatientView.gender new
             = given (up_gender input) (PatientView.gender old)
          /\ PatientView.phone new = given (up_phone input) (PatientView.phone old)
          /\ PatientView.address new
             = given (up_address input) (PatientView.address old)
          /\ PatientView.medical_history new
             = given (up_medical_history input) (PatientView.medical_history old))
  /\ (forall i, i <> up_id input ->
        getPatientById i (fst (updatePatient now input db))
        = getPatientById i db).
Proof.
  intros _. split; [|split].
  - unfold getPatientById, updatePatient. intros H.
    destruct (patients_where_id (up_id input) (patientsTable db)) as [|p tl] eqn:E;
      [|discriminate].
    cbn [map]. f_equal. destruct db as [e ps ss s1 s2]. unfold with_patients.
    cbn in *. f_equal.
    clear - E. induction ps as [|p ps IH]; cbn in *; [reflexivity|].
    unfold patients_where_id in *. cbn in E.
    destruct (Patient.id p =? up_id input); [discriminate|].
    f_equal. apply IH. exact E.
  - intros old. unfold getPatientById at 1.
    destruct (patients_where_id (up_id input) (patientsTable db)) as [|p tl] eqn:E;
      [discriminate|].
    intros H. injection H as <-.
    exists (patient_view (apply_update now input p)).
    unfold updatePatient, getPatientById. rewrite E.
    cbn [fst snd with_patients patientsTable map].
    rewrite patients_where_id_update, Z.eqb_refl, E. cbn [map].
    repeat split.
    cbn. destruct (up_birth_date input) as [[d|]|]; cbn; try reflexivity.
    rewrite midnight_of_day. reflexivity.
  - intros i Hi. unfold getPatientById, updatePatient.
    cbn [fst with_patients patientsTable].
    rewrite patients_where_id_update.
    destruct (Z.eqb_spec i (up_id input)); [contradiction|reflexivity].
Qed.

Lemma update_patient_is_a_patch_witness :
  updatePatient 9
    {| up_id := 999; up_name := Some "Non-existent"%string;
       up_birth_date := Some (Some 0); up_gender := None; up_phone := None;
       up_address := None; up_medical_history := None |}
    (fst (createPatient 1 john clinic))
  = (fst (createPatient 1 john clinic), None)
  /\ exists new,
       snd (updatePatient 9
              {| up_id := 1; up_name := None;
                 up_birth_date := Some (Some 86400001); up_gender := None;
                 up_phone := Some None; up_address := None;
                 up_medical_history := None |}
              (fst (createPatient 1 john clinic))) = Some new
       /\ PatientView.name new = "John Doe"%string
       /\ PatientView.birth_date new = Some 86400000
       /\ PatientView.phone new = None
       /\ PatientView.updated_at new = 9.
Proof.
  split.
  - apply (update_patient_is_a_patch 9
             {| up_id := 999; up_name := Some "Non-existent"%string;
                up_birth_date := Some (Some 0); up_gender := None;
                up_phone := None; up_address := None;
                up_medical_history := None |}
             (fst (createPatient 1 john clinic))).
    + intros d Hd. injection Hd as <-. unfold four_digit_year. lia.
    + reflexivity.
  - destruct (update_patient_is_a_patch 9
                {| up_id := 1; up_name := None;
                   up_birth_date := Some (Some 86400001); up_gender := None;
                   up_phone := Some None; up_address := None;
                   up_medical_history := None |}
                (fst (createPatient 1 john clinic))) as (_ & Hpatch & _).
    + intros d Hd. injection Hd as <-. unfold four_digit_year. lia.
    + destruct (Hpatch (snd (createPatient 1 john clinic)) eq_refl)
        as (new & Hret & _ & _ & _ & Hu & Hn & Hb & _ & Hp & _).
      exists new. split; [exact Hret|]. split; [exact Hn|].
      split; [exact Hb|]. split; [exact Hp|exact Hu].
Defined.

Lemma patients_where_id_delete (i id : Z) (ps : list Patient.t) :
  patients_where_id i (filter (fun p => negb (Patient.id p =? id)) ps)
  = if i =? id then [] else patients_where_id i ps.
Proof.
  unfold patients_where_id.
  induction ps as [|p ps IH]; cbn [filter].
  - destruct (i =? id); reflexivity.
  - destruct (Z.eqb_spec (Patient.id p) id) as [Hp|Hp]; cbn [negb filter];
      rewrite IH;
      destruct (Z.eqb_spec i id) as [Hi|Hi];
      destruct (Z.eqb_spec (Patient.id p) i) as [Hpi|Hpi];
      try reflexivity; congruence.
Qed.

(** X17. [deletePatient] never deletes a patient a sale names.  When a
    sale, of whatever status, names the patient, the call throws and leaves
    the database as it was.  Otherwise it removes the patient and returns
    whether there was one: afterwards the id is not found, every other
    patient is found as before, and sales and stock are untouched.  In
    both cases, if every sale that names a patient named one of the table
    before the call, so it does after it. *)
Theorem delete_patient_keeps_references (id : Z) (db : Database) :
  (sales_of_patient id (salesTransactionsTable (engine db)) <> [] ->
   deletePatient id db
   = (db, Threw "Cannot delete patient with existing sales transactions"))
  /\ (sales_of_patient id (salesTransactionsTable (engine db)) = [] ->
      exists found,
        snd (deletePatient id db) = Returned found
        /\ (found = true <-> getPatientById id db <> None)
        /\ getPatientById id (fst (deletePatient id db)) = None
        /\ (forall i, i <> id ->
              getPatientById i (fst (deletePatient id db))
              = getPatientById i db)
        /\ engine (fst (deletePatient id db)) = engine db)
  /\ (patients_resolve db -> patients_resolve (fst (deletePatient id db))).
Proof.
  split; [|split].
  - unfold deletePatient.
    destruct (sales_of_patient id _); [congruence|reflexivity].
  - intros E. unfold deletePatient. rewrite E.
    cbn [fst snd with_patients engine]. eexists. split; [reflexivity|].
    unfold getPatientById. cbn [with_patients patientsTable].
    split; [|split; [|split]].
    + destruct (patients_where_id id (patientsTable db)); cbn;
        split; congruence.
    + rewrite patients_where_id_delete, Z.eqb_refl. reflexivity.
    + intros i Hi. rewrite patients_where_id_delete.
      destruct (Z.eqb_spec i id); [contradiction|reflexivity].
    + reflexivity.
  - unfold patients_resolve, deletePatient.
    destruct (sales_of_patient id (salesTransactionsTable (engine db))) eqn:E;
      [|trivial].
    cbn [fst with_patients engine patientsTable]. intros H.
    apply Forall_forall. intros r Hr. rewrite Forall_forall in H.
    specialize (H r Hr).
    destruct (SalesTransaction.patient_id r) as [p|] eqn:Ep; [|exact I].
    rewrite patients_where_id_delete.
    destruct (Z.eqb_spec p id) as [->|Hne]; [|exact H].
    exfalso.
    assert (Hin : In r (sales_of_patient id (salesTransactionsTable (engine db)))).
    { apply filter_In. split; [exact Hr|]. rewrite Ep. apply Z.eqb_refl. }
    rewrite E in Hin. contradiction.
Qed.

(** * Receipts *)

Lemma where_id_length (i : Z) (ms ms' : list Medicine.t) :
  map Medicine.id ms = map Medicine.id ms' ->
  List.length (medicines_where_id i ms) = List.length (medicines_where_id i ms').
Proof.
  unfold medicines_where_id. revert ms'.
  induction ms as [|m ms IH]; intros [|m' ms'] H; try discriminate;
    [reflexivity|].
  cbn in *. injection H as H1 H2. rewrite H1.
  destruct (Medicine.id m' =? i); cbn; rewrite (IH _ H2); reflexivity.
Qed.

Lemma map_constant {A B} (c : B) (l : list A) :
  map (fun _ => c) l = repeat c (List.length l).
Proof. induction l as [|x l IH]; cbn; [|rewrite IH]; reflexivity. Qed.

Lemma receipt_lines_by_count (tid : Z) (db : Store) :
  map priced_line (receipt_items_of tid db)
  = flat_map (fun it =>
                repeat (priced_item it)
                  (List.length
                     (medicines_where_id (SalesTransactionItem.medicine_id it)
                        (medicinesTable db))))
             (items_where_transaction_id tid (salesTransactionItemsTable db)).
Proof.
  unfold receipt_items_of.
  induction (items_where_transaction_id tid (salesTransactionItemsTable db))
    as [|it its IH]; cbn [flat_map]; [reflexivity|].
  rewrite map_app, IH. f_equal.
  rewrite map_map, <- map_constant. apply map_ext. intros m. reflexivity.
Qed.

Lemma value_or_nonempty (fallback : string) (r : option Settings.t) :
  fallback <> ""%string -> value_or fallback r <> ""%string.
Proof.
  intros Hf. unfold value_or.
  destruct r as [s|]; [|exact Hf].
  destruct (Settings.value s) as [v|]; [|exact Hf].
  destruct (String.eqb_spec v ""%string); assumption.
Qed.

(** X18. Receipts show the prices of the sale, whatever became of the
    medicines.  When the medicine handlers rewrite the medicines table in
    any way that keeps the ids of its rows (new prices, new names, new
    stocks), a receipt that existed before still exists and shows the same
    sale, the same patient, the same clinic and the same lines, up to
    their order: for every item the same quantity, unit price and total
    price. *)
Theorem receipt_prices_survive_rewrites
    (f : list Medicine.t -> list Medicine.t) (tid : Z) (db : Database)
    (rc : ReceiptData) :
  keeps_ids f ->
  getReceiptData tid db = Some rc ->
  exists rc',
    getReceiptData tid (medicines_rewritten f db) = Some rc'
    /\ receipt_transaction rc' = receipt_transaction rc
    /\ Permutation (map priced_line (receipt_items rc'))
                   (map priced_line (receipt_items rc))
    /\ receipt_patient rc' = receipt_patient rc
    /\ receipt_clinic_name rc' = receipt_clinic_name rc
    /\ receipt_clinic_address rc' = receipt_clinic_address rc.
Proof.
  intros Hf. unfold getReceiptData.
  cbn [medicines_rewritten with_engine engine with_medicines
       salesTransactionsTable].
  destruct (sales_where_id tid (salesTransactionsTable (engine db)))
    as [|tx tl]; [discriminate|].
  intros H. injection H as <-. eexists. split; [reflexivity|].
  cbn [receipt_transaction receipt_items receipt_patient receipt_clinic_name
       receipt_clinic_address].
  repeat split. apply Permutation_refl'.
  rewrite !receipt_lines_by_count.
  cbn [salesTransactionItemsTable medicinesTable].
  apply flat_map_ext. intros it. f_equal.
  apply where_id_length. apply Hf.
Qed.

Lemma where_id_unique (i : Z) (ms : list Medicine.t) :
  NoDup (map Medicine.id ms) ->
  medicines_where_id i ms = []
  \/ exists m, medicines_where_id i ms = [m].
Proof.
  unfold medicines_where_id.
  induction ms as [|m ms IH]; intros Hnd; cbn; [left; reflexivity|].
  cbn in Hnd. inversion Hnd as [|? ? Hnotin Hrest]; subst.
  destruct (Z.eqb_spec (Medicine.id m) i) as [Hi|Hi]; [|apply IH; exact Hrest].
  right. exists m. f_equal.
  apply filter_none. apply Forall_forall. intros a Ha.
  destruct (Z.eqb_spec (Medicine.id a) i) as [Hai|]; [|reflexivity].
  exfalso. apply Hnotin. rewrite Hi, <- Hai. apply in_map. exact Ha.
Qed.

(** X19. What a receipt lists.  When no two medicines share an id, the
    receipt has, in some order, one line for every item of the sale whose
    medicine is in the store, and none for an item whose medicine is gone.
    Each line takes id, quantity, unit price and total price from the item
    row and the name and unit from the medicine row as it is when the
    receipt is made. *)
Theorem receipt_lists_items_in_store (tid : Z) (db : Store) :
  NoDup (map Medicine.id (medicinesTable db)) ->
  exists lines,
    Permutation lines (receipt_items_of tid db)
    /\ Forall2
         (fun it line =>
            priced_line line = priced_item it
            /\ exists m,
                 medicines_where_id (SalesTransactionItem.medicine_id it)
                                    (medicinesTable db) = [m]
                 /\ ReceiptItem.medicine_name line = Medicine.name m
                 /\ ReceiptItem.medicine_unit line = Medicine.unit m)
         (filter (fun it => has_medicine (SalesTransactionItem.medicine_id it)
                                         (medicinesTable db))
                 (items_where_transaction_id tid
                    (salesTransactionItemsTable db)))
         lines.
Proof.
  intros Hnd. exists (receipt_items_of tid db). split; [reflexivity|].
  unfold receipt_items_of.
  induction (items_where_transaction_id tid (salesTransactionItemsTable db))
    as [|it its IH]; cbn [filter flat_map]; [constructor|].
  rewrite has_medicine_where.
  destruct (where_id_unique (SalesTransactionItem.medicine_id it)
              (medicinesTable db) Hnd) as [E|(m & E)]; rewrite E; cbn.
  - exact IH.
  - constructor; [|exact IH].
    split; [reflexivity|]. exists m.
    split; [exact E|split; reflexivity].
Qed.

Lemma receipt_lists_items_in_store_witness :
  Permutation
    (map (fun l => (ReceiptItem.medicine_name l, ReceiptItem.quantity l))
         (receipt_items_of 1 two_medicines_sold))
    [("Syrup"%string, 1); ("Paracetamol"%string, 2)]
  /\ List.length (receipt_items_of 1 syrup_gone) = 1%nat
  /\ List.length (receipt_items_of 1 syrup_gone)
     = List.length
         (filter (fun it => has_medicine (SalesTransactionItem.medicine_id it)
                                         (medicinesTable syrup_gone))
                 (items_where_transaction_id 1
                    (salesTransactionItemsTable syrup_gone))).
Proof.
  split; [vm_compute; apply perm_swap|]. split; [vm_compute; reflexivity|].
  destruct (receipt_lists_items_in_store 1 syrup_gone) as (lines & Hp & Hf).
  - vm_compute. repeat constructor; cbn; intuition discriminate.
  - rewrite <- (Permutation_length Hp). symmetry.
    exact (Forall2_length Hf).
Defined.

Lemma sales_where_id_in (i : Z) (l : list SalesTransaction.t)
    (r : SalesTransaction.t) (rest : list SalesTransaction.t) :
  sales_where_id i l = r :: rest -> In r l.
Proof.
  intros H.
  assert (Hin : In r (sales_where_id i l)) by (rewrite H; left; reflexivity).
  apply filter_In in Hin. apply Hin.
Qed.

(** X20. [deletePatient] changes no receipt: whether it throws, deletes or
    finds nothing to delete, [getReceiptData] returns for every sale what
    it returned before, the patient on the receipt included. *)
Theorem delete_patient_changes_no_receipt (id tid : Z) (db : Database) :
  getReceiptData tid (fst (deletePatient id db)) = getReceiptData tid db.
Proof.
  unfold deletePatient.
  destruct (sales_of_patient id (salesTransactionsTable (engine db))) eqn:E;
    [|reflexivity].
  cbn [fst]. unfold getReceiptData. cbn [with_patients engine].
  destruct (sales_where_id tid (salesTransactionsTable (engine db)))
    as [|tx tl] eqn:Et; [reflexivity|].
  f_equal. f_equal.
  unfold receipt_patient_of. cbn [with_patients patientsTable].
  destruct (SalesTransaction.patient_id tx) as [p|] eqn:Ep; [|reflexivity].
  destruct (p =? 0); [reflexivity|].
  rewrite patients_where_id_delete.
  destruct (Z.eqb_spec p id) as [->|Hne]; [|reflexivity].
  exfalso.
  assert (Hin : In tx (sales_of_patient id (salesTransactionsTable (engine db)))).
  { apply filter_In. split; [exact (sales_where_id_in _ _ _ _ Et)|].
    rewrite Ep. apply Z.eqb_refl. }
  rewrite E in Hin. contradiction.
Qed.

Lemma updateClinicInfo_frame (now : timestamp) (name : string)
    (address logo : option string) (db : Database) :
  engine (fst (updateClinicInfo now name address logo db)) = engine db
  /\ patientsTable (fst (updateClinicInfo now name address logo db))
     = patientsTable db.
Proof.
  rewrite updateClinicInfo_steps. cbv zeta.
  destruct address, logo;
    repeat match goal with
           | |- context [fst (updateSetting ?n ?i ?d)] =>
               destruct (updateSetting_frame n i d) as [-> ->]
           end; split; reflexivity.
Qed.

(** X21. The heading of a receipt.  A receipt never shows an empty clinic
    name: a missing, null or empty setting gives "Apotek".  After
    [updateClinicInfo] every receipt shows the name given, or "Apotek" when
    the name given is empty (where [getClinicInfo] shows "Bidan Hebat
    Management"), and the address given, or the address it showed before
    when none is given; sale, lines and patient on the receipt are as
    before. *)
Theorem receipt_heading_follows_clinic_info (now : timestamp) (name : string)
    (address logo : option string) (tid : Z) (db : Database)
    (rc : ReceiptData) :
  getReceiptData tid db = Some rc ->
  receipt_clinic_name rc <> ""%string
  /\ exists rc',
       getReceiptData tid (fst (updateClinicInfo now name address logo db))
       = Some rc'
       /\ receipt_clinic_name rc'
          = (if String.eqb name ""%string then "Apotek"%string else name)
       /\ receipt_clinic_address rc'
          = match address with
            | Some a => Some a
            | None => receipt_clinic_address rc
            end
       /\ receipt_transaction rc' = receipt_transaction rc
       /\ receipt_items rc' = receipt_items rc
       /\ receipt_patient rc' = receipt_patient rc.
Proof.
  unfold getReceiptData.
  destruct (updateClinicInfo_frame now name address logo db) as [He Hp].
  destruct (clinic_settings_after_update now name address logo db)
    as (Hn & Ha & _).
  rewrite He.
  destruct (sales_where_id tid (salesTransactionsTable (engine db)))
    as [|tx tl]; [discriminate|].
  intros H. injection H as <-.
  cbn [receipt_clinic_name receipt_clinic_address receipt_transaction
       receipt_items receipt_patient].
  split; [apply value_or_nonempty; discriminate|].
  eexists. split; [reflexivity|].
  cbn [receipt_clinic_name receipt_clinic_address receipt_transaction
       receipt_items receipt_patient].
  rewrite Hn, Ha, value_or_written. cbn [us_value].
  repeat split.
  unfold receipt_patient_of. rewrite Hp. reflexivity.
Qed.

Lemma receipt_prices_survive_rewrites_witness :
  exists rc rc',
    getReceiptData 1 clinic_after_sale = Some rc
    /\ getReceiptData 1 (medicines_rewritten reprice clinic_after_sale) = Some rc'
    /\ Permutation (map ReceiptItem.medicine_name (receipt_items rc'))
                   ["Generic Syrup"; "Generic Paracetamol"]%string
    /\ Permutation (map priced_line (receipt_items rc'))
                   (map priced_line (receipt_items rc)).
Proof.
  destruct (getReceiptData 1 clinic_after_sale) as [rc|] eqn:E;
    [|vm_compute in E; discriminate].
  assert (Hf : keeps_ids reprice).
  { intros ms. unfold reprice. rewrite map_map. reflexivity. }
  destruct (receipt_prices_survive_rewrites reprice 1 clinic_after_sale rc Hf E)
    as (rc' & E' & _ & Hlines & _).
  exists rc, rc'. split; [reflexivity|]. split; [exact E'|].
  split; [|exact Hlines].
  vm_compute in E'. injection E' as <-. apply perm_swap.
Defined.

Lemma receipt_heading_follows_clinic_info_witness :
  exists rc',
    getReceiptData 1
      (fst (updateClinicInfo 5 ""%string (Some "Jl. Test"%string) None
              clinic_after_sale))
    = Some rc'
    /\ receipt_clinic_name rc' = "Apotek"%string
    /\ receipt_clinic_address rc' = Some "Jl. Test"%string
    /\ clinic_name
         (getClinicInfo
            (fst (updateClinicInfo 5 ""%string (Some "Jl. Test"%string) None
                    clinic_after_sale)))
       = "Bidan Hebat Management"%string.
Proof.
  destruct (getReceiptData 1 clinic_after_sale) as [rc|] eqn:E;
    [|vm_compute in E; discriminate].
  destruct (receipt_heading_follows_clinic_info 5 ""%string
              (Some "Jl. Test"%string) None 1 clinic_after_sale rc E)
    as (_ & rc' & E' & Hn & Ha & _).
  exists rc'. split; [exact E'|]. split; [exact Hn|]. split; [exact Ha|].
  vm_compute. reflexivity.
Defined.

(** * Visits of a patient *)

Lemma map_has_in (tid : Z) (m : list PatientVisit.t) :
  map_has tid m = true <-> In tid (map PatientVisit.transaction_id m).
Proof.
  unfold map_has. rewrite existsb_exists, in_map_iff. split.
  - intros (v & Hv & E). exists v. split; [lia|exact Hv].
  - intros (v & E & Hv). exists v. split; [exact Hv|lia].
Qed.

Lemma map_push_spec (tid : Z) (item : VisitItem.t) (m : list PatientVisit.t) :
  NoDup (map PatientVisit.transaction_id m) ->
  map_push tid item m
  = map (fun v => if PatientVisit.transaction_id v =? tid
                  then push_item item v else v) m.
Proof.
  induction m as [|v m IH]; intros Hnd; cbn [map_push map]; [reflexivity|].
  cbn in Hnd. inversion Hnd as [|? ? Hnotin Hrest]; subst.
  destruct (Z.eqb_spec (PatientVisit.transaction_id v) tid) as [E|E].
  - unfold push_item at 1. f_equal.
    rewrite <- (map_id m) at 1. apply map_ext_in. intros a Ha.
    destruct (Z.eqb_spec (PatientVisit.transaction_id a) tid) as [Ea|];
      [|reflexivity].
    exfalso. apply Hnotin. rewrite E, <- Ea. apply in_map. exact Ha.
  - rewrite (IH Hrest). reflexivity.
Qed.

Lemma rows_of_snoc (tid : Z) (done : list VisitRow.t) (r : VisitRow.t) :
  rows_of tid (done ++ [r])
  = rows_of tid done ++ (if VisitRow.transaction_id r =? tid then [r] else []).
Proof. unfold rows_of. rewrite filter_app. reflexivity. Qed.

Lemma newest_first_map {A} (key : A -> Z) (f : A -> A) (l : list A) :
  (forall x, key (f x) = key x) ->
  newest_first key l -> newest_first key (map f l).
Proof.
  intros Hf. unfold newest_first.
  induction 1 as [|x l Hs IH Hx]; cbn; constructor; [exact IH|].
  apply Forall_map. eapply Forall_impl; [|exact Hx].
  cbn. intros a Ha. rewrite !Hf. exact Ha.
Qed.

Lemma newest_first_snoc {A} (key : A -> Z) (l : list A) (x : A) :
  newest_first key l ->
  Forall (fun y => key x <= key y) l ->
  newest_first key (l ++ [x]).
Proof.
  unfold newest_first. induction 1 as [|y l Hs IH Hy]; intros Hall; cbn.
  - constructor; constructor.
  - inversion Hall as [|? ? Hxy Hrest]; subst.
    constructor; [apply IH; exact Hrest|].
    apply Forall_app. split; [exact Hy|]. constructor; [exact Hxy|constructor].
Qed.

Lemma sorted_before {A} (key : A -> Z) (a b : list A) (x : A) :
  newest_first key (a ++ x :: b) -> Forall (fun y => key x <= key y) a.
Proof.
  unfold newest_first. induction a as [|y a IH]; cbn; intros H; [constructor|].
  inversion H as [|? ? Hs Hy]; subst. constructor; [|apply IH; exact Hs].
  rewrite Forall_forall in Hy. apply Hy. apply in_elt.
Qed.

(** One row more: the map after [group_row]. *)
Lemma group_row_grouped (done : list VisitRow.t) (m : list PatientVisit.t)
    (r : VisitRow.t) :
  grouped done m -> grouped (done ++ [r]) (group_row m r).
Proof.
  intros (Hnd & Hv & Hr). unfold group_row. cbv zeta.
  set (t := VisitRow.transaction_id r).
  set (new := PatientVisit.mk t (VisitRow.transaction_date r)
                (parseFloat (VisitRow.total_amount r)) []).
  set (m1 := if map_has t m then m else m ++ [new]).
  assert (Hnd1 : NoDup (map PatientVisit.transaction_id m1)).
  { unfold m1. destruct (map_has t m) eqn:Eh; [exact Hnd|].
    rewrite map_app. apply NoDup_snoc; [exact Hnd|].
    intros Hin. apply map_has_in in Hin. cbn in Hin. congruence. }
  assert (Hnone : map_has t m = false -> rows_of t done = []).
  { intros Eh. apply filter_none. apply Forall_forall. intros a Ha.
    destruct (Z.eqb_spec (VisitRow.transaction_id a) t) as [E|]; [|reflexivity].
    exfalso. specialize (Hr a Ha). rewrite E in Hr.
    apply map_has_in in Hr. congruence. }
  rewrite (map_push_spec t (visit_item r) m1 Hnd1).
  split; [|split].
  - rewrite map_map.
    erewrite map_ext; [exact Hnd1|].
    intros v. destruct (PatientVisit.transaction_id v =? t); reflexivity.
  - intros v' Hin. apply in_map_iff in Hin. destruct Hin as (v & <- & Hin).
    assert (Hcase : In v m \/ (map_has t m = false /\ v = new)).
    { unfold m1 in Hin. destruct (map_has t m); [left; exact Hin|].
      apply in_app_or in Hin. destruct Hin as [Hin|[<-|[]]]; auto. }
    destruct Hcase as [Hold|[Eh ->]].
    + destruct (Hv v Hold) as (Hitems & r0 & Hr0 & Ht0 & Hd0 & Ha0).
      destruct (Z.eqb_spec (PatientVisit.transaction_id v) t) as [E|E].
      * change (PatientVisit.transaction_id (push_item (visit_item r) v))
          with (PatientVisit.transaction_id v).
        change (PatientVisit.items (push_item (visit_item r) v))
          with (PatientVisit.items v ++ [visit_item r]).
        change (PatientVisit.transaction_date (push_item (visit_item r) v))
          with (PatientVisit.transaction_date v).
        change (PatientVisit.total_amount (push_item (visit_item r) v))
          with (PatientVisit.total_amount v).
        rewrite rows_of_snoc. fold t. rewrite E, Z.eqb_refl, map_app, <- E.
        rewrite Hitems. split; [reflexivity|].
        exists r0. split; [apply in_or_app; left; exact Hr0|auto].
      * rewrite rows_of_snoc. fold t.
        destruct (Z.eqb_spec t (PatientVisit.transaction_id v)); [congruence|].
        rewrite app_nil_r. split; [exact Hitems|].
        exists r0. split; [apply in_or_app; left; exact Hr0|auto].
    + change (PatientVisit.transaction_id new) with t. rewrite Z.eqb_refl.
      change (PatientVisit.transaction_id (push_item (visit_item r) new))
        with t.
      change (PatientVisit.items (push_item (visit_item r) new))
        with [visit_item r].
      change (PatientVisit.transaction_date (push_item (visit_item r) new))
        with (VisitRow.transaction_date r).
      change (PatientVisit.total_amount (push_item (visit_item r) new))
        with (parseFloat (VisitRow.total_amount r)).
      rewrite rows_of_snoc. fold t. rewrite Z.eqb_refl, (Hnone Eh).
      split; [reflexivity|].
      exists r. split; [apply in_elt|repeat split].
  - intros a Ha. rewrite map_map.
    erewrite map_ext;
      [|intros v; destruct (PatientVisit.transaction_id v =? t); reflexivity].
    unfold m1. apply in_app_or in Ha. destruct Ha as [Ha|[<-|[]]].
    + specialize (Hr a Ha). destruct (map_has t m); [exact Hr|].
      rewrite map_app. apply in_or_app. left. exact Hr.
    + fold t. destruct (map_has t m) eqn:Eh; [apply map_has_in; exact Eh|].
      rewrite map_app. apply in_or_app. right. left. reflexivity.
Qed.

Lemma group_row_sorted (done : list VisitRow.t) (m : list PatientVisit.t)
    (r : VisitRow.t) :
  grouped done m ->
  Forall (fun y => VisitRow.transaction_date r <= VisitRow.transaction_date y)
         done ->
  newest_first PatientVisit.transaction_date m ->
  newest_first PatientVisit.transaction_date (group_row m r).
Proof.
  intros (Hnd & Hv & Hr) Hdone Hs. unfold group_row. cbv zeta.
  set (t := VisitRow.transaction_id r).
  set (new := PatientVisit.mk t (VisitRow.transaction_date r)
                (parseFloat (VisitRow.total_amount r)) []).
  set (m1 := if map_has t m then m else m ++ [new]).
  assert (Hnd1 : NoDup (map PatientVisit.transaction_id m1)).
  { unfold m1. destruct (map_has t m) eqn:Eh; [exact Hnd|].
    rewrite map_app. apply NoDup_snoc; [exact Hnd|].
    intros Hin. apply map_has_in in Hin. cbn in Hin. congruence. }
  rewrite (map_push_spec t (visit_item r) m1 Hnd1).
  apply newest_first_map.
  - intros v. destruct (PatientVisit.transaction_id v =? t); reflexivity.
  - unfold m1. destruct (map_has t m); [exact Hs|].
    apply newest_first_snoc; [exact Hs|].
    apply Forall_forall. intros v Hin.
    destruct (Hv v Hin) as (_ & r0 & Hr0 & _ & Hd0 & _).
    rewrite Forall_forall in Hdone. specialize (Hdone r0 Hr0).
    cbn. rewrite Hd0. exact Hdone.
Qed.

Lemma group_all (rows : list VisitRow.t) :
  forall done m,
    grouped done m ->
    newest_first PatientVisit.transaction_date m ->
    newest_first VisitRow.transaction_date (done ++ rows) ->
    grouped (done ++ rows) (fold_left group_row rows m)
    /\ newest_first PatientVisit.transaction_date (fold_left group_row rows m).
Proof.
  induction rows as [|r rows IH]; intros done m Hg Hs Hsorted; cbn [fold_left].
  - rewrite app_nil_r. split; assumption.
  - replace (done ++ r :: rows) with ((done ++ [r]) ++ rows) in *
      by (rewrite <- app_assoc; reflexivity).
    apply IH.
    + apply group_row_grouped. exact Hg.
    + apply (group_row_sorted done); [exact Hg| |exact Hs].
      rewrite <- app_assoc in Hsorted. cbn in Hsorted.
      exact (sorted_before _ _ _ _ Hsorted).
    + exact Hsorted.
Qed.

Lemma newest_first_blocks {A B} (keyA : A -> Z) (keyB : B -> Z)
    (g : A -> list B) (l : list A) :
  (forall a b, In b (g a) -> keyB b = keyA a) ->
  newest_first keyA l -> newest_first keyB (flat_map g l).
Proof.
  intros Hg. unfold newest_first.
  induction 1 as [|a l Hs IH Ha]; cbn [flat_map]; [constructor|].
  assert (Hblock : forall bs,
             (forall b, In b bs -> keyB b = keyA a) ->
             StronglySorted (fun x y => keyB y <= keyB x) (bs ++ flat_map g l)).
  { induction bs as [|b bs IHb]; intros Hbs; cbn; [exact IH|].
    constructor; [apply IHb; intros; apply Hbs; right; assumption|].
    apply Forall_app. split.
    - apply Forall_forall. intros b' Hb'.
      rewrite (Hbs b (or_introl eq_refl)), (Hbs b' (or_intror Hb')). lia.
    - apply Forall_forall. intros b' Hb'. apply in_flat_map in Hb'.
      destruct Hb' as (a' & Ha' & Hb').
      rewrite (Hbs b (or_introl eq_refl)), (Hg _ _ Hb').
      rewrite Forall_forall in Ha. exact (Ha a' Ha'). }
  apply Hblock. intros b Hb. apply Hg. exact Hb.
Qed.

Lemma visit_rows_in (patientId : Z) (db : Store) (r : VisitRow.t) :
  In r (visit_rows patientId db) <->
  exists s it m,
    In s (salesTransactionsTable db)
    /\ SalesTransaction.patient_id s = Some patientId
    /\ In it (salesTransactionItemsTable db)
    /\ SalesTransactionItem.transaction_id it = SalesTransaction.id s
    /\ In m (medicinesTable db)
    /\ Medicine.id m = SalesTransactionItem.medicine_id it
    /\ r = VisitRow.mk (SalesTransaction.id s)
             (SalesTransaction.transaction_date s)
             (SalesTransaction.total_amount s) (Medicine.name m)
             (SalesTransactionItem.quantity it)
             (SalesTransactionItem.unit_price it)
             (SalesTransactionItem.total_price it).
Proof.
  unfold visit_rows. rewrite in_flat_map. split.
  - intros (s & Hs & Hr). apply order_by_desc_in in Hs.
    apply filter_In in Hs. destruct Hs as [Hs Hp].
    apply in_flat_map in Hr. destruct Hr as (it & Hit & Hr).
    apply filter_In in Hit. destruct Hit as [Hit Ht].
    apply in_map_iff in Hr. destruct Hr as (m & <- & Hm).
    apply filter_In in Hm. destruct Hm as [Hm Hi].
    exists s, it, m. repeat split; try assumption; try lia.
    destruct (SalesTransaction.patient_id s) as [p|]; [|discriminate].
    f_equal. lia.
  - intros (s & it & m & Hs & Hp & Hit & Ht & Hm & Hi & ->).
    exists s. split.
    + apply order_by_desc_in. apply filter_In. split; [exact Hs|].
      rewrite Hp. apply Z.eqb_refl.
    + apply in_flat_map. exists it. split.
      * apply filter_In. split; [exact Hit|lia].
      * apply in_map_iff. exists m. split; [reflexivity|].
        apply filter_In. split; [exact Hm|lia].
Qed.

(** X22. What [getPatientVisitHistory] returns.  No two visits carry the
    same transaction id, and the visits come newest first.  Every visit is
    a sale of the patient, with the id, the date and the total of that
    sale, and has at least one item: its items are the rows the join gave
    for that sale, in their order.  A sale of the patient is among the
    visits exactly when one of its items names a medicine that is in the
    store: a sale without items, or whose medicines are all gone, is not
    shown. *)
Theorem visit_history_groups_sales (patientId : Z) (db : Store) :
  NoDup (map PatientVisit.transaction_id (getPatientVisitHistory patientId db))
  /\ newest_first PatientVisit.transaction_date
       (getPatientVisitHistory patientId db)
  /\ (forall v,
        In v (getPatientVisitHistory patientId db) ->
        PatientVisit.items v <> []
        /\ PatientVisit.items v
           = map visit_item
               (rows_of (PatientVisit.transaction_id v)
                        (visit_rows patientId db))
        /\ exists s,
             In s (salesTransactionsTable db)
             /\ SalesTransaction.patient_id s = Some patientId
             /\ SalesTransaction.id s = PatientVisit.transaction_id v
             /\ SalesTransaction.transaction_date s
                = PatientVisit.transaction_date v
             /\ parseFloat (SalesTransaction.total_amount s)
                = PatientVisit.total_amount v)
  /\ (forall t,
        In t (map PatientVisit.transaction_id
                  (getPatientVisitHistory patientId db))
        <-> exists s it,
              In s (salesTransactionsTable db)
              /\ SalesTransaction.patient_id s = Some patientId
              /\ SalesTransaction.id s = t
              /\ In it (salesTransactionItemsTable db)
              /\ SalesTransactionItem.transaction_id it = t
              /\ has_medicine (SalesTransactionItem.medicine_id it)
                              (medicinesTable db) = true).
Proof.
  unfold getPatientVisitHistory, group_visits.
  assert (Hsorted : newest_first VisitRow.transaction_date
                      (visit_rows patientId db)).
  { unfold visit_rows.
    apply (newest_first_blocks SalesTransaction.transaction_date);
      [|apply order_by_desc_sorted].
    intros s r Hr. apply in_flat_map in Hr. destruct Hr as (it & _ & Hr).
    apply in_map_iff in Hr. destruct Hr as (m & <- & _). reflexivity. }
  destruct (group_all (visit_rows patientId db) [] [])
    as ((Hnd & Hv & Hr) & Hs).
  { split; [constructor|]. split; intros ? []. }
  { constructor. }
  { exact Hsorted. }
  cbn [app] in *. split; [exact Hnd|]. split; [exact Hs|]. split.
  - intros v Hin. destruct (Hv v Hin) as (Hitems & r & Hrin & Ht & Hd & Ha).
    split; [|split; [exact Hitems|]].
    + rewrite Hitems. intros Hnil. apply map_eq_nil in Hnil.
      assert (Hin' : In r (rows_of (PatientVisit.transaction_id v)
                                   (visit_rows patientId db))).
      { apply filter_In. split; [exact Hrin|lia]. }
      rewrite Hnil in Hin'. contradiction.
    + apply visit_rows_in in Hrin.
      destruct Hrin as (s & it & m & Hsin & Hp & _ & _ & _ & _ & ->).
      exists s. cbn in Ht, Hd, Ha. auto.
  - intros t. split.
    + intros Hin. apply in_map_iff in Hin. destruct Hin as (v & <- & Hin).
      destruct (Hv v Hin) as (_ & r & Hrin & Ht & _).
      apply visit_rows_in in Hrin.
      destruct Hrin as (s & it & m & Hsin & Hp & Hit & Htid & Hm & Hi & ->).
      cbn in Ht. exists s, it. repeat split; try assumption; try congruence.
      rewrite has_medicine_where.
      assert (Hw : In m (medicines_where_id
                           (SalesTransactionItem.medicine_id it)
                           (medicinesTable db)))
        by (apply filter_In; split; [exact Hm|lia]).
      destruct (medicines_where_id _ _); [contradiction|reflexivity].
    + intros (s & it & Hsin & Hp & Hid & Hit & Htid & Hhas).
      rewrite has_medicine_where in Hhas.
      destruct (medicines_where_id (SalesTransactionItem.medicine_id it)
                  (medicinesTable db)) as [|m tl] eqn:Em; [discriminate|].
      assert (Hm : In m (medicines_where_id
                           (SalesTransactionItem.medicine_id it)
                           (medicinesTable db)))
        by (rewrite Em; left; reflexivity).
      apply filter_In in Hm. destruct Hm as [Hm Hi].
      specialize (Hr (VisitRow.mk (SalesTransaction.id s)
                        (SalesTransaction.transaction_date s)
                        (SalesTransaction.total_amount s) (Medicine.name m)
                        (SalesTransactionItem.quantity it)
                        (SalesTransactionItem.unit_price it)
                        (SalesTransactionItem.total_price it))).
      cbn in Hr. rewrite <- Hid. apply Hr.
      apply visit_rows_in. exists s, it, m.
      repeat split; try assumption; lia.
Qed.

(** The two purchases of patient 1: the later one first, with its two
    items in the order of the cart. *)
Example visit_history_of_two_purchases :
  map (fun v => (PatientVisit.transaction_id v,
                 PatientVisit.transaction_date v,
                 map VisitItem.quantity (PatientVisit.items v)))
      (getPatientVisitHistory 1 john_twice)
  = [(2, 20, [1; 1]); (1, 10, [2])].
Proof. vm_compute. reflexivity. Qed.

(** * Listings of the sales *)

Lemma newest_first_views (l : list SalesTransaction.t) :
  newest_first SalesTransaction.transaction_date l ->
  newest_first (fun v => SalesTransaction.transaction_date (row v))
               (map view_of l).
Proof.
  unfold newest_first. induction 1 as [|r l Hs IH Hr]; cbn [map];
    constructor; [exact IH|].
  apply Forall_map. exact Hr.
Qed.

Lemma in_views (v : SalesTransactionView) (l : list SalesTransaction.t) :
  In v (map view_of l) <-> In (row v) l /\ v = view_of (row v).
Proof.
  rewrite in_map_iff. split.
  - intros (r & <- & Hr). split; [exact Hr|reflexivity].
  - intros [Hr Hv]. exists (row v). split; [symmetry; exact Hv|exact Hr].
Qed.

Lemma rows_of_views (l : list SalesTransaction.t) : map row (map view_of l) = l.
Proof. rewrite map_map. cbn [view_of row]. apply map_id. Qed.

(** X23. The listings of the sales.  [getSalesTransactions] lists every
    sale of the table, cancelled ones included, newest first, each with the
    amounts of its row.  [getSalesTransactionsByDateRange] lists, newest
    first, the sales of that list dated from [startDate] to [endDate], both
    ends included, and no other; it lists nothing when [endDate] lies
    before [startDate]. *)
Theorem sales_listings_are_dated (startDate endDate : timestamp) (db : Store) :
  Permutation (map row (getSalesTransactions db)) (salesTransactionsTable db)
  /\ newest_first (fun v => SalesTransaction.transaction_date (row v))
       (getSalesTransactions db)
  /\ newest_first (fun v => SalesTransaction.transaction_date (row v))
       (getSalesTransactionsByDateRange startDate endDate db)
  /\ (forall v,
        In v (getSalesTransactionsByDateRange startDate endDate db)
        <-> In v (getSalesTransactions db)
            /\ startDate <= SalesTransaction.transaction_date (row v) <= endDate)
  /\ (endDate < startDate ->
      getSalesTransactionsByDateRange startDate endDate db = []).
Proof.
  unfold getSalesTransactions, getSalesTransactionsByDateRange.
  split; [rewrite rows_of_views; apply order_by_desc_perm|].
  split; [apply newest_first_views, order_by_desc_sorted|].
  split; [apply newest_first_views, order_by_desc_sorted|].
  split.
  - intros v. rewrite !in_views, !order_by_desc_in, filter_In. split.
    + intros [[Hin Hr] Hv]. split; [split; assumption|lia].
    + intros [[Hin Hv] Hr]. split; [split; [exact Hin|lia]|exact Hv].
  - intros Hlt. rewrite filter_none; [reflexivity|].
    apply Forall_forall. intros r _. lia.
Qed.

(** X24. A sale that was created is listed.  After a
    [createSalesTransaction] that returned, [getSalesTransactions] lists
    the sale returned besides what it listed before, and
    [getSalesTransactionsByDateRange] lists it exactly for the intervals
    that contain the time of the call, both ends included. *)
Theorem created_sale_is_listed (now : timestamp)
    (input : CreateSalesTransactionInput) (db db' : Store)
    (view : SalesTransactionView) :
  createSalesTransaction now input db = (db', Ok view) ->
  SalesTransaction.transaction_date (row view) = now
  /\ Permutation (getSalesTransactions db') (view :: getSalesTransactions db)
  /\ (forall startDate endDate,
        In view (getSalesTransactionsByDateRange startDate endDate db')
        <-> startDate <= now <= endDate).
Proof.
  rewrite createSalesTransaction_eq.
  destruct (validate (medicinesTable db) (items input)) as [md|e];
    [|discriminate].
  destruct (PrimFloat.ltb _ _); [discriminate|].
  intros H. injection H as <- <-.
  split; [reflexivity|]. split.
  - unfold getSalesTransactions. cbn [sold salesTransactionsTable].
    apply (Permutation_map view_of
             (l' := SalesTransaction.mk _ _ _ _ _ _ _ _ _ _ :: _)).
    rewrite order_by_desc_perm, <- Permutation_cons_append.
    constructor. symmetry. apply order_by_desc_perm.
  - intros s e. unfold getSalesTransactionsByDateRange.
    rewrite in_views, order_by_desc_in, filter_In.
    cbn [sold salesTransactionsTable view_of row
         SalesTransaction.transaction_date]. split.
    + intros [[_ Hr] _]. lia.
    + intros Hr. split; [split; [apply in_elt|lia]|reflexivity].
Qed.

Lemma created_sale_is_listed_witness :
  exists db' view,
    createSalesTransaction 1 test_sale shelf = (db', Ok view)
    /\ In view (getSalesTransactionsByDateRange 0 1 db')
    /\ ~ In view (getSalesTransactionsByDateRange 2 3 db').
Proof.
  assert (H : createSalesTransaction 1 test_sale shelf
              = (fst (createSalesTransaction 1 test_sale shelf),
                 Ok (view_of (SalesTransaction.mk 1 None 1300000 CASH 2000000
                                700000 COMPLETED None 1 1))))
    by (vm_compute; reflexivity).
  destruct (created_sale_is_listed 1 test_sale shelf _ _ H) as (_ & _ & Hr).
  eexists _, _. split; [exact H|]. split.
  - apply Hr. lia.
  - intros Hin. apply Hr in Hin. lia.
Defined.

(** X25. A cancelled sale stays listed.  A [cancelSalesTransaction] that
    returned true changes nothing in the listings but the status of the
    sales of that id: [getSalesTransactions] and
    [getSalesTransactionsByDateRange] list the same sales as before, with
    the same dates and the same amounts. *)
Theorem cancelled_sale_stays_listed (now : timestamp) (id : Z)
    (db db' : Store) :
  cancelSalesTransaction now id db = (db', Ok true) ->
  Permutation
    (getSalesTransactions db')
    (map view_of
         (set_status_where_id id CANCELLED (map row (getSalesTransactions db))))
  /\ (forall startDate endDate,
        Permutation
          (getSalesTransactionsByDateRange startDate endDate db')
          (map view_of
               (set_status_where_id id CANCELLED
                  (map row
                       (getSalesTransactionsByDateRange startDate endDate db)))))
  /\ Permutation
       (map (fun v => (SalesTransaction.id (row v),
                       SalesTransaction.transaction_date (row v),
                       view_total_amount v, view_payment_received v,
                       view_change_amount v))
            (getSalesTransactions db'))
       (map (fun v => (SalesTransaction.id (row v),
                       SalesTransaction.transaction_date (row v),
                       view_total_amount v, view_payment_received v,
                       view_change_amount v))
            (getSalesTransactions db)).
Proof.
  rewrite cancelSalesTransaction_eq.
  destruct (sales_where_id id (salesTransactionsTable db)) as [|tx tl];
    [discriminate|].
  destruct (TransactionStatus_eqb _ _); [discriminate|].
  destruct (restore_loop now id
              (items_where_transaction_id id (salesTransactionItemsTable db))
              (marked_cancelled id db)) as (d & Hrun & Hsales & _).
  rewrite Hrun. cbn [fst]. intros H. injection H as <-.
  assert (Hkey : forall r,
             SalesTransaction.transaction_date
               (if SalesTransaction.id r =? id
                then SalesTransaction.set_status CANCELLED r else r)
             = SalesTransaction.transaction_date r).
  { intros r. destruct (SalesTransaction.id r =? id); reflexivity. }
  split; [|split].
  - unfold getSalesTransactions. rewrite Hsales, rows_of_views.
    cbn [marked_cancelled salesTransactionsTable]. unfold set_status_where_id.
    apply Permutation_map. rewrite order_by_desc_perm.
    apply Permutation_map. symmetry. apply order_by_desc_perm.
  - intros s e. unfold getSalesTransactionsByDateRange.
    rewrite Hsales, rows_of_views.
    cbn [marked_cancelled salesTransactionsTable]. unfold set_status_where_id.
    apply Permutation_map. rewrite order_by_desc_perm.
    replace (filter _ (map _ (salesTransactionsTable db)))
      with (map (fun r => if SalesTransaction.id r =? id
                          then SalesTransaction.set_status CANCELLED r else r)
                (filter (fun r =>
                           (s <=? SalesTransaction.transaction_date r)
                           && (SalesTransaction.transaction_date r <=? e))
                        (salesTransactionsTable db))).
    + apply Permutation_map. symmetry. apply order_by_desc_perm.
    + induction (salesTransactionsTable db) as [|r l IH]; [reflexivity|].
      cbn [map filter]. rewrite Hkey, <- IH.
      destruct (_ && _); reflexivity.
  - unfold getSalesTransactions. rewrite Hsales.
    cbn [marked_cancelled salesTransactionsTable]. unfold set_status_where_id.
    rewrite !map_map. rewrite order_by_desc_perm.
    rewrite (Permutation_map _ (order_by_desc_perm _ (salesTransactionsTable db))).
    rewrite map_map. apply Permutation_refl'. apply map_ext.
    intros r. destruct (SalesTransaction.id r =? id); reflexivity.
Qed.

Lemma cancelled_sale_stays_listed_witness :
  Permutation
    (getSalesTransactions
       (fst (cancelSalesTransaction 2 1
               (fst (createSalesTransaction 1 test_sale shelf)))))
    [view_of (SalesTransaction.mk 1 None 1300000 CASH 2000000 700000
                CANCELLED None 1 1)].
Proof.
  assert (H : cancelSalesTransaction 2 1
                (fst (createSalesTransaction 1 test_sale shelf))
              = (fst (cancelSalesTransaction 2 1
                        (fst (createSalesTransaction 1 test_sale shelf))),
                 Ok true))
    by (vm_compute; reflexivity).
  assert (E : map view_of
                (set_status_where_id 1 CANCELLED
                   (map row (getSalesTransactions
                               (fst (createSalesTransaction 1 test_sale shelf)))))
              = [view_of (SalesTransaction.mk 1 None 1300000 CASH 2000000
                            700000 CANCELLED None 1 1)])
    by (vm_compute; reflexivity).
  rewrite <- E. exact (proj1 (cancelled_sale_stays_listed 2 1 _ _ H)).
Defined.
